(** * Ariston remote-thermo checker: a shallow embedding of
      [ariston/__init__.py] (class [AristonChecker]) and its properties.

    The embedding follows the Python source function by function.  The
    checker object is a record, every method is a function in a small
    monad that threads the record, may raise a Python exception and logs
    the outward effects (HTTP requests, timers armed with
    [track_point_in_time], signals sent with [dispatcher_send]) together
    with the state of the checker at the moment of the effect.  The
    replies of the vendor backend and the readings of [time.time()] are
    inputs, collected in a [world] record.

    Not represented: the [threading.Lock] objects (one method runs at a
    time in this model), the logger calls, and what [setup] registers with
    Home Assistant (the platforms and the service); the loop of [setup]
    over the devices and the handler of the service are. *)

From Stdlib Require Import ZArith QArith Qround Qabs String Ascii List Bool Lia.
From Stdlib Require Import DecimalString Lqa.
From stdpp Require Import gmap strings.
Import ListNotations.

Local Open Scope Z_scope.
Local Open Scope string_scope.
Local Open Scope list_scope.

(** ** Python values and exceptions *)

(** The exceptions that the modelled code can raise.  [CommError] and
    [LoginError] are the integration's own; the others are the Python
    built-ins raised by subscripting, [int()], [round()] and the [requests]
    library.

    Modelled from the spec: the module [ariston/exceptions.py] is not part
    of the sources; the error kinds of the specification (Communication
    error, Login error, both special cases of the generic integration error
    [AristonError]) give the hierarchy used by [except AristonError]. *)
Inductive exn : Type :=
| CommError
| LoginError
| KeyError
| TypeError
| IndexError
| ValueError
| OverflowError
| RequestException.

Definition is_AristonError (e : exn) : bool :=
  match e with
  | CommError | LoginError => true
  | _ => false
  end.

Inductive outcome (A : Type) : Type :=
| Return (a : A)
| Raise (e : exn).
Arguments Return {A} a.
Arguments Raise {A} e.

Definition obind {A B} (o : outcome A) (k : A -> outcome B) : outcome B :=
  match o with
  | Return a => k a
  | Raise e => Raise e
  end.

Declare Scope outcome_scope.
Delimit Scope outcome_scope with outcome.
Notation "'let!' x := o 'in' k" := (obind o (fun x => k))
  (at level 10, x name, o at level 100, k at level 200) : outcome_scope.

(** A Python number: [int] or (finite) [float].  A finite binary64 value is
    a dyadic rational, and Python compares an [int] with a [float] by exact
    value, so the comparison operators are those of [Q]. *)
Inductive num : Type :=
| NInt (z : Z)
| NFloat (q : Q).

Definition num_Q (n : num) : Q :=
  match n with
  | NInt z => inject_Z z
  | NFloat q => q
  end.

(** The result of [resp.json()]: a JSON document as a Python value.  A
    [dict] is an association list in insertion order; subscripting finds
    the first binding of the key. *)
#[warnings="-register-all"]
Inductive json : Type :=
| JNull
| JBool (b : bool)
| JNum (n : num)
| JStr (s : string)
| JArr (l : list json)
| JObj (m : list (string * json)).

(** [x == {}] *)
Definition is_empty_dict (j : json) : bool :=
  match j with
  | JObj [] => true
  | _ => false
  end.

Fixpoint assoc_get (k : string) (m : list (string * json)) : option json :=
  match m with
  | [] => None
  | (k', v) :: m' => if String.eqb k k' then Some v else assoc_get k m'
  end.

Fixpoint assoc_set (k : string) (v : json) (m : list (string * json))
  : list (string * json) :=
  match m with
  | [] => [(k, v)]
  | (k', v') :: m' =>
      if String.eqb k k' then (k', v) :: m' else (k', v') :: assoc_set k v m'
  end.

(** [j[k]] for a string key: [KeyError] on a dict without the key,
    [TypeError] on anything that is not a dict. *)
Definition getitem (k : string) (j : json) : outcome json :=
  match j with
  | JObj m =>
      match assoc_get k m with
      | Some v => Return v
      | None => Raise KeyError
      end
  | _ => Raise TypeError
  end.

(** [j[k] = v] *)
Definition setitem (k : string) (v : json) (j : json) : outcome json :=
  match j with
  | JObj m => Return (JObj (assoc_set k v m))
  | _ => Raise TypeError
  end.

(** [j[k1][k2]...[kn]] *)
Fixpoint get_path (p : list string) (j : json) : outcome json :=
  match p with
  | [] => Return j
  | k :: p' => (let! x := getitem k j in get_path p' x)%outcome
  end.

(** [j[k1]...[kn] = v]: the objects on the way are read with [getitem], the
    last key is assigned.  The empty path does not occur. *)
Fixpoint set_path (p : list string) (v : json) (j : json) : outcome json :=
  match p with
  | [] => Return v
  | [k] => setitem k v j
  | k :: p' =>
      (let! x := getitem k j in
       let! x' := set_path p' v x in
       setitem k x' j)%outcome
  end.

(** [field == n] where [n] is a number: numbers compare by value, a [bool]
    is the integer 0 or 1, every other value is different from a number. *)
Definition py_eq_num (field : json) (n : num) : bool :=
  match field with
  | JNum m => Qeq_bool (num_Q m) (num_Q n)
  | JBool b => Qeq_bool (inject_Z (Z.b2z b)) (num_Q n)
  | _ => false
  end.

(** [n <= bound] and [n >= bound] against a JSON value: ordering a number
    with [None], a string, a list or a dict raises [TypeError]. *)
Definition json_number (j : json) : outcome Q :=
  match j with
  | JNum m => Return (num_Q m)
  | JBool b => Return (inject_Z (Z.b2z b))
  | _ => Raise TypeError
  end.

Definition py_ge_num (n : num) (bound : json) : outcome bool :=
  (let! b := json_number bound in Return (Qle_bool b (num_Q n)))%outcome.

Definition py_le_num (n : num) (bound : json) : outcome bool :=
  (let! b := json_number bound in Return (Qle_bool (num_Q n) b))%outcome.

(** [a < b] on time stamps *)
Definition Qlt_bool (a b : Q) : bool := negb (Qle_bool b a).

(** ** String built-ins *)

(** [s.split(sep)] for a one-character separator. *)
Fixpoint split (sep : ascii) (s : string) : list string :=
  match s with
  | EmptyString => [EmptyString]
  | String c r =>
      if Ascii.eqb c sep then EmptyString :: split sep r
      else match split sep r with
           | h :: t => String c h :: t
           | [] => [String c EmptyString]
           end
  end.

(** [l[i]] on a list: [IndexError] out of range. *)
Definition index {A} (l : list A) (i : nat) : outcome A :=
  match nth_error l i with
  | Some x => Return x
  | None => Raise IndexError
  end.

(** The white space that [int()] strips from a string of ASCII
    characters: tab, line feed, vertical tab, form feed, carriage return
    and the space. *)
Definition is_space (c : ascii) : bool :=
  let n := N_of_ascii c in
  ((9 <=? n) && (n <=? 13) || (n =? 32))%N.

Definition is_digit (c : ascii) : bool :=
  let n := N_of_ascii c in ((48 <=? n) && (n <=? 57))%N.

Definition digit_value (c : ascii) : N := (N_of_ascii c - 48)%N.

Fixpoint lstrip (l : list ascii) : list ascii :=
  match l with
  | c :: r => if is_space c then lstrip r else l
  | [] => []
  end.

Definition strip (l : list ascii) : list ascii :=
  rev (lstrip (rev (lstrip l))).

(** The digits of an integer literal: decimal digits, single underscores
    allowed between two digits. *)
Fixpoint digits_value (acc : N) (after_digit : bool) (l : list ascii)
  : option N :=
  match l with
  | [] => if after_digit then Some acc else None
  | c :: r =>
      if is_digit c then digits_value (10 * acc + digit_value c)%N true r
      else if Ascii.eqb c "_"%char then
             if after_digit then digits_value acc false r else None
           else None
  end.

(** [int(s)] in base 10: surrounding white space, an optional sign, then
    the digits.  This is [int] on strings of ASCII characters.  It is not
    [int] on other strings: Python also reads the decimal digits and the
    spaces of other scripts, which are taken as malformed here, and an
    interpreter may refuse a literal of more than 4300 digits, which is
    read here.  A statement that depends on [py_int] says for which
    strings it is made. *)
Definition py_int (s : string) : outcome Z :=
  let body := strip (list_ascii_of_string s) in
  let signed :=
    match body with
    | c :: r =>
        if Ascii.eqb c "-"%char then (true, r)
        else if Ascii.eqb c "+"%char then (false, r)
        else (false, body)
    | [] => (false, body)
    end in
  match digits_value 0%N false (snd signed) with
  | Some n => Return (if fst signed then - Z.of_N n else Z.of_N n)
  | None => Raise ValueError
  end.

(** [str(z)] for an [int] *)
Definition py_str (z : Z) : string := NilZero.string_of_int (Z.to_int z).

(** [round(q)] on a float: to the nearest integer, ties to the even one. *)
Definition py_round (q : Q) : Z :=
  let f := Qfloor q in
  let r := (q - inject_Z f)%Q in
  if Qlt_bool r (1 # 2) then f
  else if Qlt_bool (1 # 2) r then f + 1
  else if Z.even f then f else f + 1.

(** ** Binary64 arithmetic *)

(** The position of the leading bit of a rational other than 0: the [e]
    with [2 ^ e <= |q| < 2 ^ (e + 1)]. *)
Definition Qlog2 (q : Q) : Z :=
  let e := Z.log2 (Z.abs (Qnum q)) - Z.log2 (Zpos (Qden q)) in
  if Qle_bool (2 ^ e) (Qabs q) then e else e - 1.

(** The binary64 number nearest to [q], ties to the even significand: 53
    bits of significand, the least exponent -1022 (below it the numbers are
    spaced by [2 ^ -1074]).  Where the result leaves the range, [2 ^ 1024]
    with the sign of [q] stands for the infinity: it compares with every
    binary64 number as the infinity does. *)
Definition nearest_binary64 (q : Q) : Q :=
  if Qeq_bool q 0 then 0%Q
  else
    let e := Z.max (Qlog2 q) (-1022) in
    let ulp := (2 ^ (e - 52))%Q in
    let r := (inject_Z (py_round (q / ulp)) * ulp)%Q in
    if Qle_bool (2 ^ 1024) (Qabs r)
    then (if Qle_bool 0 q then 2 ^ 1024 else - 2 ^ 1024)%Q
    else r.

Definition round_binary64 (q : Q) : Q := nearest_binary64 (Qred q).

(** The rationals that are binary64 numbers. *)
Definition is_binary64 (q : Q) : bool :=
  Qeq_bool (round_binary64 q) q && Qlt_bool (Qabs q) (2 ^ 1024).

(** [a - b] on two [float]s, and on a [float] and the [int] 0: the
    binary64 number nearest to the exact difference.  The time stamps of
    the module are such numbers ([time.time()] returns a [float]); on a
    rational that is none, which no run of the module has, the difference
    is left as it is. *)
Definition float_sub (a b : Q) : Q :=
  if is_binary64 a && is_binary64 b then round_binary64 (a - b)
  else (a - b)%Q.

(** [round(x * 2.0)] on a [float]: doubling is exact unless the product
    leaves the binary64 range; there it is an infinity, on which [round]
    raises [OverflowError]. *)
Definition round_doubled (x : Q) : outcome Z :=
  if Qle_bool (2 ^ 1024) (Qabs (x * 2)) then Raise OverflowError
  else Return (py_round (x * 2)).

(** ** Constants of the module *)

Definition ARISTON_URL : string := "https://www.ariston-net.remotethermo.com".
Definition DEFAULT_MAX_RETRIES : Z := 1.
Definition DEFAULT_TIME : string := "00:00".
Definition HTTP_RETRY_INTERVAL : Z := 45.
Definition HTTP_RETRY_INTERVAL_DOWN : Z := 80.
Definition HTTP_SET_INTERVAL : Z := HTTP_RETRY_INTERVAL_DOWN * 2.
Definition MAX_ERRORS : Z := 4.
Definition MAX_ERRORS_TIMER_EXTEND : Z := 2.
Definition TIMER_SET_LOCK : Z := 25.

(** ** The checker object *)

(** The keys of the parameter dictionaries.  In the source they are the
    string constants [PARAM_MODE], [PARAM_DHW_SET_TEMPERATURE],
    [PARAM_CH_SET_TEMPERATURE] and [PARAM_CH_MODE] of [const.py], which is
    not part of the sources; they are four different keys. *)
Inductive param : Type :=
| PARAM_MODE
| PARAM_DHW_SET_TEMPERATURE
| PARAM_CH_SET_TEMPERATURE
| PARAM_CH_MODE.

#[global] Instance param_eq_dec : EqDecision param.
Proof. solve_decision. Defined.

Definition param_code (k : param) : nat :=
  match k with
  | PARAM_MODE => 0
  | PARAM_DHW_SET_TEMPERATURE => 1
  | PARAM_CH_SET_TEMPERATURE => 2
  | PARAM_CH_MODE => 3
  end%nat.

Definition param_of_code (n : nat) : param :=
  match n with
  | 0 => PARAM_MODE
  | 1 => PARAM_DHW_SET_TEMPERATURE
  | 2 => PARAM_CH_SET_TEMPERATURE
  | _ => PARAM_CH_MODE
  end%nat.

#[global] Instance param_countable : Countable param.
Proof.
  apply (inj_countable' param_code param_of_code).
  intros []; reflexivity.
Defined.

(** The attributes of [AristonChecker] set by [__init__], without the
    locks, the [requests] session and the Home Assistant handles. *)
Record checker : Type := Checker {
  _ariston_data : json;
  _errors : Z;
  _get_time_start : Q;
  _get_time_end : Q;
  _init_available : bool;
  _login : bool;
  _name : string;
  _password : string;
  _plant_id : string;
  _retry_timeout : Z;
  _set_param : gmap param num;
  _set_retry : Z;
  _set_max_retries : Z;
  _set_new_data : bool;
  _set_scheduled : bool;
  _set_time_start : Q;
  _set_time_end : Q;
  _token : option (string * string);
  _url : string;
  _user : string
}.

(** Attribute assignment, one function per attribute that the methods
    assign: [put_x v self] is [self] after [self._x = v]. *)
Definition put_ariston_data (v : json) (self : checker) : checker :=
  {| _ariston_data := v; _errors := _errors self;
     _get_time_start := _get_time_start self;
     _get_time_end := _get_time_end self;
     _init_available := _init_available self; _login := _login self;
     _name := _name self; _password := _password self;
     _plant_id := _plant_id self; _retry_timeout := _retry_timeout self;
     _set_param := _set_param self; _set_retry := _set_retry self;
     _set_max_retries := _set_max_retries self;
     _set_new_data := _set_new_data self;
     _set_scheduled := _set_scheduled self;
     _set_time_start := _set_time_start self;
     _set_time_end := _set_time_end self; _token := _token self;
     _url := _url self; _user := _user self |}.

Definition put_errors (v : Z) (self : checker) : checker :=
  {| _ariston_data := _ariston_data self; _errors := v;
     _get_time_start := _get_time_start self;
     _get_time_end := _get_time_end self;
     _init_available := _init_available self; _login := _login self;
     _name := _name self; _password := _password self;
     _plant_id := _plant_id self; _retry_timeout := _retry_timeout self;
     _set_param := _set_param self; _set_retry := _set_retry self;
     _set_max_retries := _set_max_retries self;
     _set_new_data := _set_new_data self;
     _set_scheduled := _set_scheduled self;
     _set_time_start := _set_time_start self;
     _set_time_end := _set_time_end self; _token := _token self;
     _url := _url self; _user := _user self |}.

Definition put_get_time_start (v : Q) (self : checker) : checker :=
  {| _ariston_data := _ariston_data self; _errors := _errors self;
     _get_time_start := v; _get_time_end := _get_time_end self;
     _init_available := _init_available self; _login := _login self;
     _name := _name self; _password := _password self;
     _plant_id := _plant_id self; _retry_timeout := _retry_timeout self;
     _set_param := _set_param self; _set_retry := _set_retry self;
     _set_max_retries := _set_max_retries self;
     _set_new_data := _set_new_data self;
     _set_scheduled := _set_scheduled self;
     _set_time_start := _set_time_start self;
     _set_time_end := _set_time_end self; _token := _token self;
     _url := _url self; _user := _user self |}.

Definition put_get_time_end (v : Q) (self : checker) : checker :=
  {| _ariston_data := _ariston_data self; _errors := _errors self;
     _get_time_start := _get_time_start self; _get_time_end := v;
     _init_available := _init_available self; _login := _login self;
     _name := _name self; _password := _password self;
     _plant_id := _plant_id self; _retry_timeout := _retry_timeout self;
     _set_param := _set_param self; _set_retry := _set_retry self;
     _set_max_retries := _set_max_retries self;
     _set_new_data := _set_new_data self;
     _set_scheduled := _set_scheduled self;
     _set_time_start := _set_time_start self;
     _set_time_end := _set_time_end self; _token := _token self;
     _url := _url self; _user := _user self |}.

Definition put_init_available (v : bool) (self : checker) : checker :=
  {| _ariston_data := _ariston_data self; _errors := _errors self;
     _get_time_start := _get_time_start self;
     _get_time_end := _get_time_end self; _init_available := v;
     _login := _login self; _name := _name self; _password := _password self;
     _plant_id := _plant_id self; _retry_timeout := _retry_timeout self;
     _set_param := _set_param self; _set_retry := _set_retry self;
     _set_max_retries := _set_max_retries self;
     _set_new_data := _set_new_data self;
     _set_scheduled := _set_scheduled self;
     _set_time_start := _set_time_start self;
     _set_time_end := _set_time_end self; _token := _token self;
     _url := _url self; _user := _user self |}.

Definition put_login (v : bool) (self : checker) : checker :=
  {| _ariston_data := _ariston_data self; _errors := _errors self;
     _get_time_start := _get_time_start self;
     _get_time_end := _get_time_end self;
     _init_available := _init_available self; _login := v;
     _name := _name self; _password := _password self;
     _plant_id := _plant_id self; _retry_timeout := _retry_timeout self;
     _set_param := _set_param self; _set_retry := _set_retry self;
     _set_max_retries := _set_max_retries self;
     _set_new_data := _set_new_data self;
     _set_scheduled := _set_scheduled self;
     _set_time_start := _set_time_start self;
     _set_time_end := _set_time_end self; _token := _token self;
     _url := _url self; _user := _user self |}.

Definition put_plant_id (v : string) (self : checker) : checker :=
  {| _ariston_data := _ariston_data self; _errors := _errors self;
     _get_time_start := _get_time_start self;
     _get_time_end := _get_time_end self;
     _init_available := _init_available self; _login := _login self;
     _name := _name self; _password := _password self; _plant_id := v;
     _retry_timeout := _retry_timeout self; _set_param := _set_param self;
     _set_retry := _set_retry self;
     _set_max_retries := _set_max_retries self;
     _set_new_data := _set_new_data self;
     _set_scheduled := _set_scheduled self;
     _set_time_start := _set_time_start self;
     _set_time_end := _set_time_end self; _token := _token self;
     _url := _url self; _user := _user self |}.

Definition put_retry_timeout (v : Z) (self : checker) : checker :=
  {| _ariston_data := _ariston_data self; _errors := _errors self;
     _get_time_start := _get_time_start self;
     _get_time_end := _get_time_end self;
     _init_available := _init_available self; _login := _login self;
     _name := _name self; _password := _password self;
     _plant_id := _plant_id self; _retry_timeout := v;
     _set_param := _set_param self; _set_retry := _set_retry self;
     _set_max_retries := _set_max_retries self;
     _set_new_data := _set_new_data self;
     _set_scheduled := _set_scheduled self;
     _set_time_start := _set_time_start self;
     _set_time_end := _set_time_end self; _token := _token self;
     _url := _url self; _user := _user self |}.

Definition put_set_param (v : gmap param num) (self : checker) : checker :=
  {| _ariston_data := _ariston_data self; _errors := _errors self;
     _get_time_start := _get_time_start self;
     _get_time_end := _get_time_end self;
     _init_available := _init_available self; _login := _login self;
     _name := _name self; _password := _password self;
     _plant_id := _plant_id self; _retry_timeout := _retry_timeout self;
     _set_param := v; _set_retry := _set_retry self;
     _set_max_retries := _set_max_retries self;
     _set_new_data := _set_new_data self;
     _set_scheduled := _set_scheduled self;
     _set_time_start := _set_time_start self;
     _set_time_end := _set_time_end self; _token := _token self;
     _url := _url self; _user := _user self |}.

Definition put_set_retry (v : Z) (self : checker) : checker :=
  {| _ariston_data := _ariston_data self; _errors := _errors self;
     _get_time_start := _get_time_start self;
     _get_time_end := _get_time_end self;
     _init_available := _init_available self; _login := _login self;
     _name := _name self; _password := _password self;
     _plant_id := _plant_id self; _retry_timeout := _retry_timeout self;
     _set_param := _set_param self; _set_retry := v;
     _set_max_retries := _set_max_retries self;
     _set_new_data := _set_new_data self;
     _set_scheduled := _set_scheduled self;
     _set_time_start := _set_time_start self;
     _set_time_end := _set_time_end self; _token := _token self;
     _url := _url self; _user := _user self |}.

Definition put_set_new_data (v : bool) (self : checker) : checker :=
  {| _ariston_data := _ariston_data self; _errors := _errors self;
     _get_time_start := _get_time_start self;
     _get_time_end := _get_time_end self;
     _init_available := _init_available self; _login := _login self;
     _name := _name self; _password := _password self;
     _plant_id := _plant_id self; _retry_timeout := _retry_timeout self;
     _set_param := _set_param self; _set_retry := _set_retry self;
     _set_max_retries := _set_max_retries self; _set_new_data := v;
     _set_scheduled := _set_scheduled self;
     _set_time_start := _set_time_start self;
     _set_time_end := _set_time_end self; _token := _token self;
     _url := _url self; _user := _user self |}.

Definition put_set_scheduled (v : bool) (self : checker) : checker :=
  {| _ariston_data := _ariston_data self; _errors := _errors self;
     _get_time_start := _get_time_start self;
     _get_time_end := _get_time_end self;
     _init_available := _init_available self; _login := _login self;
     _name := _name self; _password := _password self;
     _plant_id := _plant_id self; _retry_timeout := _retry_timeout self;
     _set_param := _set_param self; _set_retry := _set_retry self;
     _set_max_retries := _set_max_retries self;
     _set_new_data := _set_new_data self; _set_scheduled := v;
     _set_time_start := _set_time_start self;
     _set_time_end := _set_time_end self; _token := _token self;
     _url := _url self; _user := _user self |}.

Definition put_set_time_start (v : Q) (self : checker) : checker :=
  {| _ariston_data := _ariston_data self; _errors := _errors self;
     _get_time_start := _get_time_start self;
     _get_time_end := _get_time_end self;
     _init_available := _init_available self; _login := _login self;
     _name := _name self; _password := _password self;
     _plant_id := _plant_id self; _retry_timeout := _retry_timeout self;
     _set_param := _set_param self; _set_retry := _set_retry self;
     _set_max_retries := _set_max_retries self;
     _set_new_data := _set_new_data self;
     _set_scheduled := _set_scheduled self; _set_time_start := v;
     _set_time_end := _set_time_end self; _token := _token self;
     _url := _url self; _user := _user self |}.

Definition put_set_time_end (v : Q) (self : checker) : checker :=
  {| _ariston_data := _ariston_data self; _errors := _errors self;
     _get_time_start := _get_time_start self;
     _get_time_end := _get_time_end self;
     _init_available := _init_available self; _login := _login self;
     _name := _name self; _password := _password self;
     _plant_id := _plant_id self; _retry_timeout := _retry_timeout self;
     _set_param := _set_param self; _set_retry := _set_retry self;
     _set_max_retries := _set_max_retries self;
     _set_new_data := _set_new_data self;
     _set_scheduled := _set_scheduled self;
     _set_time_start := _set_time_start self; _set_time_end := v;
     _token := _token self; _url := _url self; _user := _user self |}.

Definition put_token (v : option (string * string)) (self : checker) : checker :=
  {| _ariston_data := _ariston_data self; _errors := _errors self;
     _get_time_start := _get_time_start self;
     _get_time_end := _get_time_end self;
     _init_available := _init_available self; _login := _login self;
     _name := _name self; _password := _password self;
     _plant_id := _plant_id self; _retry_timeout := _retry_timeout self;
     _set_param := _set_param self; _set_retry := _set_retry self;
     _set_max_retries := _set_max_retries self;
     _set_new_data := _set_new_data self;
     _set_scheduled := _set_scheduled self;
     _set_time_start := _set_time_start self;
     _set_time_end := _set_time_end self; _token := v; _url := _url self;
     _user := _user self |}.

(** [AristonChecker.__init__(hass, device, name, username, password,
    retries)] *)
Definition __init__ (name username password : string) (retries : Z)
  : checker :=
  {| _ariston_data := JObj [];
     _errors := 0;
     _get_time_start := 0;
     _get_time_end := 0;
     _init_available := false;
     _login := false;
     _name := name;
     _password := password;
     _plant_id := "";
     _retry_timeout := HTTP_RETRY_INTERVAL;
     _set_param := ∅;
     _set_retry := 0;
     _set_max_retries := retries;
     _set_new_data := false;
     _set_scheduled := false;
     _set_time_start := 0;
     _set_time_end := 0;
     _token := None;
     _url := ARISTON_URL;
     _user := username |}.

(** [AristonChecker.available] *)
Definition available (self : checker) : bool :=
  (_errors self <=? MAX_ERRORS)%Z && _init_available self.

(** ** Effects, the outside world and the method monad *)

(** The two methods that [track_point_in_time] is given as the action. *)
Inductive callback : Type :=
| CallCommand
| CallActualSetHttpData.

(** What a method does to the outside: the three HTTP requests of the
    [requests] session ([url] and JSON body), arming a one-shot timer
    [seconds] from now, and sending the update signal of the device. *)
Inductive effect : Type :=
| SessionPostLogin (url : string) (email password : string)
| SessionGet (url : string)
| SessionPostSet (url : string) (set_data : json)
| TrackPointInTime (action : callback) (seconds : Z)
| DispatcherSend (name : string).

(** An effect together with the checker as it is when the effect happens
    (what a listener reading the attributes at that moment would see). *)
Record event : Type := Event { what : effect; seen : checker }.

(** The answer to the login request: [requests.exceptions.ReadTimeout],
    any other exception of the request, or a response, of which only the
    final URL is read. *)
Inductive login_reply : Type :=
| LoginReadTimeout
| LoginRequestFailed
| LoginResponse (url : string).

(** The answer to a data request: [ReadTimeout], another
    [requests.RequestException], or a response with its status code and its
    body ([None] when [resp.json()] fails). *)
Inductive reply : Type :=
| ReadTimeout
| RequestFailed
| Response (status_code : Z) (body : option json).

(** What one run of a method gets from the outside: the answers to the
    (at most one each) requests it sends and the readings of [time.time()],
    in the order of the calls in [_get_http_data] and in
    [_actual_set_http_data].  Time stamps are rationals, like the parsed
    temperatures: differences and comparisons are those of the exact
    values. *)
Record world : Type := World {
  post_login : login_reply;
  get_data : reply;
  post_set : reply;
  time_get_check : Q;
  time_get_start : Q;
  time_get_end : Q;
  time_set_start : Q;
  time_set_end : Q
}.

Definition M (A : Type) : Type := checker -> outcome A * checker * list event.

Definition ret {A} (a : A) : M A := fun self => (Return a, self, []).

Definition bind {A B} (m : M A) (k : A -> M B) : M B :=
  fun self =>
    match m self with
    | (Return a, self', t) =>
        match k a self' with
        | (r, self'', t') => (r, self'', t ++ t')
        end
    | (Raise e, self', t) => (Raise e, self', t)
    end.

Definition raise {A} (e : exn) : M A := fun self => (Raise e, self, []).

Definition get : M checker := fun self => (Return self, self, []).

Definition modify (f : checker -> checker) : M unit :=
  fun self => (Return tt, f self, []).

Definition emit (e : effect) : M unit :=
  fun self => (Return tt, self, [Event e self]).

Definition lift {A} (o : outcome A) : M A :=
  match o with
  | Return a => ret a
  | Raise e => raise e
  end.

(** [try: m  except: h] *)
Definition try_except {A} (m : M A) (h : exn -> M A) : M A :=
  fun self =>
    match m self with
    | (Return a, self', t) => (Return a, self', t)
    | (Raise e, self', t) =>
        match h e self' with
        | (r, self'', t') => (r, self'', t ++ t')
        end
    end.

Declare Scope method_scope.
Delimit Scope method_scope with method.
Notation "x <- m ;; k" := (bind m (fun x => k))
  (at level 20, m at level 99, k at level 200, only parsing) : method_scope.
Notation "' pat <- m ;; k" := (bind m (fun x => match x with pat => k end))
  (at level 20, pat pattern, m at level 99, k at level 200, only parsing)
  : method_scope.
Notation "m ;; k" := (bind m (fun _ => k))
  (at level 100, k at level 200, only parsing, right associativity)
  : method_scope.
Local Open Scope method_scope.

Definition result {A} (r : outcome A * checker * list event) : outcome A :=
  fst (fst r).
Definition final {A} (r : outcome A * checker * list event) : checker :=
  snd (fst r).
Definition trace {A} (r : outcome A * checker * list event) : list event :=
  snd r.

(** ** Session: [_login_session] *)

Definition _login_session (w : world) : M unit :=
  self <- get ;;
  if negb (_login self) then
    let url := _url self +:+ "/Account/Login" in
    modify (put_token (Some (_user self, _password self))) ;;
    emit (SessionPostLogin url (_user self) (_password self)) ;;
    match post_login w with
    | LoginReadTimeout => raise CommError
    | LoginRequestFailed => raise RequestException
    | LoginResponse resp_url =>
        if String.prefix (_url self +:+ "/PlantDashboard/Index/") resp_url then
          plant_id <- lift (index (split "/" resp_url) 5) ;;
          modify (put_plant_id plant_id) ;;
          modify (put_login true)
        else raise LoginError
    end
  else ret tt.

(** ** Poll: [_get_http_data] and [command] *)

Definition _get_http_data (w : world) : M unit :=
  _login_session w ;;
  self <- get ;;
  if _login self && negb (String.eqb (_plant_id self) "") then
    if Qlt_bool (inject_Z TIMER_SET_LOCK)
                (float_sub (time_get_check w) (_set_time_start self)) then
      let url := _url self +:+ "/PlantDashboard/GetPlantData/"
                 +:+ _plant_id self in
      modify (put_get_time_start (time_get_start w)) ;;
      emit (SessionGet url) ;;
      match get_data w with
      | ReadTimeout | RequestFailed => raise CommError
      | Response status_code body =>
          if (status_code =? 599)%Z then raise CommError
          else if (status_code =? 500)%Z then
            modify (put_login false) ;; raise CommError
          else if negb (status_code =? 200)%Z then raise CommError
          else
            modify (put_get_time_end (time_get_end w)) ;;
            match body with
            | Some data => modify (put_ariston_data data)
            | None => modify (put_login false) ;; raise CommError
            end
      end
    else ret tt
  else raise LoginError.

(** Lines 462-471 of [command]: the block under [self._data_lock] that
    chooses the interval and arms the next tick. *)
Definition schedule_next_tick : M unit :=
  self <- get ;;
  (if (MAX_ERRORS_TIMER_EXTEND <=? _errors self)%Z
   then modify (put_retry_timeout HTTP_RETRY_INTERVAL_DOWN)
   else modify (put_retry_timeout HTTP_RETRY_INTERVAL)) ;;
  self <- get ;;
  emit (TrackPointInTime CallCommand (_retry_timeout self)).

(** Lines 475-485 of [command]: the body of [except AristonError], which
    counts the error, signals when the device goes off line and raises the
    exception again. *)
Definition count_error (e : exn) : M unit :=
  self <- get ;;
  let was_online := available self in
  modify (put_errors (_errors self + 1)) ;;
  self <- get ;;
  let offline := negb (available self) in
  (if offline && was_online then
     modify (put_login false) ;;
     emit (DispatcherSend (_name self))
   else ret tt) ;;
  raise e.

(** Lines 486-492 of [command]: after a fetch that did not raise. *)
Definition mark_online : M unit :=
  self <- get ;;
  let was_offline := negb (available self) in
  modify (put_errors 0) ;;
  modify (put_init_available true) ;;
  if was_offline then emit (DispatcherSend (_name self)) else ret tt.

Definition command (w : world) : M unit :=
  schedule_next_tick ;;
  try_except (_get_http_data w)
    (fun e => if is_AristonError e then count_error e else raise e) ;;
  mark_online.

(** ** Write reconciliation *)

(** The second half of [_set_deroga_time]: the conversion of the string
    [time_str_12h].  Every exception of the [try] block gives
    [DEFAULT_TIME]. *)
Definition convert_24h (time_str_12h : string) : string :=
  let time_and_indic := split " " time_str_12h in
  let converted : outcome string :=
    (let! indic := index time_and_indic 1 in
     if String.eqb indic "AM" then
       let! t := index time_and_indic 0 in
       if String.eqb t "12:00" then Return "00:00" else Return t
     else if String.eqb indic "PM" then
       let! t := index time_and_indic 0 in
       if String.eqb t "12:00" then Return "12:00"
       else
         let time_hour_minute := split ":" t in
         let! hour_str := index time_hour_minute 0 in
         let! hour := py_int hour_str in
         let! minute := index time_hour_minute 1 in
         Return (py_str (hour + 12) +:+ minute)
     else
       let time_hour_minute := split ":" time_str_12h in
       let! hour := index time_hour_minute 0 in
       if String.eqb hour "" then Return DEFAULT_TIME
       else
         let! minute := index time_hour_minute 1 in
         if String.eqb minute "" then Return DEFAULT_TIME
         else Return time_str_12h)%outcome in
  match converted with
  | Return time_str_24h => time_str_24h
  | Raise _ => DEFAULT_TIME
  end.

(** [_set_deroga_time]: reads [self._ariston_data["zone"]["derogaUntil"]],
    takes [DEFAULT_TIME] when it is absent or not a string, and converts. *)
Definition _set_deroga_time (self : checker) : string :=
  let time_str_12h :=
    match get_path ["zone"; "derogaUntil"] (_ariston_data self) with
    | Return (JStr s) => s
    | _ => DEFAULT_TIME
    end in
  convert_24h time_str_12h.

(** [if key in self._set_param: del self._set_param[key]] *)
Definition forget (key : param) : M unit :=
  self <- get ;;
  match _set_param self !! key with
  | Some _ => modify (put_set_param (delete key (_set_param self)))
  | None => ret tt
  end.

(** Lines 335-351 and again 383-399: unless a retry is already scheduled,
    schedule one while retries are left, else forget the four parameters. *)
Definition retry_or_give_up : M unit :=
  self <- get ;;
  if negb (_set_scheduled self) then
    if (_set_retry self <? _set_max_retries self)%Z then
      emit (TrackPointInTime CallActualSetHttpData HTTP_SET_INTERVAL) ;;
      modify (put_set_retry (_set_retry self + 1)) ;;
      modify (put_set_scheduled true)
    else
      forget PARAM_MODE ;;
      forget PARAM_DHW_SET_TEMPERATURE ;;
      forget PARAM_CH_SET_TEMPERATURE ;;
      forget PARAM_CH_MODE
  else ret tt.

(** Where the value of a parameter lives in the snapshot. *)
Definition field_path (key : param) : list string :=
  match key with
  | PARAM_MODE => ["mode"]
  | PARAM_DHW_SET_TEMPERATURE => ["dhwTemp"; "value"]
  | PARAM_CH_SET_TEMPERATURE => ["zone"; "comfortTemp"; "value"]
  | PARAM_CH_MODE => ["zone"; "mode"; "value"]
  end.

(** One of the four blocks of lines 290-333, which differ in the key and
    in the path only.  The local variables [data_changed] and [set_data]
    are passed in and returned. *)
Definition compare_param (key : param) (state : bool * json)
  : M (bool * json) :=
  let '(data_changed, set_data) := state in
  self <- get ;;
  match _set_param self !! key with
  | Some wanted =>
      field <- lift (get_path ("NewValue" :: field_path key) set_data) ;;
      if py_eq_num field wanted then
        if Qlt_bool (_set_time_start self) (_get_time_end self) then
          modify (put_set_param (delete key (_set_param self))) ;;
          ret (data_changed, set_data)
        else ret (true, set_data)
      else
        set_data' <- lift (set_path ("NewValue" :: field_path key)
                                    (JNum wanted) set_data) ;;
        ret (true, set_data')
  | None => ret (data_changed, set_data)
  end.

(** Lines 290-333. *)
Definition compare_params (set_data : json) : M (bool * json) :=
  s1 <- compare_param PARAM_MODE (false, set_data) ;;
  s2 <- compare_param PARAM_DHW_SET_TEMPERATURE s1 ;;
  s3 <- compare_param PARAM_CH_SET_TEMPERATURE s2 ;;
  compare_param PARAM_CH_MODE s3.

(** Lines 274-280: a run that finds [_set_new_data] unset is a scheduled
    one and clears [_set_scheduled]; otherwise it is the initial one, which
    clears the flag and the retry counter. *)
Definition take_attempt : M unit :=
  self <- get ;;
  if negb (_set_new_data self) then modify (put_set_scheduled false)
  else modify (put_set_new_data false) ;; modify (put_set_retry 0).

(** Lines 284-289: [set_data] with two copies of the snapshot, the deroga
    time converted in both. *)
Definition prepare_set_data (self : checker) : outcome json :=
  (let! set_data := setitem "NewValue" (_ariston_data self) (JObj []) in
   let! set_data := setitem "OldValue" (_ariston_data self) set_data in
   let! set_data := set_path ["NewValue"; "zone"; "derogaUntil"]
                             (JStr (_set_deroga_time self)) set_data in
   set_path ["OldValue"; "zone"; "derogaUntil"]
            (JStr (_set_deroga_time self)) set_data)%outcome.

(** Lines 352-377: the request that sends [set_data], and the snapshot
    taken from the answer. *)
Definition transmit (w : world) (url : string) (set_data : json) : M unit :=
  modify (put_set_time_start (time_set_start w)) ;;
  emit (SessionPostSet url set_data) ;;
  match post_set w with
  | ReadTimeout => raise CommError
  | RequestFailed => raise RequestException
  | Response status_code body =>
      if negb (status_code =? 200)%Z then raise CommError
      else
        modify (put_set_time_end (time_set_end w)) ;;
        match body with
        | Some data => modify (put_ariston_data data)
        | None => raise ValueError
        end
  end.

Definition _actual_set_http_data (w : world) : M unit :=
  _login_session w ;;
  take_attempt ;;
  self <- get ;;
  if _login self && available self && negb (String.eqb (_plant_id self) "")
  then
    let url := _url self +:+ "/PlantDashboard/SetPlantAndZoneData/"
               +:+ _plant_id self +:+ "?zoneNum=1&umsys=si" in
    set_data <- lift (prepare_set_data self) ;;
    ' (data_changed, set_data) <- compare_params set_data ;;
    if data_changed then
      retry_or_give_up ;;
      transmit w url set_data
    else ret tt
  else
    retry_or_give_up ;;
    raise CommError.

(** What the module takes from elsewhere.

    Modelled from the spec: [const.py] is not part of the sources; its
    tables [MODE_TO_VALUE] and [CH_MODE_TO_VALUE] are the two fixed tables
    of the specification, from a lower-case name to a code, and are kept as
    parameters.  The built-ins [float()] and [str.lower()] are parameters
    as well: [py_float s] is the value of [float(s)] when that is a finite
    number, and [None] when [float(s)] raises or gives an infinity or a NaN
    (on which [round] raises). *)
Class Platform : Type := {
  MODE_TO_VALUE : gmap string Z;
  CH_MODE_TO_VALUE : gmap string Z;
  py_float : string -> option Q;
  py_lower : string -> string
}.

Section SetHttpData.
Context `{Platform}.

(** [float(s)], failing on what [round] rejects. *)
Definition parse_float (s : string) : outcome Q :=
  match py_float s with
  | Some q => Return q
  | None => Raise ValueError
  end.

(** The [try] block of lines 419-427: [Some temperature] when the value
    is stored. *)
Definition check_dhw_temperature (wanted : string) (data : json)
  : outcome (option num) :=
  (let! x := parse_float wanted in
   let temperature := NInt (py_round x) in
   let! lo := get_path ["dhwTemp"; "min"] data in
   let! above := py_ge_num temperature lo in
   if above then
     let! hi := get_path ["dhwTemp"; "max"] data in
     let! below := py_le_num temperature hi in
     Return (if below then Some temperature else None)
   else Return None)%outcome.

(** The [try] block of lines 434-442. *)
Definition check_ch_temperature (wanted : string) (data : json)
  : outcome (option num) :=
  (let! x := parse_float wanted in
   let! doubled := round_doubled x in
   let temperature := NFloat (inject_Z doubled / 2)%Q in
   let! lo := get_path ["zone"; "comfortTemp"; "min"] data in
   let! above := py_ge_num temperature lo in
   if above then
     let! hi := get_path ["zone"; "comfortTemp"; "max"] data in
     let! below := py_le_num temperature hi in
     Return (if below then Some temperature else None)
   else Return None)%outcome.

(** [self._set_param[key] = value] *)
Definition store (key : param) (value : num) : M unit :=
  self <- get ;;
  modify (put_set_param (<[key := value]> (_set_param self))).

(** Lines 408-453: the four checks of [_set_http_data], each storing its
    parameter when the value is accepted.  A value of [parameter_list] is
    given as the string that [str()] makes of it. *)
Definition check_parameters (parameter_list : gmap param string) : M unit :=
  self <- get ;;
  (match parameter_list !! PARAM_MODE with
   | Some v =>
       let wanted_mode := py_lower v in
       match MODE_TO_VALUE !! wanted_mode with
       | Some code => store PARAM_MODE (NInt code)
       | None => ret tt
       end
   | None => ret tt
   end) ;;
  (match parameter_list !! PARAM_DHW_SET_TEMPERATURE with
   | Some v =>
       let wanted_dhw_temperature := py_lower v in
       match check_dhw_temperature wanted_dhw_temperature
                                   (_ariston_data self) with
       | Return (Some temperature) =>
           store PARAM_DHW_SET_TEMPERATURE temperature
       | _ => ret tt
       end
   | None => ret tt
   end) ;;
  (match parameter_list !! PARAM_CH_SET_TEMPERATURE with
   | Some v =>
       let wanted_ch_temperature := py_lower v in
       match check_ch_temperature wanted_ch_temperature
                                  (_ariston_data self) with
       | Return (Some temperature) =>
           store PARAM_CH_SET_TEMPERATURE temperature
       | _ => ret tt
       end
   | None => ret tt
   end) ;;
  (match parameter_list !! PARAM_CH_MODE with
   | Some v =>
       let wanted_ch_mode := py_lower v in
       match CH_MODE_TO_VALUE !! wanted_ch_mode with
       | Some code => store PARAM_CH_MODE (NInt code)
       | None => ret tt
       end
   | None => ret tt
   end).

(** [_set_http_data(parameter_list)] *)
Definition _set_http_data (w : world) (parameter_list : gmap param string)
  : M unit :=
  self <- get ;;
  if negb (is_empty_dict (_ariston_data self)) then
    check_parameters parameter_list ;;
    modify (put_set_new_data true) ;;
    _actual_set_http_data w
  else raise CommError.

End SetHttpData.

(** ** Reasoning about methods *)

(** [keeps f m]: running [m] does not change the value of [f] on the
    checker, however [m] ends. *)
Definition keeps {X A} (f : checker -> X) (m : M A) : Prop :=
  forall self, f (final (m self)) = f self.

(** [emits E m]: every effect of [m] satisfies [E]. *)
Definition emits {A} (E : effect -> Prop) (m : M A) : Prop :=
  forall self, Forall (fun ev => E (what ev)) (trace (m self)).

(** How many events of a trace carry an effect that [p] selects. *)
Definition count_effects (p : effect -> bool) (t : list event) : nat :=
  length (filter (fun ev => p (what ev) = true) t).

Definition is_dispatch (e : effect) : bool :=
  match e with DispatcherSend _ => true | _ => false end.

Definition is_post_set (e : effect) : bool :=
  match e with SessionPostSet _ _ => true | _ => false end.

Definition is_set_timer (e : effect) : bool :=
  match e with
  | TrackPointInTime CallActualSetHttpData _ => true
  | _ => false
  end.

Definition is_request (e : effect) : bool :=
  match e with
  | SessionPostLogin _ _ _ | SessionGet _ | SessionPostSet _ _ => true
  | _ => false
  end.

(** *** Sample data for the examples *)

(** A snapshot with the fields that the checker reads. *)
Definition sample_snapshot : json :=
  JObj [("mode", JNum (NInt 0));
        ("dhwTemp", JObj [("value", JNum (NInt 50));
                          ("min", JNum (NInt 40));
                          ("max", JNum (NInt 80))]);
        ("zone", JObj [("derogaUntil", JStr "12:30 PM");
                       ("comfortTemp", JObj [("value", JNum (NFloat 20));
                                             ("min", JNum (NInt 10));
                                             ("max", JNum (NInt 30))]);
                       ("mode", JObj [("value", JNum (NInt 2))])])].

(** A checker right after construction, and one that is logged in, has
    fetched [sample_snapshot] and is available. *)
Definition fresh_checker : checker := __init__ "Ariston" "user" "secret" 1.

Definition ready_checker : checker :=
  put_get_time_end 1000
    (put_ariston_data sample_snapshot
       (put_init_available true
          (put_login true (put_plant_id "P1" fresh_checker)))).

(** A world in which every request fails: the login and the read time out,
    the write is answered with status 500. *)
Definition failing_world : world :=
  {| post_login := LoginReadTimeout;
     get_data := ReadTimeout;
     post_set := Response 500 None;
     time_get_check := 2000;
     time_get_start := 2001;
     time_get_end := 2002;
     time_set_start := 2003;
     time_set_end := 2004 |}.

(** A world in which every request succeeds; the read returns [data]. *)
Definition working_world (data : json) : world :=
  {| post_login :=
       LoginResponse (ARISTON_URL +:+ "/PlantDashboard/Index/P1");
     get_data := Response 200 (Some data);
     post_set := Response 200 (Some data);
     time_get_check := 2000;
     time_get_start := 2001;
     time_get_end := 2002;
     time_set_start := 2003;
     time_set_end := 2004 |}.

(** The world [w] with the clock read at [t] and the seconds after it. *)
Definition at_time (t : Z) (w : world) : world :=
  {| post_login := post_login w;
     get_data := get_data w;
     post_set := post_set w;
     time_get_check := inject_Z t;
     time_get_start := inject_Z (t + 1);
     time_get_end := inject_Z (t + 2);
     time_set_start := inject_Z (t + 3);
     time_set_end := inject_Z (t + 4) |}.

(** One instance of the tables and built-ins: the names of the three modes
    and two heating modes, a [float()] that reads unsigned integers only,
    a [lower()] that leaves its argument alone. *)
Definition sample_platform : Platform :=
  {| MODE_TO_VALUE := {[ "winter" := 1; "summer" := 0; "off" := 5 ]};
     CH_MODE_TO_VALUE := {[ "manual" := 2; "scheduled" := 1 ]};
     py_float := fun s =>
       match digits_value 0%N false (list_ascii_of_string s) with
       | Some n => Some (inject_Z (Z.of_N n))
       | None => None
       end;
     py_lower := fun s => s |}.

(** *** Vocabulary for statements about time strings *)

(** Whether the character [c] occurs in [s]. *)
Fixpoint has_char (c : ascii) (s : string) : bool :=
  match s with
  | EmptyString => false
  | String c' r => Ascii.eqb c' c || has_char c r
  end.

(** A non-empty string of decimal digits. *)
Definition is_decimal (s : string) : bool :=
  match s with
  | EmptyString => false
  | _ => forallb is_digit (list_ascii_of_string s)
  end.

(** The number that a string of decimal digits denotes. *)
Definition decimal_value (s : string) : Z :=
  Z.of_N (fold_left (fun acc c => (10 * acc + digit_value c)%N)
                    (list_ascii_of_string s) 0%N).

(** A checker whose snapshot holds [s] as the deroga time. *)
Definition checker_with_deroga (s : string) : checker :=
  put_ariston_data (JObj [("zone", JObj [("derogaUntil", JStr s)])])
                   fresh_checker.

(** *** Vocabulary for statements about the methods *)

(** The attributes that a poll tick leaves to the write side. *)
Definition write_side (self : checker)
  : gmap param num * Z * Z * bool * bool * Q * Q :=
  (_set_param self, _set_retry self, _set_max_retries self,
   _set_new_data self, _set_scheduled self,
   _set_time_start self, _set_time_end self).

(** The attributes behind [available], and the name of the device. *)
Definition health (self : checker) : Z * bool * string :=
  (_errors self, _init_available self, _name self).

(** The events of a trace that send the update signal. *)
Definition dispatches (t : list event) : list event :=
  filter (fun ev => is_dispatch (what ev) = true) t.

(** What one tick of [command] with result [r] does to the error counter,
    to the latch and to the signal, from a checker [self]. *)
Definition tick_summary (self : checker)
    (r : outcome unit * checker * list event) : Prop :=
  match result r with
  | Return _ =>
      _errors (final r) = 0%Z /\ _init_available (final r) = true /\
      count_effects is_dispatch (trace r)
      = if available self then 0%nat else 1%nat
  | Raise e =>
      if is_AristonError e then
        _errors (final r) = (_errors self + 1)%Z /\
        _init_available (final r) = _init_available self /\
        count_effects is_dispatch (trace r)
        = if available self && negb (_errors self + 1 <=? MAX_ERRORS)%Z
          then 1%nat else 0%nat
      else
        health (final r) = health self /\
        count_effects is_dispatch (trace r) = 0%nat
  end.

(** The checker as the fetch of a tick leaves it, before [command] handles
    the outcome of the fetch. *)
Definition fetched (w : world) (self : checker) : checker :=
  final (_get_http_data w (final (schedule_next_tick self))).

(** *** Vocabulary for the comparison of pending parameters *)

(** [self._set_time_start < self._get_time_end]: the last write was started
    before the last successful read ended. *)
Definition confirmed (self : checker) : bool :=
  Qlt_bool (_set_time_start self) (_get_time_end self).

(** The field of the "NewValue" copy that belongs to a parameter. *)
Definition new_value_field (key : param) (set_data : json) : outcome json :=
  get_path ("NewValue" :: field_path key) set_data.

(** The cases of the specification for one parameter: not pending; pending,
    equal to the field and confirmed by a read; equal but not confirmed;
    different from the field. *)
Inductive verdict : Type :=
| Absent
| Resolved
| InFlight
| Differs (wanted : num).

(** The case of a parameter, in the words of the specification. *)
Definition judge (self : checker) (set_data : json) (key : param)
  : outcome verdict :=
  match _set_param self !! key with
  | None => Return Absent
  | Some wanted =>
      (let! field := new_value_field key set_data in
       Return (if py_eq_num field wanted
               then if confirmed self then Resolved else InFlight
               else Differs wanted))%outcome
  end.

(** The cases that mark the data as changed. *)
Definition marks_changed (v : verdict) : bool :=
  match v with
  | InFlight | Differs _ => true
  | Absent | Resolved => false
  end.

(** The four parameters in the order of the four blocks. *)
Definition all_params : list param :=
  [PARAM_MODE; PARAM_DHW_SET_TEMPERATURE; PARAM_CH_SET_TEMPERATURE;
   PARAM_CH_MODE].

(** The blocks of a list of parameters, one after the other. *)
Fixpoint compare_list (keys : list param) (state : bool * json)
  : M (bool * json) :=
  match keys with
  | [] => ret state
  | key :: keys' => state' <- compare_param key state ;; compare_list keys' state'
  end.

(** Two paths part at some key: neither leads into the other. *)
Fixpoint diverge (p q : list string) : bool :=
  match p, q with
  | a :: p', b :: q' => if String.eqb a b then diverge p' q' else true
  | _, _ => false
  end.

(** What the block of a parameter with case [v] leaves behind: the pending
    entry and the "NewValue" field after the block, given those before. *)
Definition settled (v : verdict)
    (pending_before : option num) (field_before : outcome json)
    (pending_after : option num) (field_after : outcome json) : Prop :=
  match v with
  | Absent | Resolved =>
      pending_after = None /\ field_after = field_before
  | InFlight =>
      pending_after = pending_before /\ field_after = field_before
  | Differs wanted =>
      pending_after = Some wanted /\ field_after = Return (JNum wanted)
  end.

(** A checker with three parameters pending against [sample_snapshot]: the
    mode and the hot-water temperature equal the snapshot, the heating
    temperature 21.5 differs from it. *)
Definition pending_checker : checker :=
  put_set_param
    {[ PARAM_MODE := NInt 0;
       PARAM_DHW_SET_TEMPERATURE := NFloat 50;
       PARAM_CH_SET_TEMPERATURE := NFloat (43 # 2) ]}
    ready_checker.

(** The case of each parameter for [pending_checker], once with the write
    confirmed by a later read and once not. *)
Definition sample_verdicts (read_confirms : bool) (key : param) : verdict :=
  match key with
  | PARAM_MODE | PARAM_DHW_SET_TEMPERATURE =>
      if read_confirms then Resolved else InFlight
  | PARAM_CH_SET_TEMPERATURE => Differs (NFloat (43 # 2))
  | PARAM_CH_MODE => Absent
  end.

(** The document that [pending_checker] prepares. *)
Definition sample_set_data : json :=
  match prepare_set_data pending_checker with
  | Return set_data => set_data
  | Raise _ => JNull
  end.

(** *** Vocabulary for statements about writes *)

(** The test of line 281: logged in, available, plant identifier known. *)
Definition ready (self : checker) : bool :=
  _login self && available self && negb (String.eqb (_plant_id self) "").

(** The address of the write request. *)
Definition set_url (self : checker) : string :=
  _url self +:+ "/PlantDashboard/SetPlantAndZoneData/"
  +:+ _plant_id self +:+ "?zoneNum=1&umsys=si".

(** The attributes that steer retries. *)
Definition retry_state (self : checker) : Z * Z * bool * bool :=
  (_set_retry self, _set_max_retries self, _set_new_data self,
   _set_scheduled self).

(** The checker without its pending parameters. *)
Definition but_pending (self : checker) : checker := put_set_param ∅ self.

(** *** Poll ticks and retry timers around a write *)

(** Poll ticks one after the other, each in its own world: the checker
    they leave and what they did. *)
Fixpoint ticks (ws : list world) (self : checker) : checker * list event :=
  match ws with
  | [] => (self, [])
  | w :: ws' =>
      let r := command w self in
      let '(self', t) := ticks ws' (final r) in
      (self', trace r ++ t)
  end.

(** Whether a trace arms the retry timer. *)
Definition arms_retry (t : list event) : bool :=
  (0 <? count_effects is_set_timer t)%nat.

(** The retry timer at work.  While a timer is armed, poll ticks pass, the
    timer fires and runs [_actual_set_http_data], which may arm the timer
    again.  [firings] gives, for each firing that may come, the worlds of
    the ticks before it and the world of the run. *)
Fixpoint fire_timers (firings : list (list world * world)) (armed : bool)
    (self : checker) : checker * list event :=
  match firings with
  | [] => (self, [])
  | (ws, w) :: rest =>
      if armed then
        let '(s1, t1) := ticks ws self in
        let r := _actual_set_http_data w s1 in
        let '(s2, t2) := fire_timers rest (arms_retry (trace r)) (final r) in
        (s2, t1 ++ trace r ++ t2)
      else (self, [])
  end.

(** One request to change parameters and all that follows from it. *)
Definition write_episode `{Platform} (w : world)
    (parameter_list : gmap param string)
    (firings : list (list world * world)) (self : checker)
  : checker * list event :=
  let r := _set_http_data w parameter_list self in
  let '(self', t) := fire_timers firings (arms_retry (trace r)) (final r) in
  (self', trace r ++ t).

(** What a run of [_actual_set_http_data] with result [r] does when it is
    the initial attempt of a request, from a checker [self] (whose
    [_set_new_data] is set): when the login step raises, nothing of the
    write side moves; otherwise the retry counter ends as the number of
    retry timers that the run armed, none or one. *)
Definition initial_attempt_summary (w : world) (self : checker)
    (r : outcome unit * checker * list event) : Prop :=
  match result (_login_session w self) with
  | Raise e =>
      result r = Raise e /\
      _set_param (final r) = _set_param self /\
      retry_state (final r) = retry_state self /\
      count_effects is_post_set (trace r) = 0%nat /\
      count_effects is_set_timer (trace r) = 0%nat
  | Return _ =>
      _set_new_data (final r) = false /\
      _set_max_retries (final r) = _set_max_retries self /\
      (count_effects is_post_set (trace r) <= 1)%nat /\
      (count_effects is_set_timer (trace r) <= 1)%nat /\
      _set_retry (final r)
      = Z.of_nat (count_effects is_set_timer (trace r)) /\
      (count_effects is_set_timer (trace r) = 1%nat ->
       _set_scheduled self = false /\ (0 < _set_max_retries self)%Z) /\
      (count_effects is_post_set (trace r) = 1%nat ->
       _set_scheduled self = false -> (0 < _set_max_retries self)%Z ->
       count_effects is_set_timer (trace r) = 1%nat)
  end.

(** A world in which the read is answered with status 500, the answer on
    which the checker drops its login, and the login times out. *)
Definition server_error_world : world :=
  {| post_login := LoginReadTimeout;
     get_data := Response 500 None;
     post_set := Response 500 None;
     time_get_check := 2000;
     time_get_start := 2001;
     time_get_end := 2002;
     time_set_start := 2003;
     time_set_end := 2004 |}.

(** A request for the mode "winter", which [sample_platform] accepts with
    code 1 while [sample_snapshot] has mode 0. *)
Definition winter_request : gmap param string := {[ PARAM_MODE := "winter" ]}.

(** What follows a request made in [failing_world]: a poll tick 100 seconds
    later whose read times out, and the scheduled retry after another 100
    seconds, whose write request is answered with status 500 again. *)
Definition retry_after_failed_tick : list (list world * world) :=
  [([at_time 2100 failing_world], at_time 2200 failing_world)].

(** The same with a tick whose read is answered with status 500, so that
    the checker drops its login, and a retry whose login times out. *)
Definition retry_after_logout : list (list world * world) :=
  [([at_time 2100 server_error_world], at_time 2200 failing_world)].

(** ** The rest of the module: the service and [setup] *)

(** What the service handler can end with: the [AristonError] that it
    raises itself, or an exception that comes out of the checker. *)
Inductive service_exn : Type :=
| AristonError
| Raised (e : exn).

Inductive service_result : Type :=
| Done
| Failed (e : service_exn).

(** The part of a service call that the handler reads: the entity id and
    the parameters, each given as the string that it is (a parameter that
    the call does not have is absent from [call_data]). *)
Record service_call : Type := ServiceCall {
  call_entity_id : string;
  call_data : gmap param string
}.

(** Lines 574-576 and the three like them:
    [data = call.data.get(key, ""); if data != "": parameter_list[key] = data] *)
Definition take_parameter (key : param) (data : gmap param string)
    (parameter_list : gmap param string) : gmap param string :=
  match data !! key with
  | Some v => if String.eqb v "" then parameter_list
              else <[key := v]> parameter_list
  | None => parameter_list
  end.

(** Lines 573-585. *)
Definition call_parameter_list (data : gmap param string)
  : gmap param string :=
  take_parameter PARAM_DHW_SET_TEMPERATURE data
    (take_parameter PARAM_CH_SET_TEMPERATURE data
       (take_parameter PARAM_CH_MODE data
          (take_parameter PARAM_MODE data ∅))).

(** The configuration of one device as [setup] reads it. *)
Record device_config : Type := DeviceConfig {
  conf_name : string;
  conf_username : string;
  conf_password : string;
  conf_max_retries : Z
}.

Section Service.
Context `{Platform}.

(** The loop of lines 569-591: the position and the checker of the first
    api whose name is [device] up to case. *)
Fixpoint find_api (device : string) (api_list : list checker) (i : nat)
  : option (nat * checker) :=
  match api_list with
  | [] => None
  | api :: rest =>
      if String.eqb (py_lower (_name api)) (py_lower device)
      then Some (i, api)
      else find_api device rest (S i)
  end.

(** [set_ariston_data(call)], the handler of the service, over the list
    [api_list] of the checkers that [setup] made.  The checker that the
    call is for is replaced in the list by what [_set_http_data] leaves. *)
Definition set_ariston_data (w : world) (call : service_call)
    (api_list : list checker)
  : service_result * list checker * list event :=
  let parts := split "." (call_entity_id call) in
  match index parts 0 with
  | Raise _ => (Failed AristonError, api_list, [])
  | Return domain =>
      if negb (String.eqb (py_lower domain) "climate")
      then (Failed AristonError, api_list, [])
      else
        match index parts 1 with
        | Raise _ => (Failed AristonError, api_list, [])
        | Return device =>
            match find_api device api_list 0 with
            | Some (i, api) =>
                let parameter_list := call_parameter_list (call_data call) in
                let r := _set_http_data w parameter_list api in
                (match result r with
                 | Return _ => Done
                 | Raise e => Failed (Raised e)
                 end,
                 <[i := final r]> api_list, trace r)
            | None => (Failed AristonError, api_list, [])
            end
        end
  end.

End Service.

(** Lines 499-513 of [setup]: the checker of one device is made and polled
    once; a login or communication error of that poll is logged and
    dropped, any other exception leaves [setup]. *)
Definition setup_device (w : world) (device : device_config)
  : outcome unit * checker * list event :=
  let api := __init__ (conf_name device) (conf_username device)
                      (conf_password device) (conf_max_retries device) in
  try_except (command w)
    (fun e => if is_AristonError e then ret tt else raise e) api.

(** The loop of [setup] over the configured devices, each first poll in
    its own world: the list [api_list] and what the polls did.  The
    registration of the platforms and of the service with Home Assistant
    is not represented. *)
Fixpoint setup_devices (devices : list (world * device_config))
  : outcome (list checker) * list event :=
  match devices with
  | [] => (Return [], [])
  | (w, device) :: rest =>
      let r := setup_device w device in
      match result r with
      | Raise e => (Raise e, trace r)
      | Return _ =>
          match setup_devices rest with
          | (Return api_list, t) => (Return (final r :: api_list), trace r ++ t)
          | (Raise e, t) => (Raise e, trace r ++ t)
          end
      end
  end.

(** *** Vocabulary for the further statements *)

Definition is_login_post (e : effect) : bool :=
  match e with SessionPostLogin _ _ _ => true | _ => false end.

Definition is_get (e : effect) : bool :=
  match e with SessionGet _ => true | _ => false end.

Definition is_poll_timer (e : effect) : bool :=
  match e with
  | TrackPointInTime CallCommand _ => true
  | _ => false
  end.

(** The address that a login is redirected to: the dashboard of the plant
    [plant_id], followed by [tail]. *)
Definition dashboard_url (plant_id tail : string) : string :=
  ARISTON_URL +:+ "/PlantDashboard/Index/" +:+ plant_id +:+ tail.

(** The address of the read request of a plant. *)
Definition get_url (self : checker) : string :=
  _url self +:+ "/PlantDashboard/GetPlantData/" +:+ _plant_id self.

(** [time.time() - self._set_time_start > TIMER_SET_LOCK]: the read of a
    tick at time [now] is not held back by the last write. *)
Definition outside_set_lock (now : Q) (self : checker) : bool :=
  Qlt_bool (inject_Z TIMER_SET_LOCK) (float_sub now (_set_time_start self)).

(** The interval that a tick arms the next tick with. *)
Definition poll_interval (self : checker) : Z :=
  if (MAX_ERRORS_TIMER_EXTEND <=? _errors self)%Z
  then HTTP_RETRY_INTERVAL_DOWN else HTTP_RETRY_INTERVAL.

(** What a fetch can change besides the session. *)
Definition read_side (self : checker) : json * Q * Q :=
  (_ariston_data self, _get_time_start self, _get_time_end self).

(** Every tick of [ws] ends with a communication or login error. *)
Fixpoint all_ticks_fail (ws : list world) (self : checker) : bool :=
  match ws with
  | [] => true
  | w :: ws' =>
      match result (command w self) with
      | Raise e =>
          is_AristonError e && all_ticks_fail ws' (final (command w self))
      | Return _ => false
      end
  end.

(** A world in which no request gets through, and none by a read timeout:
    the server cannot be reached. *)
Definition unreachable_world : world :=
  {| post_login := LoginRequestFailed;
     get_data := RequestFailed;
     post_set := RequestFailed;
     time_get_check := 2000;
     time_get_start := 2001;
     time_get_end := 2002;
     time_set_start := 2003;
     time_set_end := 2004 |}.

(** [ready_checker] after it has lost its login. *)
Definition logged_out_checker : checker := put_login false ready_checker.

(** What a checker is made with: the name of the device, the account, the
    address of the server and the number of retries of a write. *)
Definition identity (self : checker) : string * string * string * string * Z :=
  (_name self, _user self, _password self, _url self, _set_max_retries self).

(** Whether the login request of a world fails otherwise than by a read
    timeout. *)
Definition login_request_fails (w : world) : bool :=
  match post_login w with
  | LoginRequestFailed => true
  | _ => false
  end.

(** *** Vocabulary for the checks of a request *)

(** The value that the checks of [_set_http_data] (lines 408-453) store for
    [key], if any: the request has the key, and the mode is a known name,
    or the temperature is read, rounded and found within the bounds of the
    snapshot [data]. *)
Definition accepted `{Platform} (parameter_list : gmap param string)
    (data : json) (key : param) : option num :=
  match parameter_list !! key with
  | None => None
  | Some v =>
      match key with
      | PARAM_MODE => NInt <$> MODE_TO_VALUE !! py_lower v
      | PARAM_CH_MODE => NInt <$> CH_MODE_TO_VALUE !! py_lower v
      | PARAM_DHW_SET_TEMPERATURE =>
          match check_dhw_temperature (py_lower v) data with
          | Return (Some temperature) => Some temperature
          | _ => None
          end
      | PARAM_CH_SET_TEMPERATURE =>
          match check_ch_temperature (py_lower v) data with
          | Return (Some temperature) => Some temperature
          | _ => None
          end
      end
  end.

(** A number of the snapshot at [path], as a rational. *)
Definition bound_at (path : list string) (data : json) : outcome Q :=
  (let! j := get_path path data in json_number j)%outcome.

(** What a write can change of the snapshot and of its times. *)
Definition write_snapshot (self : checker) : json * Q * Q :=
  (_ariston_data self, _set_time_start self, _set_time_end self).

(** *** Vocabulary for the document of a write *)

(** The document that a write sends. *)
Definition write_doc (new_value old_value : json) : json :=
  JObj [("NewValue", new_value); ("OldValue", old_value)].

(** The document [doc] with the field of every parameter of [keys] whose
    case is [Differs] replaced by the pending value, one parameter after
    the other. *)
Fixpoint overwrite (v : param -> verdict) (keys : list param) (doc : json)
  : outcome json :=
  match keys with
  | [] => Return doc
  | key :: keys' =>
      match v key with
      | Differs wanted =>
          (let! doc' := set_path (field_path key) (JNum wanted) doc in
           overwrite v keys' doc')%outcome
      | _ => overwrite v keys' doc
      end
  end.

(** A string of ASCII characters. *)
Definition is_ascii (s : string) : bool :=
  forallb (fun c => (N_of_ascii c <? 128)%N) (list_ascii_of_string s).

(** The strings on which [py_int], and so the conversion of the deroga
    time, is the [int] of every interpreter: ASCII characters, and too
    short to hold more digits than an interpreter may refuse. *)
Definition plain_time (s : string) : bool :=
  is_ascii s && (String.length s <=? 4300)%nat.

(** The binary64 numbers nearest to 25.1 and to 0.1. *)
Definition float_25_1 : Q := 3532510957718733 # 140737488355328.
Definition float_0_1 : Q := 3602879701896397 # 36028797018963968.

(** *** Vocabulary for the retry of a request *)

(** The checker as the retry timer of a request finds it: after the call
    of [_set_http_data] and the poll ticks [ws] that follow it. *)
Definition before_retry `{Platform} (w : world)
    (parameter_list : gmap param string) (ws : list world)
    (self : checker) : checker :=
  fst (ticks ws (final (_set_http_data w parameter_list self))).

(** The run of [_actual_set_http_data] that the retry timer starts. *)
Definition retry_run `{Platform} (w : world)
    (parameter_list : gmap param string) (ws : list world) (w2 : world)
    (self : checker) : outcome unit * checker * list event :=
  _actual_set_http_data w2 (before_retry w parameter_list ws self).

(** A world at the edge of the write lock: the clock of the tick reads the
    float 25.1, and a read, if one is sent, is answered with status 500. *)
Definition edge_world : world :=
  {| post_login := LoginReadTimeout;
     get_data := Response 500 None;
     post_set := Response 500 None;
     time_get_check := float_25_1;
     time_get_start := float_25_1;
     time_get_end := float_25_1;
     time_set_start := float_25_1;
     time_set_end := float_25_1 |}.

(** [ready_checker] after a write that started when the clock read the
    float 0.1. *)
Definition edge_checker : checker := put_set_time_start float_0_1 ready_checker.
Section Combinators.
Context {X : Type} (f : checker -> X) (E : effect -> Prop).

Lemma keeps_ret {A} (a : A) : keeps f (ret a).
Proof. intros self. reflexivity. Qed.

Lemma keeps_raise {A} (e : exn) : keeps f (@raise A e).
Proof. intros self. reflexivity. Qed.

Lemma keeps_get : keeps f get.
Proof. intros self. reflexivity. Qed.

Lemma keeps_emit (e : effect) : keeps f (emit e).
Proof. intros self. reflexivity. Qed.

Lemma keeps_lift {A} (o : outcome A) : keeps f (lift o).
Proof. destruct o; intros self; reflexivity. Qed.

Lemma keeps_modify (g : checker -> checker) :
  (forall self, f (g self) = f self) -> keeps f (modify g).
Proof. intros Hg self. apply Hg. Qed.

Lemma keeps_bind {A B} (m : M A) (k : A -> M B) :
  keeps f m -> (forall a, keeps f (k a)) -> keeps f (bind m k).
Proof.
  intros Hm Hk self. unfold bind, final.
  specialize (Hm self). unfold final in Hm.
  destruct (m self) as [[[a | e] s1] t1]; simpl in *; [| exact Hm].
  specialize (Hk a s1). unfold final in Hk.
  destruct (k a s1) as [[r s2] t2]; simpl in *. congruence.
Qed.

Lemma keeps_try_except {A} (m : M A) (h : exn -> M A) :
  keeps f m -> (forall e, keeps f (h e)) -> keeps f (try_except m h).
Proof.
  intros Hm Hh self. unfold try_except, final.
  specialize (Hm self). unfold final in Hm.
  destruct (m self) as [[[a | e] s1] t1]; simpl in *; [exact Hm |].
  specialize (Hh e s1). unfold final in Hh.
  destruct (h e s1) as [[r s2] t2]; simpl in *. congruence.
Qed.

Lemma emits_ret {A} (a : A) : emits E (ret a).
Proof. intros self. constructor. Qed.

Lemma emits_raise {A} (e : exn) : emits E (@raise A e).
Proof. intros self. constructor. Qed.

Lemma emits_get : emits E get.
Proof. intros self. constructor. Qed.

Lemma emits_modify (g : checker -> checker) : emits E (modify g).
Proof. intros self. constructor. Qed.

Lemma emits_lift {A} (o : outcome A) : emits E (lift o).
Proof. destruct o; intros self; constructor. Qed.

Lemma emits_emit (e : effect) : E e -> emits E (emit e).
Proof. intros He self. repeat constructor. exact He. Qed.

Lemma emits_bind {A B} (m : M A) (k : A -> M B) :
  emits E m -> (forall a, emits E (k a)) -> emits E (bind m k).
Proof.
  intros Hm Hk self. unfold bind, trace.
  specialize (Hm self). unfold trace in Hm.
  destruct (m self) as [[[a | e] s1] t1]; simpl in *; [| exact Hm].
  specialize (Hk a s1). unfold trace in Hk.
  destruct (k a s1) as [[r s2] t2]; simpl in *.
  apply Forall_app; split; assumption.
Qed.

Lemma emits_try_except {A} (m : M A) (h : exn -> M A) :
  emits E m -> (forall e, emits E (h e)) -> emits E (try_except m h).
Proof.
  intros Hm Hh self. unfold try_except, trace.
  specialize (Hm self). unfold trace in Hm.
  destruct (m self) as [[[a | e] s1] t1]; simpl in *; [exact Hm |].
  specialize (Hh e s1). unfold trace in Hh.
  destruct (h e s1) as [[r s2] t2]; simpl in *.
  apply Forall_app; split; assumption.
Qed.
End Combinators.

(** Walks through a method body: one combinator lemma per construct, a case
    split at every [if] and [match]. *)
Ltac step_method :=
  match goal with
  | |- keeps _ (bind _ _) => apply keeps_bind; [| intros ?]
  | |- keeps _ (try_except _ _) => apply keeps_try_except; [| intros ?]
  | |- keeps _ (ret _) => apply keeps_ret
  | |- keeps _ (raise _) => apply keeps_raise
  | |- keeps _ get => apply keeps_get
  | |- keeps _ (emit _) => apply keeps_emit
  | |- keeps _ (lift _) => apply keeps_lift
  | |- keeps _ (modify _) => apply keeps_modify; intros ?; reflexivity
  | |- emits _ (bind _ _) => apply emits_bind; [| intros ?]
  | |- emits _ (try_except _ _) => apply emits_try_except; [| intros ?]
  | |- emits _ (ret _) => apply emits_ret
  | |- emits _ (raise _) => apply emits_raise
  | |- emits _ get => apply emits_get
  | |- emits _ (lift _) => apply emits_lift
  | |- emits _ (modify _) => apply emits_modify
  | |- emits _ (emit _) =>
      apply emits_emit; simpl; try tauto; try discriminate;
      try (repeat split; reflexivity)
  | |- _ (if ?c then _ else _) => destruct c
  | |- _ (match ?x with _ => _ end) => destruct x
  | |- _ (let '(_, _) := ?x in _) => destruct x
  end.

Ltac walk_method := repeat step_method.

(** ** The built-ins on small inputs *)

Example split_time_and_indicator :
  split " " "12:30 PM" = ["12:30"; "PM"] /\
  split ":" "12:30" = ["12"; "30"] /\
  split " " "18:30" = ["18:30"] /\
  split ":" "" = [""].
Proof. repeat split; reflexivity. Qed.

Example py_int_literals :
  py_int "12" = Return 12 /\ py_int " 012 " = Return 12 /\
  py_int "-5" = Return (-5) /\ py_int "1_0" = Return 10 /\
  py_int "1__0" = Raise ValueError /\ py_int "" = Raise ValueError /\
  py_int "12a" = Raise ValueError.
Proof. repeat split; reflexivity. Qed.

Example py_round_ties_to_even :
  py_round (5 # 2) = 2 /\ py_round (7 # 2) = 4 /\ py_round (-5 # 2) = -2 /\
  py_round (426 # 10) = 43 /\ py_round (949 # 10) = 95.
Proof. repeat split; reflexivity. Qed.

Example py_str_decimal :
  py_str 24 = "24" /\ py_str 0 = "0" /\ py_str (-8) = "-8".
Proof. repeat split; reflexivity. Qed.

Example set_path_sample :
  get_path ["zone"; "comfortTemp"; "value"] sample_snapshot
  = Return (JNum (NFloat 20)) /\
  get_path ["zone"; "missing"] sample_snapshot = Raise KeyError /\
  get_path ["mode"; "value"] sample_snapshot = Raise TypeError.
Proof. repeat split; reflexivity. Qed.

(** ** Strings *)

Lemma split_without_sep (sep : ascii) (s : string) :
  has_char sep s = false -> split sep s = [s].
Proof.
  induction s as [| c r IH]; simpl; [reflexivity |].
  intros Hc. apply orb_false_iff in Hc as [Hc Hr].
  rewrite Hc, (IH Hr). reflexivity.
Qed.

Lemma split_at_first_sep (sep : ascii) (a b : string) :
  has_char sep a = false ->
  split sep (a +:+ String sep b) = a :: split sep b.
Proof.
  induction a as [| c r IH]; simpl.
  - intros _. rewrite Ascii.eqb_refl. reflexivity.
  - intros Hc. apply orb_false_iff in Hc as [Hc Hr].
    rewrite Hc, (IH Hr). reflexivity.
Qed.

Lemma has_char_app (c : ascii) (a b : string) :
  has_char c (a +:+ b) = has_char c a || has_char c b.
Proof.
  induction a as [| c' r IH]; simpl; [reflexivity |].
  rewrite IH. apply orb_assoc.
Qed.

Lemma digit_is_no_separator (c : ascii) :
  is_digit c = true ->
  Ascii.eqb c " " = false /\ Ascii.eqb c ":" = false /\
  Ascii.eqb c "-" = false /\ Ascii.eqb c "+" = false /\
  is_space c = false.
Proof.
  destruct c as [[] [] [] [] [] [] [] []]; vm_compute;
    intros Hd; first [discriminate Hd | repeat split].
Qed.

Lemma digits_have_no_separator (l : list ascii) :
  forallb is_digit l = true ->
  has_char " " (string_of_list_ascii l) = false /\
  has_char ":" (string_of_list_ascii l) = false.
Proof.
  induction l as [| c r IH]; simpl; [split; reflexivity |].
  intros Hd. apply andb_true_iff in Hd as [Hc Hr].
  destruct (digit_is_no_separator c Hc) as (Hs & Hk & _).
  destruct (IH Hr) as [IH1 IH2].
  rewrite Hs, Hk, IH1, IH2. split; reflexivity.
Qed.

Lemma decimal_has_no_separator (s : string) :
  is_decimal s = true -> has_char " " s = false /\ has_char ":" s = false.
Proof.
  intros Hd. rewrite <- (string_of_list_ascii_of_string s).
  apply digits_have_no_separator.
  destruct s; [discriminate Hd | exact Hd].
Qed.

Lemma lstrip_digits (l : list ascii) :
  forallb is_digit l = true -> lstrip l = l.
Proof.
  destruct l as [| c r]; simpl; [reflexivity |].
  intros Hd. apply andb_true_iff in Hd as [Hc _].
  destruct (digit_is_no_separator c Hc) as (_ & _ & _ & _ & Hs).
  rewrite Hs. reflexivity.
Qed.

Lemma strip_digits (l : list ascii) :
  forallb is_digit l = true -> strip l = l.
Proof.
  intros Hd. unfold strip. rewrite (lstrip_digits l Hd).
  rewrite lstrip_digits; [apply rev_involutive |].
  rewrite forallb_forall in *. intros c Hc. apply Hd.
  apply in_rev. exact Hc.
Qed.

Lemma digits_value_digits (l : list ascii) (acc : N) (after_digit : bool) :
  forallb is_digit l = true ->
  (l <> [] \/ after_digit = true) ->
  digits_value acc after_digit l
  = Some (fold_left (fun a c => (10 * a + digit_value c)%N) l acc).
Proof.
  revert acc after_digit.
  induction l as [| c r IH]; simpl; intros acc after_digit Hd Hne.
  - destruct Hne as [Hne | ->]; [contradiction | reflexivity].
  - apply andb_true_iff in Hd as [Hc Hr]. rewrite Hc.
    apply IH; [exact Hr | right; reflexivity].
Qed.

Lemma py_int_decimal (s : string) :
  is_decimal s = true -> py_int s = Return (decimal_value s).
Proof.
  intros Hd. unfold py_int, decimal_value.
  destruct s as [| c r]; [discriminate Hd |].
  unfold is_decimal in Hd.
  rewrite (strip_digits _ Hd).
  assert (Hc : is_digit c = true).
  { simpl in Hd. apply andb_true_iff in Hd as [Hc _]. exact Hc. }
  destruct (digit_is_no_separator c Hc) as (_ & _ & Hm & Hp & _).
  cbn [list_ascii_of_string]. rewrite Hm, Hp. cbn [fst snd].
  rewrite digits_value_digits; [reflexivity | exact Hd | left; discriminate].
Qed.

(** ** The deroga time *)

Lemma set_deroga_time_of_string (self : checker) (s : string) :
  get_path ["zone"; "derogaUntil"] (_ariston_data self) = Return (JStr s) ->
  _set_deroga_time self = convert_24h s.
Proof. intros Hs. unfold _set_deroga_time. rewrite Hs. reflexivity. Qed.

Lemma convert_24h_without_space (s : string) :
  has_char " " s = false -> convert_24h s = DEFAULT_TIME.
Proof.
  intros Hs. unfold convert_24h.
  rewrite (split_without_sep _ _ Hs). reflexivity.
Qed.

Lemma hour_minute_is_noon (hs mm : string) :
  has_char ":" hs = false -> has_char ":" mm = false ->
  hs +:+ ":" +:+ mm = "12:00" -> hs = "12" /\ mm = "00".
Proof.
  intros Hh Hm Heq.
  assert (Hsp : split ":" (hs +:+ ":" +:+ mm) = split ":" "12:00")
    by (rewrite Heq; reflexivity).
  change (hs +:+ ":" +:+ mm) with (hs +:+ String ":" mm) in Hsp.
  rewrite (split_at_first_sep _ _ _ Hh), (split_without_sep _ _ Hm) in Hsp.
  simpl in Hsp. injection Hsp as -> ->. split; reflexivity.
Qed.

Lemma convert_24h_pm (hs mm : string) :
  is_decimal hs = true ->
  has_char " " mm = false -> has_char ":" mm = false ->
  ~ (hs = "12" /\ mm = "00") ->
  convert_24h ((hs +:+ ":" +:+ mm) +:+ " PM")
  = py_str (decimal_value hs + 12) +:+ mm.
Proof.
  intros Hd Hms Hmc Hnot.
  destruct (decimal_has_no_separator hs Hd) as [Hhs Hhc].
  assert (Ht : has_char " " (hs +:+ ":" +:+ mm) = false).
  { rewrite has_char_app, Hhs. simpl. exact Hms. }
  assert (Hnoon : String.eqb (hs +:+ ":" +:+ mm) "12:00" = false).
  { apply String.eqb_neq. intros Heq.
    apply Hnot. apply hour_minute_is_noon; assumption. }
  unfold convert_24h.
  change ((hs +:+ ":" +:+ mm) +:+ " PM")
    with ((hs +:+ ":" +:+ mm) +:+ String " " "PM").
  rewrite (split_at_first_sep _ _ _ Ht).
  change (split " " "PM") with ["PM"].
  cbn [index nth_error obind String.eqb Ascii.eqb Bool.eqb].
  rewrite Hnoon.
  change (hs +:+ ":" +:+ mm) with (hs +:+ String ":" mm).
  rewrite (split_at_first_sep _ _ _ Hhc), (split_without_sep _ _ Hmc).
  cbn [index nth_error obind].
  rewrite (py_int_decimal hs Hd). reflexivity.
Qed.

(** C6.  For every time "H:MM PM" other than "12:00 PM" (H a string of
    decimal digits, MM without space and colon), [_set_deroga_time] gives
    the decimal string of H + 12 followed directly by MM, without a colon:
    "12:30 PM" gives "2430" and "1:15 PM" gives "1315".  "12:00 PM" gives
    "12:00" and "12:00 AM" gives "00:00". *)
Theorem set_deroga_time_pm :
  (forall (self : checker) (hs mm : string),
     get_path ["zone"; "derogaUntil"] (_ariston_data self)
     = Return (JStr ((hs +:+ ":" +:+ mm) +:+ " PM")) ->
     is_decimal hs = true ->
     has_char " " mm = false -> has_char ":" mm = false ->
     ~ (hs = "12" /\ mm = "00") ->
     _set_deroga_time self = py_str (decimal_value hs + 12) +:+ mm) /\
  _set_deroga_time (checker_with_deroga "12:30 PM") = "2430" /\
  _set_deroga_time (checker_with_deroga "1:15 PM") = "1315" /\
  _set_deroga_time (checker_with_deroga "12:00 PM") = "12:00" /\
  _set_deroga_time (checker_with_deroga "12:00 AM") = "00:00".
Proof.
  split; [| repeat split; reflexivity].
  intros self hs mm Hs Hd Hms Hmc Hnot.
  rewrite (set_deroga_time_of_string _ _ Hs).
  apply convert_24h_pm; assumption.
Qed.

Lemma set_deroga_time_pm_witness :
  _set_deroga_time (checker_with_deroga "11:45 PM") = "2345".
Proof.
  apply (proj1 set_deroga_time_pm (checker_with_deroga "11:45 PM") "11" "45").
  - reflexivity.
  - reflexivity.
  - reflexivity.
  - reflexivity.
  - intros [Hh _]. discriminate Hh.
Defined.

(** C5.  What the code does on a time without AM/PM suffix: a string
    without a space, such as "18:30", has no second word, the subscript
    [time_and_indic[1]] raises and the result is the default "00:00"; the
    check of hour and minute is only reached by a string with a second word
    that is neither "AM" nor "PM", which is then returned whole. *)
Theorem set_deroga_time_plain_24h :
  _set_deroga_time (checker_with_deroga "18:30") = "00:00" /\
  (forall s : string, has_char " " s = false -> convert_24h s = "00:00") /\
  _set_deroga_time (checker_with_deroga "18:30 h") = "18:30 h".
Proof.
  split; [reflexivity |]. split; [| reflexivity].
  apply convert_24h_without_space.
Qed.

(** ** What the methods leave alone *)

Lemma login_session_keeps_other {X} (f : checker -> X) (w : world) :
  (forall v self, f (put_token v self) = f self) ->
  (forall v self, f (put_plant_id v self) = f self) ->
  (forall v self, f (put_login v self) = f self) ->
  keeps f (_login_session w).
Proof.
  intros Ht Hp Hl. unfold _login_session.
  repeat first
    [ apply keeps_modify; intros ?; solve [apply Ht | apply Hp | apply Hl]
    | step_method ].
Qed.

Lemma get_http_data_keeps_write_side (w : world) :
  keeps write_side (_get_http_data w).
Proof.
  unfold _get_http_data.
  apply keeps_bind; [apply login_session_keeps_other; reflexivity |].
  intros ?. walk_method.
Qed.

Lemma get_http_data_keeps_health (w : world) :
  keeps health (_get_http_data w).
Proof.
  unfold _get_http_data.
  apply keeps_bind; [apply login_session_keeps_other; reflexivity |].
  intros ?. walk_method.
Qed.

Lemma login_session_emits_login (w : world) :
  emits (fun e => exists url email password,
           e = SessionPostLogin url email password) (_login_session w).
Proof. unfold _login_session. walk_method. eauto. Qed.

Lemma emits_weaken {A} (E E' : effect -> Prop) (m : M A) :
  (forall e, E e -> E' e) -> emits E m -> emits E' m.
Proof.
  intros HE Hm self. eapply Forall_impl; [apply Hm |].
  intros ev. apply HE.
Qed.

Lemma get_http_data_emits_requests (w : world) :
  emits (fun e => is_request e = true /\ is_post_set e = false)
        (_get_http_data w).
Proof.
  unfold _get_http_data.
  apply emits_bind.
  - eapply emits_weaken; [| apply login_session_emits_login].
    intros e (url & email & password & ->). split; reflexivity.
  - intros ?. walk_method.
Qed.

(** ** Running a method step by step *)

Lemma run_bind {A B} (m : M A) (k : A -> M B) self :
  bind m k self =
  match result (m self) with
  | Return a =>
      (result (k a (final (m self))), final (k a (final (m self))),
       trace (m self) ++ trace (k a (final (m self))))
  | Raise e => (Raise e, final (m self), trace (m self))
  end.
Proof.
  unfold bind, result, final, trace.
  destruct (m self) as [[[a | e] s1] t1]; simpl; [| reflexivity].
  destruct (k a s1) as [[r s2] t2]. reflexivity.
Qed.

Lemma run_bind_ret {A B} (a : A) (k : A -> M B) self :
  bind (ret a) k self = k a self.
Proof. unfold bind, ret. destruct (k a self) as [[r s] t]. reflexivity. Qed.

Lemma run_bind_get {B} (k : checker -> M B) self :
  bind get k self = k self self.
Proof. unfold bind, get. destruct (k self self) as [[r s] t]. reflexivity. Qed.

Lemma run_bind_modify {B} f (k : unit -> M B) self :
  bind (modify f) k self = k tt (f self).
Proof.
  unfold bind, modify. destruct (k tt (f self)) as [[r s] t]. reflexivity.
Qed.

Lemma run_bind_raise {A B} e (k : A -> M B) self :
  bind (raise e) k self = (Raise e, self, []).
Proof. reflexivity. Qed.

Lemma run_bind_emit {B} e (k : unit -> M B) self :
  bind (emit e) k self
  = (result (k tt self), final (k tt self), Event e self :: trace (k tt self)).
Proof. unfold bind, emit. destruct (k tt self) as [[r s] t]. reflexivity. Qed.

Lemma run_bind_assoc {A B C} (m : M A) (k : A -> M B) (k' : B -> M C) self :
  bind (bind m k) k' self = bind m (fun a => bind (k a) k') self.
Proof.
  unfold bind. destruct (m self) as [[[a | e] s1] t1]; [| reflexivity].
  destruct (k a s1) as [[[b | e] s2] t2]; [| reflexivity].
  destruct (k' b s2) as [[r s3] t3]. rewrite app_assoc. reflexivity.
Qed.

Lemma run_bind_if {A B} (c : bool) (m1 m2 : M A) (k : A -> M B) self :
  bind (if c then m1 else m2) k self
  = if c then bind m1 k self else bind m2 k self.
Proof. destruct c; reflexivity. Qed.

Lemma run_if {A} (c : bool) (m1 m2 : M A) self :
  (if c then m1 else m2) self = if c then m1 self else m2 self.
Proof. destruct c; reflexivity. Qed.

Ltac run_step :=
  first
    [ rewrite run_bind_assoc
    | rewrite run_bind_ret
    | rewrite run_bind_get
    | rewrite run_bind_modify
    | rewrite run_bind_raise
    | rewrite run_bind_emit
    | rewrite run_bind_if
    | rewrite run_if ]; cbv beta.

Ltac run_method :=
  repeat run_step;
  repeat match goal with
  | |- context [ret ?a ?s] => change (ret a s) with (Return a, s, @nil event)
  | |- context [raise ?e ?s] =>
      change (raise e s) with (@Raise unit e, s, @nil event)
  | |- context [emit ?e ?s] =>
      change (emit e s) with (Return tt, s, [Event e s])
  | |- context [modify ?f ?s] =>
      change (modify f s) with (Return tt, f s, @nil event)
  end;
  cbn [result final trace fst snd].

Lemma schedule_next_tick_run self :
  schedule_next_tick self =
  let s1 := put_retry_timeout
              (if (MAX_ERRORS_TIMER_EXTEND <=? _errors self)%Z
               then HTTP_RETRY_INTERVAL_DOWN else HTTP_RETRY_INTERVAL) self in
  (Return tt, s1,
   [Event (TrackPointInTime CallCommand (_retry_timeout s1)) s1]).
Proof.
  unfold schedule_next_tick. run_method.
  destruct (MAX_ERRORS_TIMER_EXTEND <=? _errors self)%Z; reflexivity.
Qed.

Lemma count_error_run e self :
  count_error e self =
  let s1 := put_errors (_errors self + 1) self in
  if negb (available s1) && available self then
    (Raise e, put_login false s1,
     [Event (DispatcherSend (_name self)) (put_login false s1)])
  else (Raise e, s1, []).
Proof.
  unfold count_error. run_method. cbv zeta.
  destruct (negb _ && _); reflexivity.
Qed.

Lemma mark_online_run self :
  mark_online self =
  let s1 := put_init_available true (put_errors 0 self) in
  (Return tt, s1,
   if available self then [] else [Event (DispatcherSend (_name self)) s1]).
Proof.
  unfold mark_online. run_method. cbv zeta.
  destruct (available self); reflexivity.
Qed.

Lemma command_run w self :
  command w self =
  let s1 := final (schedule_next_tick self) in
  let t1 := trace (schedule_next_tick self) in
  let g := _get_http_data w s1 in
  match result g with
  | Return _ =>
      (Return tt, final (mark_online (final g)),
       t1 ++ trace g ++ trace (mark_online (final g)))
  | Raise e =>
      if is_AristonError e then
        (Raise e, final (count_error e (final g)),
         t1 ++ trace g ++ trace (count_error e (final g)))
      else (Raise e, final g, t1 ++ trace g)
  end.
Proof.
  unfold command. rewrite run_bind. rewrite schedule_next_tick_run.
  cbn [result final trace fst snd]. cbv zeta.
  set (s1 := put_retry_timeout _ self).
  rewrite run_bind. unfold try_except.
  destruct (_get_http_data w s1) as [[[[] | e] s2] t];
    cbn [result final trace fst snd].
  - rewrite mark_online_run. reflexivity.
  - destruct (is_AristonError e).
    + rewrite count_error_run. cbv zeta.
      destruct (negb _ && _); cbn [result final trace fst snd].
      * reflexivity.
      * rewrite app_nil_r. reflexivity.
    + unfold raise. cbn [result final trace fst snd].
      rewrite app_nil_r. reflexivity.
Qed.

(** ** The session and the guard of requests *)

(** C8.  When the session is logged in, [_login_session] sends no request
    and returns with the checker unchanged (token, plant identifier and
    login flag included); hence calling it again changes nothing either. *)
Theorem login_session_logged_in (w : world) (self : checker) :
  _login self = true ->
  _login_session w self = (Return tt, self, []) /\
  forall w' : world,
    _login_session w' (final (_login_session w self))
    = (Return tt, self, []).
Proof.
  intros Hl.
  assert (Hone : forall w0, _login_session w0 self = (Return tt, self, [])).
  { intros w0. unfold _login_session, bind, get. simpl.
    rewrite Hl. reflexivity. }
  split; [apply Hone |].
  intros w'. rewrite (Hone w). apply Hone.
Qed.

Lemma login_session_logged_in_witness :
  _login_session failing_world ready_checker = (Return tt, ready_checker, []).
Proof.
  apply (login_session_logged_in failing_world ready_checker).
  reflexivity.
Defined.

(** C4.  While the cached data is the empty dictionary (no snapshot was
    ever fetched), [_set_http_data] raises [CommError] at once, whatever
    the parameters: no request is sent, no effect happens at all, and the
    checker, its pending parameters included, is unchanged. *)
Theorem set_http_data_without_snapshot `{Platform}
    (w : world) (parameter_list : gmap param string) (self : checker) :
  _ariston_data self = JObj [] ->
  _set_http_data w parameter_list self = (Raise CommError, self, []).
Proof.
  intros Hd. unfold _set_http_data, bind, get. simpl.
  rewrite Hd. reflexivity.
Qed.

Lemma set_http_data_without_snapshot_witness :
  @_set_http_data sample_platform failing_world
     {[ PARAM_MODE := "winter" ]} fresh_checker
  = (Raise CommError, fresh_checker, []).
Proof.
  apply (@set_http_data_without_snapshot sample_platform).
  reflexivity.
Defined.

(** ** Poll ticks and the availability signal *)

Lemma count_effects_app (p : effect -> bool) (t1 t2 : list event) :
  count_effects p (t1 ++ t2) = (count_effects p t1 + count_effects p t2)%nat.
Proof. unfold count_effects. rewrite filter_app. apply length_app. Qed.

Lemma count_effects_none (p : effect -> bool) (t : list event) :
  Forall (fun ev => p (what ev) = false) t -> count_effects p t = 0%nat.
Proof.
  unfold count_effects. induction 1 as [| ev t Hev _ IH]; [reflexivity |].
  rewrite filter_cons_False; [exact IH | congruence].
Qed.

Lemma available_of_health (a b : checker) :
  health a = health b -> available a = available b.
Proof. unfold health, available. intros [= -> -> _]. reflexivity. Qed.

Lemma schedule_next_tick_health (self : checker) :
  health (final (schedule_next_tick self)) = health self.
Proof. rewrite schedule_next_tick_run. reflexivity. Qed.

Lemma get_http_data_no_dispatch (w : world) (self : checker) :
  count_effects is_dispatch (trace (_get_http_data w self)) = 0%nat.
Proof.
  apply count_effects_none.
  eapply Forall_impl; [apply get_http_data_emits_requests |].
  intros [[] ?]; simpl; intros [Hr _]; first [reflexivity | discriminate Hr].
Qed.

(** The fetch of a tick sees the health that the tick started with. *)
Lemma tick_fetch_health (w : world) (self : checker) :
  health (final (_get_http_data w (final (schedule_next_tick self))))
  = health self.
Proof.
  rewrite get_http_data_keeps_health. apply schedule_next_tick_health.
Qed.

Lemma command_summary (w : world) (self : checker) :
  tick_summary self (command w self).
Proof.
  unfold tick_summary. rewrite command_run. cbv zeta.
  pose proof (tick_fetch_health w self) as Hh.
  pose proof (get_http_data_no_dispatch w (final (schedule_next_tick self)))
    as Hn.
  pose proof (available_of_health _ _ Hh) as Hav.
  rewrite schedule_next_tick_run in *. cbv zeta in *.
  cbn [final trace fst snd] in *.
  set (s1 := put_retry_timeout _ self) in *.
  destruct (_get_http_data w s1) as [[[[] | e] s2] t];
    cbn [result final trace fst snd] in *.
  - rewrite mark_online_run. cbn [result final trace fst snd].
    rewrite !count_effects_app, Hn, Hav.
    split; [reflexivity |]. split; [reflexivity |].
    destruct (available self); reflexivity.
  - destruct (is_AristonError e) eqn:He.
    + rewrite count_error_run. cbv zeta.
      unfold health in Hh. injection Hh as He1 He2 He3.
      assert (Hav' : available (put_errors (_errors s2 + 1) s2)
                     = (_errors self + 1 <=? MAX_ERRORS)%Z
                       && _init_available self).
      { unfold available. simpl. rewrite He1, He2. reflexivity. }
      rewrite Hav', Hav.
      destruct (negb _ && available self) eqn:Hflip;
        cbn [result final trace fst snd]; rewrite He;
        rewrite !count_effects_app, Hn; simpl; rewrite He1, He2.
      * split; [reflexivity |]. split; [reflexivity |].
        unfold available in *.
        destruct (_errors self + 1 <=? MAX_ERRORS)%Z,
          (_errors self <=? MAX_ERRORS)%Z, (_init_available self);
          simpl in *; try discriminate; reflexivity.
      * split; [reflexivity |]. split; [reflexivity |].
        unfold available in *.
        destruct (_errors self + 1 <=? MAX_ERRORS)%Z,
          (_errors self <=? MAX_ERRORS)%Z, (_init_available self);
          simpl in *; try discriminate; reflexivity.
    + cbn [result final trace fst snd]. rewrite He.
      rewrite !count_effects_app, Hn. split; [exact Hh | reflexivity].
Qed.

(** *** Availability *)

Lemma actual_set_http_data_keeps_health (w : world) :
  keeps health (_actual_set_http_data w).
Proof.
  unfold _actual_set_http_data, take_attempt, compare_params, compare_param,
    retry_or_give_up, forget, transmit.
  apply keeps_bind; [apply login_session_keeps_other; reflexivity |].
  intros ?. walk_method.
Qed.

Lemma set_http_data_keeps_health `{Platform} (w : world)
    (parameter_list : gmap param string) :
  keeps health (_set_http_data w parameter_list).
Proof.
  unfold _set_http_data, check_parameters, store.
  repeat first [apply actual_set_http_data_keeps_health | step_method].
Qed.

Lemma failed_tick_keeps_latch (w : world) (self : checker) (e : exn) :
  result (command w self) = Raise e ->
  _init_available (final (command w self)) = _init_available self.
Proof.
  intros Hr. pose proof (command_summary w self) as Hs.
  unfold tick_summary in Hs. rewrite Hr in Hs.
  destruct (is_AristonError e).
  - destruct Hs as (_ & Hl & _). exact Hl.
  - destruct Hs as (Hh & _). unfold health in Hh. congruence.
Qed.

(** C1.  For every state of the checker, [available] is true exactly when
    the latch [_init_available] is set and the error counter is at most
    [MAX_ERRORS], which is 4.  In particular, while the latch is unset
    (as it is after construction) [available] is false whatever the error
    count.  The latch stays as it is through every poll tick that raises
    and through every request to change parameters: only a tick whose fetch
    did not raise sets it. *)
Theorem available_latch_and_errors (self : checker) :
  (available self = true <->
   _init_available self = true /\ (_errors self <= MAX_ERRORS)%Z) /\
  MAX_ERRORS = 4%Z /\
  (_init_available self = false ->
   forall errors : Z, available (put_errors errors self) = false) /\
  (forall name username password retries (errors : Z),
     available (put_errors errors (__init__ name username password retries))
     = false) /\
  (forall (w : world) (e : exn),
     result (command w self) = Raise e ->
     _init_available (final (command w self)) = _init_available self) /\
  (forall (w : world),
     _init_available (final (_actual_set_http_data w self))
     = _init_available self) /\
  (forall (platform : Platform) (w : world)
     (parameter_list : gmap param string),
     _init_available (final (_set_http_data w parameter_list self))
     = _init_available self).
Proof.
  unfold available.
  split; [split | split; [reflexivity | split; [| split; [| split; [| split]]]]].
  - intros Hav. apply andb_true_iff in Hav as [He Hl].
    split; [exact Hl | apply Z.leb_le; exact He].
  - intros [Hl He]. apply andb_true_iff. split; [| exact Hl].
    apply Z.leb_le. exact He.
  - intros Hl errors. simpl. rewrite Hl. apply andb_false_r.
  - intros. simpl. apply andb_false_r.
  - intros w e. apply failed_tick_keeps_latch.
  - intros w. pose proof (actual_set_http_data_keeps_health w self) as Hk.
    unfold health in Hk. congruence.
  - intros platform w parameter_list.
    pose proof (set_http_data_keeps_health w parameter_list self) as Hk.
    unfold health in Hk. congruence.
Qed.

Lemma available_latch_and_errors_witness :
  _init_available fresh_checker = false /\
  available (put_errors 0 fresh_checker) = false.
Proof.
  split; [reflexivity |].
  apply (proj1 (proj2 (proj2 (available_latch_and_errors fresh_checker)))).
  reflexivity.
Defined.

Lemma errors_bound_step (n : Z) :
  (n + 1 <=? MAX_ERRORS)%Z = true -> (n <=? MAX_ERRORS)%Z = true.
Proof. intros Hn. apply Z.leb_le. apply Z.leb_le in Hn. lia. Qed.

Lemma command_flip_count (w : world) (self : checker) :
  count_effects is_dispatch (trace (command w self))
  = if Bool.eqb (available self) (available (final (command w self)))
    then 0%nat else 1%nat.
Proof.
  pose proof (command_summary w self) as Hs. unfold tick_summary in Hs.
  destruct (result (command w self)) as [[] | e].
  - destruct Hs as (He & Hl & Hc). rewrite Hc.
    assert (Hav : available (final (command w self)) = true)
      by (unfold available; rewrite He, Hl; reflexivity).
    rewrite Hav. destruct (available self); reflexivity.
  - destruct (is_AristonError e).
    + destruct Hs as (He & Hl & Hc). rewrite Hc.
      unfold available. rewrite He, Hl.
      pose proof (errors_bound_step (_errors self)) as Hstep.
      destruct (_errors self + 1 <=? MAX_ERRORS)%Z,
        (_errors self <=? MAX_ERRORS)%Z, (_init_available self);
        simpl; try reflexivity.
      discriminate (Hstep eq_refl).
    + destruct Hs as (Hh & Hc). rewrite Hc.
      rewrite (available_of_health _ _ Hh), eqb_reflx. reflexivity.
Qed.

(** C7, as the code has it.  Every poll tick sends the availability signal
    exactly once when [available] differs before and after the tick, and
    not at all otherwise.  An error that takes the device from available to
    not available sends one; an error while it is not available sends none;
    a tick that succeeds while it is not available sends one and sets the
    error counter to 0; two failed ticks from an available checker (the
    latch set) that leave the counter within [MAX_ERRORS], then a
    successful one, send none and end with the counter at 0. *)
Theorem poll_tick_signals_each_flip :
  (forall w self,
     count_effects is_dispatch (trace (command w self))
     = if Bool.eqb (available self) (available (final (command w self)))
       then 0%nat else 1%nat) /\
  (forall w self e,
     result (command w self) = Raise e -> is_AristonError e = true ->
     available self = true -> available (final (command w self)) = false ->
     count_effects is_dispatch (trace (command w self)) = 1%nat) /\
  (forall w self e,
     result (command w self) = Raise e -> available self = false ->
     available (final (command w self)) = false /\
     count_effects is_dispatch (trace (command w self)) = 0%nat) /\
  (forall w self,
     result (command w self) = Return tt -> available self = false ->
     available (final (command w self)) = true /\
     _errors (final (command w self)) = 0%Z /\
     count_effects is_dispatch (trace (command w self)) = 1%nat) /\
  (forall w1 w2 w3 self e1 e2,
     available self = true ->
     result (command w1 self) = Raise e1 -> is_AristonError e1 = true ->
     result (command w2 (final (command w1 self))) = Raise e2 ->
     is_AristonError e2 = true ->
     (_errors (final (command w2 (final (command w1 self))))
      <= MAX_ERRORS)%Z ->
     result (command w3 (final (command w2 (final (command w1 self)))))
     = Return tt ->
     count_effects is_dispatch
       (trace (command w1 self)
        ++ trace (command w2 (final (command w1 self)))
        ++ trace (command w3 (final (command w2 (final (command w1 self))))))
     = 0%nat /\
     _errors (final (command w3 (final (command w2 (final (command w1 self))))))
     = 0%Z).
Proof.
  split; [exact command_flip_count |].
  split; [| split; [| split]].
  - intros w self e _ _ Hav Hav'.
    rewrite command_flip_count, Hav, Hav'. reflexivity.
  - intros w self e Hr Hav.
    pose proof (command_summary w self) as Hs. unfold tick_summary in Hs.
    rewrite Hr in Hs.
    assert (Hav' : available (final (command w self)) = false).
    { destruct (is_AristonError e).
      - destruct Hs as (He & Hl & _). unfold available in *.
        rewrite He, Hl.
        pose proof (errors_bound_step (_errors self)) as Hstep.
        destruct (_errors self + 1 <=? MAX_ERRORS)%Z,
          (_errors self <=? MAX_ERRORS)%Z, (_init_available self);
          simpl in *; try reflexivity; try discriminate.
        discriminate (Hstep eq_refl).
      - destruct Hs as (Hh & _).
        rewrite (available_of_health _ _ Hh). exact Hav. }
    split; [exact Hav' |].
    rewrite command_flip_count, Hav, Hav'. reflexivity.
  - intros w self Hr Hav.
    pose proof (command_summary w self) as Hs. unfold tick_summary in Hs.
    rewrite Hr in Hs. destruct Hs as (He & Hl & Hc).
    rewrite Hc, Hav. unfold available. rewrite He, Hl.
    repeat split; reflexivity.
  - intros w1 w2 w3 self e1 e2 Hav Hr1 He1 Hr2 He2 Hle Hr3.
    pose proof (command_summary w1 self) as Hs1.
    pose proof (command_summary w2 (final (command w1 self))) as Hs2.
    pose proof (command_summary w3
                  (final (command w2 (final (command w1 self))))) as Hs3.
    unfold tick_summary in Hs1, Hs2, Hs3.
    rewrite Hr1, He1 in Hs1. rewrite Hr2, He2 in Hs2. rewrite Hr3 in Hs3.
    destruct Hs1 as (E1 & L1 & C1). destruct Hs2 as (E2 & L2 & C2).
    destruct Hs3 as (E3 & L3 & C3).
    set (s1 := final (command w1 self)) in *.
    set (s2 := final (command w2 s1)) in *.
    apply andb_true_iff in Hav as Hparts. destruct Hparts as [_ Hlatch].
    assert (B2 : (_errors s1 + 1 <=? MAX_ERRORS)%Z = true)
      by (apply Z.leb_le; lia).
    assert (B1 : (_errors self + 1 <=? MAX_ERRORS)%Z = true)
      by (apply Z.leb_le; lia).
    assert (A1 : available s1 = true).
    { unfold available. rewrite L1, Hlatch, E1, B1. reflexivity. }
    assert (A2 : available s2 = true).
    { unfold available. rewrite L2, L1, Hlatch, E2, B2. reflexivity. }
    split; [| exact E3].
    rewrite !count_effects_app, C1, C2, C3, Hav, A1, A2, B1, B2.
    reflexivity.
Qed.

Lemma poll_tick_signals_each_flip_witness :
  count_effects is_dispatch
    (trace (command failing_world ready_checker)
     ++ trace (command failing_world
                 (final (command failing_world ready_checker)))
     ++ trace (command (working_world sample_snapshot)
                 (final (command failing_world
                           (final (command failing_world ready_checker))))))
  = 0%nat /\
  _errors (final (command (working_world sample_snapshot)
                    (final (command failing_world
                              (final (command failing_world ready_checker))))))
  = 0%Z.
Proof.
  apply (proj2 (proj2 (proj2 (proj2 poll_tick_signals_each_flip)))
           failing_world failing_world (working_world sample_snapshot)
           ready_checker CommError CommError);
    vm_compute; first [reflexivity | intros Hgt; discriminate Hgt].
Defined.

(** The ticks that the last sentence of the claim C7 misses: a checker
    right after construction, two ticks whose login times out, then a tick
    that logs in and fetches the snapshot.  The counter is 2, within
    [MAX_ERRORS], when the third tick starts; since the latch is still
    unset the device counts as not available, and the successful tick
    sends the signal once. *)
Lemma first_success_signals_once :
  result (command (at_time 100 failing_world) fresh_checker)
  = Raise CommError /\
  result (command (at_time 200 failing_world)
            (final (command (at_time 100 failing_world) fresh_checker)))
  = Raise CommError /\
  _errors (final (command (at_time 200 failing_world)
                    (final (command (at_time 100 failing_world)
                              fresh_checker))))
  = 2%Z /\
  result (command (at_time 300 (working_world sample_snapshot))
            (final (command (at_time 200 failing_world)
                      (final (command (at_time 100 failing_world)
                                fresh_checker)))))
  = Return tt /\
  count_effects is_dispatch
    (trace (command (at_time 300 (working_world sample_snapshot))
              (final (command (at_time 200 failing_world)
                        (final (command (at_time 100 failing_world)
                                  fresh_checker))))))
  = 1%nat.
Proof. vm_compute. repeat split; reflexivity. Qed.

Lemma dispatches_none (t : list event) :
  Forall (fun ev => is_dispatch (what ev) = false) t -> dispatches t = [].
Proof.
  unfold dispatches. induction 1 as [| ev t Hev _ IH]; [reflexivity |].
  rewrite filter_cons_False; [exact IH | congruence].
Qed.

Lemma dispatches_app (t1 t2 : list event) :
  dispatches (t1 ++ t2) = dispatches t1 ++ dispatches t2.
Proof. unfold dispatches. apply filter_app. Qed.

Lemma get_http_data_dispatches (w : world) (self : checker) :
  dispatches (trace (_get_http_data w self)) = [].
Proof.
  apply dispatches_none.
  eapply Forall_impl; [apply get_http_data_emits_requests |].
  intros [[] ?]; simpl; intros [Hr _]; first [reflexivity | discriminate Hr].
Qed.

Lemma login_session_run (w : world) (self : checker) :
  _login_session w self =
  if _login self then (Return tt, self, [])
  else
    let s1 := put_token (Some (_user self, _password self)) self in
    let ev := Event (SessionPostLogin (_url self +:+ "/Account/Login")
                       (_user self) (_password self)) s1 in
    match post_login w with
    | LoginReadTimeout => (Raise CommError, s1, [ev])
    | LoginRequestFailed => (Raise RequestException, s1, [ev])
    | LoginResponse resp_url =>
        if String.prefix (_url self +:+ "/PlantDashboard/Index/") resp_url
        then
          match index (split "/" resp_url) 5 with
          | Return plant_id =>
              (Return tt, put_login true (put_plant_id plant_id s1), [ev])
          | Raise e => (Raise e, s1, [ev])
          end
        else (Raise LoginError, s1, [ev])
    end.
Proof.
  unfold _login_session. rewrite run_bind_get.
  destruct (_login self); cbn [negb]; [reflexivity |].
  rewrite run_bind_modify, run_bind_emit. cbv zeta.
  destruct (post_login w) as [| | resp_url]; try reflexivity.
  destruct (String.prefix _ resp_url); [| reflexivity].
  destruct (index (split "/" resp_url) 5) as [plant_id | e]; cbn [lift].
  - rewrite run_bind_ret, run_bind_modify. reflexivity.
  - reflexivity.
Qed.

(** A logged-out session sends the login request, whatever comes back. *)
Lemma login_session_logged_out_trace (w : world) (self : checker) :
  _login self = false ->
  trace (_login_session w self)
  = [Event (SessionPostLogin (_url self +:+ "/Account/Login")
              (_user self) (_password self))
           (put_token (Some (_user self, _password self)) self)].
Proof.
  intros Hl. rewrite login_session_run, Hl. cbv zeta.
  destruct (post_login w) as [| | resp_url]; try reflexivity.
  destruct (String.prefix _ resp_url); [| reflexivity].
  destruct (index (split "/" resp_url) 5); reflexivity.
Qed.

Lemma command_error_handler_login (w : world) (self : checker) (e : exn) :
  result (command w self) = Raise e ->
  is_AristonError e = true ->
  if available self && negb (available (final (command w self)))
  then
    _login (final (command w self)) = false /\
    exists ev : event,
      dispatches (trace (command w self)) = [ev] /\
      _login (seen ev) = false
  else
    _login (final (command w self)) = _login (fetched w self) /\
    dispatches (trace (command w self)) = [].
Proof.
  unfold fetched. rewrite command_run. cbv zeta.
  pose proof (tick_fetch_health w self) as Hh.
  pose proof (get_http_data_dispatches w (final (schedule_next_tick self)))
    as Hn.
  pose proof (available_of_health _ _ Hh) as Hav.
  rewrite schedule_next_tick_run in *. cbv zeta in *.
  cbn [final trace fst snd] in *.
  set (s1 := put_retry_timeout _ self) in *.
  destruct (_get_http_data w s1) as [[[[] | e'] s2] t];
    cbn [result final trace fst snd] in *; [discriminate |].
  destruct (is_AristonError e') eqn:He'.
  - intros [= ->] _. rewrite count_error_run. cbv zeta.
    rewrite <- Hav.
    assert (Hsame : forall b,
              available (put_login b (put_errors (_errors s2 + 1) s2))
              = available (put_errors (_errors s2 + 1) s2))
      by reflexivity.
    destruct (negb (available (put_errors (_errors s2 + 1) s2)))
      eqn:Hoff, (available s2) eqn:Hon;
      cbn [andb result final trace fst snd];
      try rewrite Hsame; rewrite ?Hoff; cbn [andb negb].
    + split; [reflexivity |]. eexists. split.
      * rewrite !dispatches_app, Hn. reflexivity.
      * reflexivity.
    + split; [reflexivity |].
      rewrite !dispatches_app, Hn. reflexivity.
    + split; [reflexivity |].
      rewrite !dispatches_app, Hn. reflexivity.
    + split; [reflexivity |].
      rewrite !dispatches_app, Hn. reflexivity.
  - intros [= ->] He. congruence.
Qed.

(** C9.  When a poll tick ends with a communication or login error and
    this error takes the device from available to not available, [command]
    clears the login flag and then sends the availability signal: the one
    signal of the tick is sent from a checker whose [_login] is already
    false, the tick ends with [_login] false, and the next
    [_login_session] sends the login request again.  When the error does
    not flip the availability, the handler sends no signal and leaves
    [_login] as the fetch left it. *)
Theorem poll_error_flip_clears_login (w : world) (self : checker) (e : exn) :
  result (command w self) = Raise e ->
  is_AristonError e = true ->
  if available self && negb (available (final (command w self)))
  then
    _login (final (command w self)) = false /\
    (exists ev : event,
       dispatches (trace (command w self)) = [ev] /\
       _login (seen ev) = false) /\
    (forall w' : world,
       count_effects is_request
         (trace (_login_session w' (final (command w self)))) = 1%nat)
  else
    _login (final (command w self)) = _login (fetched w self) /\
    dispatches (trace (command w self)) = [].
Proof.
  intros Hr He.
  pose proof (command_error_handler_login w self e Hr He) as Hcore.
  destruct (available self && negb (available (final (command w self))));
    [| exact Hcore].
  destruct Hcore as [Hl Hev]. split; [exact Hl |]. split; [exact Hev |].
  intros w'. rewrite (login_session_logged_out_trace w' _ Hl).
  reflexivity.
Qed.

Lemma poll_error_flip_clears_login_witness :
  _login (final (command failing_world (put_errors 4 ready_checker))) = false /\
  (exists ev : event,
     dispatches (trace (command failing_world (put_errors 4 ready_checker)))
     = [ev] /\
     _login (seen ev) = false) /\
  (forall w' : world,
     count_effects is_request
       (trace (_login_session w'
                 (final (command failing_world (put_errors 4 ready_checker)))))
     = 1%nat).
Proof.
  exact (poll_error_flip_clears_login failing_world
           (put_errors 4 ready_checker) CommError eq_refl eq_refl).
Defined.

(** ** JSON documents *)

Lemma assoc_get_set_same (k : string) (v : json) (m : list (string * json)) :
  assoc_get k (assoc_set k v m) = Some v.
Proof.
  induction m as [| [k' v'] m IH]; simpl.
  - rewrite String.eqb_refl. reflexivity.
  - destruct (String.eqb k k') eqn:Hk; simpl; rewrite Hk;
      [reflexivity | exact IH].
Qed.

Lemma assoc_get_set_other (k k' : string) (v : json)
    (m : list (string * json)) :
  String.eqb k k' = false ->
  assoc_get k' (assoc_set k v m) = assoc_get k' m.
Proof.
  intros Hne. induction m as [| [k0 v0] m IH]; simpl.
  - rewrite String.eqb_sym, Hne. reflexivity.
  - destruct (String.eqb k k0) eqn:Hk; simpl.
    + apply String.eqb_eq in Hk. subst k0.
      rewrite String.eqb_sym, Hne. reflexivity.
    + destruct (String.eqb k' k0); [reflexivity | exact IH].
Qed.

Lemma getitem_setitem_same (k : string) (v j j' : json) :
  setitem k v j = Return j' -> getitem k j' = Return v.
Proof.
  destruct j; simpl; try discriminate. intros [= <-]. simpl.
  rewrite assoc_get_set_same. reflexivity.
Qed.

Lemma getitem_setitem_other (k k' : string) (v j j' : json) :
  String.eqb k k' = false ->
  setitem k v j = Return j' -> getitem k' j' = getitem k' j.
Proof.
  intros Hne. destruct j; simpl; try discriminate. intros [= <-]. simpl.
  rewrite (assoc_get_set_other _ _ _ _ Hne). reflexivity.
Qed.

Lemma setitem_after_getitem (k : string) (v x j : json) :
  getitem k j = Return x -> exists j', setitem k v j = Return j'.
Proof. destruct j; simpl; try discriminate. eauto. Qed.

(** Assigning along a path that can be read succeeds. *)
Lemma set_path_after_get (p : list string) (v x j : json) :
  p <> [] -> get_path p j = Return x ->
  exists j', set_path p v j = Return j'.
Proof.
  revert j. induction p as [| k p IH]; intros j Hne Hget; [contradiction |].
  simpl in Hget. destruct (getitem k j) as [y | e] eqn:Hk; [| discriminate].
  simpl in Hget.
  destruct p as [| k2 p'].
  - simpl. eapply setitem_after_getitem. exact Hk.
  - destruct (IH y ltac:(discriminate) Hget) as [y' Hy'].
    destruct (setitem_after_getitem k y' y j Hk) as [j' Hj'].
    exists j'. change (set_path (k :: k2 :: p') v j)
      with (obind (getitem k j) (fun x0 =>
              obind (set_path (k2 :: p') v x0) (fun x' => setitem k x' j))).
    rewrite Hk. cbn [obind]. rewrite Hy'. exact Hj'.
Qed.

(** Reading back what was assigned. *)
Lemma get_path_set_same (p : list string) (v j j' : json) :
  p <> [] -> set_path p v j = Return j' -> get_path p j' = Return v.
Proof.
  revert j j'. induction p as [| k p IH]; intros j j' Hne Hset;
    [contradiction |].
  destruct p as [| k2 p'].
  - simpl in *. rewrite (getitem_setitem_same _ _ _ _ Hset). reflexivity.
  - change (set_path (k :: k2 :: p') v j)
      with (obind (getitem k j) (fun x0 =>
              obind (set_path (k2 :: p') v x0) (fun x' => setitem k x' j)))
      in Hset.
    destruct (getitem k j) as [y | e]; [| discriminate].
    cbn [obind] in Hset.
    destruct (set_path (k2 :: p') v y) as [y' | e] eqn:Hy; [| discriminate].
    cbn [obind] in Hset.
    change (get_path (k :: k2 :: p') j')
      with (obind (getitem k j') (fun x => get_path (k2 :: p') x)).
    rewrite (getitem_setitem_same _ _ _ _ Hset). cbn [obind].
    apply (IH y y'); [discriminate | exact Hy].
Qed.

(** Assigning along one path leaves what another, diverging path reads. *)
Lemma get_path_set_other (p q : list string) (v j j' : json) :
  diverge p q = true ->
  set_path p v j = Return j' -> get_path q j' = get_path q j.
Proof.
  revert q j j'. induction p as [| k p IH]; intros q j j' Hd Hset;
    [discriminate |].
  destruct q as [| k' q']; [discriminate |].
  simpl in Hd.
  change (get_path (k' :: q') j')
    with (obind (getitem k' j') (fun x => get_path q' x)).
  change (get_path (k' :: q') j)
    with (obind (getitem k' j) (fun x => get_path q' x)).
  destruct p as [| k2 p'].
  - simpl in Hset. destruct (String.eqb k k') eqn:Hk.
    + destruct q'; discriminate.
    + rewrite (getitem_setitem_other _ _ _ _ _ Hk Hset). reflexivity.
  - change (set_path (k :: k2 :: p') v j)
      with (obind (getitem k j) (fun x0 =>
              obind (set_path (k2 :: p') v x0) (fun x' => setitem k x' j)))
      in Hset.
    destruct (getitem k j) as [y | e] eqn:Hy; [| discriminate].
    cbn [obind] in Hset.
    destruct (set_path (k2 :: p') v y) as [y' | e] eqn:Hy'; [| discriminate].
    cbn [obind] in Hset.
    destruct (String.eqb k k') eqn:Hk.
    + apply String.eqb_eq in Hk. subst k'.
      rewrite (getitem_setitem_same _ _ _ _ Hset), Hy. cbn [obind].
      apply (IH q' y y'); assumption.
    + rewrite (getitem_setitem_other _ _ _ _ _ Hk Hset). reflexivity.
Qed.

(** ** The comparison of pending parameters with the snapshot *)

Lemma put_set_param_same (self : checker) :
  put_set_param (_set_param self) self = self.
Proof. destruct self. reflexivity. Qed.

Lemma field_paths_diverge (k k' : param) :
  k <> k' ->
  diverge ("NewValue" :: field_path k) ("NewValue" :: field_path k') = true.
Proof. destruct k, k'; intros Hne; first [reflexivity | contradiction]. Qed.

Lemma compare_param_step (key : param) (c : bool) (sd : json)
    (self : checker) (v : verdict) :
  judge self sd key = Return v ->
  exists sd' self',
    compare_param key (c, sd) self
    = (Return (c || marks_changed v, sd'), self', []) /\
    confirmed self' = confirmed self /\
    self' = put_set_param (_set_param self') self /\
    (forall k, k <> key ->
       _set_param self' !! k = _set_param self !! k /\
       new_value_field k sd' = new_value_field k sd) /\
    settled v (_set_param self !! key) (new_value_field key sd)
              (_set_param self' !! key) (new_value_field key sd').
Proof.
  unfold judge, compare_param. rewrite run_bind_get.
  destruct (_set_param self !! key) as [wanted |] eqn:Hp.
  - unfold new_value_field at 1.
    destruct (get_path ("NewValue" :: field_path key) sd) as [field | e]
      eqn:Hf; [| discriminate].
    cbn [obind lift]. rewrite run_bind_ret.
    destruct (py_eq_num field wanted).
    + unfold confirmed at 1.
      destruct (Qlt_bool (_set_time_start self) (_get_time_end self)).
      * intros [= <-]. rewrite run_bind_modify. unfold ret.
        exists sd, (put_set_param (delete key (_set_param self)) self).
        rewrite orb_false_r. split; [reflexivity |].
        split; [reflexivity |]. split; [reflexivity |].
        split.
        -- intros k Hk. simpl. rewrite lookup_delete_ne by congruence.
           split; reflexivity.
        -- simpl. rewrite lookup_delete_eq. split; reflexivity.
      * intros [= <-]. unfold ret. exists sd, self.
        rewrite orb_true_r. split; [reflexivity |].
        split; [reflexivity |]. split; [symmetry; apply put_set_param_same |].
        split; [intros; split; reflexivity |].
        simpl. split; [exact Hp | reflexivity].
    + intros [= <-].
      destruct (set_path_after_get ("NewValue" :: field_path key)
                  (JNum wanted) field sd ltac:(discriminate) Hf)
        as [sd' Hset].
      rewrite Hset. cbn [lift]. rewrite run_bind_ret. unfold ret.
      exists sd', self. rewrite orb_true_r. split; [reflexivity |].
      split; [reflexivity |]. split; [symmetry; apply put_set_param_same |].
      split.
      * intros k Hk. split; [reflexivity |]. unfold new_value_field.
        assert (Hne : key <> k) by congruence.
        apply (get_path_set_other _ _ _ _ _
                 (field_paths_diverge key k Hne) Hset).
      * simpl. split; [exact Hp |]. unfold new_value_field.
        apply (get_path_set_same _ _ _ _) in Hset; [exact Hset | discriminate].
  - intros [= <-]. unfold ret. exists sd, self.
    rewrite orb_false_r. split; [reflexivity |].
    split; [reflexivity |]. split; [symmetry; apply put_set_param_same |].
    split; [intros; split; reflexivity |].
    simpl. split; [exact Hp | reflexivity].
Qed.

Lemma judge_frame (self self' : checker) (sd sd' : json) (k : param) :
  confirmed self' = confirmed self ->
  _set_param self' !! k = _set_param self !! k ->
  new_value_field k sd' = new_value_field k sd ->
  judge self' sd' k = judge self sd k.
Proof. unfold judge. intros -> -> ->. reflexivity. Qed.

Lemma settled_frame (v : verdict) (p0 p1 p2 : option num)
    (f0 f1 f2 : outcome json) :
  settled v p0 f0 p1 f1 -> p2 = p1 -> f2 = f1 -> settled v p0 f0 p2 f2.
Proof. intros Hs -> ->. exact Hs. Qed.

Lemma compare_list_spec (keys : list param) :
  NoDup keys ->
  forall (c : bool) (sd : json) (self : checker) (v : param -> verdict),
    (forall k, k ∈ keys -> judge self sd k = Return (v k)) ->
    exists sd' self',
      compare_list keys (c, sd) self
      = (Return (c || existsb (fun k => marks_changed (v k)) keys, sd'),
         self', []) /\
      confirmed self' = confirmed self /\
      self' = put_set_param (_set_param self') self /\
      (forall k, k ∉ keys ->
         _set_param self' !! k = _set_param self !! k /\
         new_value_field k sd' = new_value_field k sd) /\
      (forall k, k ∈ keys ->
         settled (v k) (_set_param self !! k) (new_value_field k sd)
                 (_set_param self' !! k) (new_value_field k sd')).
Proof.
  induction 1 as [| key keys Hnotin Hnodup IH]; intros c sd self v Hj.
  - exists sd, self. simpl. rewrite orb_false_r.
    split; [reflexivity |]. split; [reflexivity |].
    split; [symmetry; apply put_set_param_same |].
    split; [intros; split; reflexivity |].
    intros k Hk. inversion Hk.
  - destruct (compare_param_step key c sd self (v key)
                (Hj key ltac:(left)))
      as (sd1 & self1 & Hrun1 & Hc1 & Hs1 & Hother1 & Hown1).
    destruct (IH (c || marks_changed (v key)) sd1 self1 v)
      as (sd2 & self2 & Hrun2 & Hc2 & Hs2 & Hother2 & Hown2).
    { intros k Hk.
      assert (Hne : k <> key) by (intros ->; contradiction).
      destruct (Hother1 k Hne) as [Hp Hf].
      rewrite (judge_frame _ _ _ _ _ Hc1 Hp Hf). apply Hj. right. exact Hk. }
    exists sd2, self2. cbn [compare_list existsb].
    rewrite run_bind, Hrun1. cbn [result final trace fst snd].
    rewrite Hrun2. cbn [result final trace fst snd app].
    rewrite orb_assoc. split; [reflexivity |].
    split; [congruence |].
    split; [rewrite Hs2, Hs1 at 1; reflexivity |].
    split.
    + intros k Hk. apply not_elem_of_cons in Hk as [Hne Hk].
      destruct (Hother1 k Hne) as [Hp1 Hf1].
      destruct (Hother2 k Hk) as [Hp2 Hf2].
      split; congruence.
    + intros k Hk. apply elem_of_cons in Hk as [-> | Hk].
      * destruct (Hother2 key Hnotin) as [Hp2 Hf2].
        apply (settled_frame _ _ _ _ _ _ _ Hown1 Hp2 Hf2).
      * assert (Hne : k <> key) by (intros ->; contradiction).
        destruct (Hother1 k Hne) as [Hp1 Hf1].
        specialize (Hown2 k Hk). rewrite Hp1, Hf1 in Hown2. exact Hown2.
Qed.

Lemma bind_ret_right {A} (m : M A) (self : checker) :
  bind m ret self = m self.
Proof.
  unfold bind, ret. destruct (m self) as [[[a | e] s1] t1]; [| reflexivity].
  rewrite app_nil_r. reflexivity.
Qed.

Lemma bind_ext {A B} (m : M A) (k k' : A -> M B) :
  (forall a s, k a s = k' a s) ->
  forall self, bind m k self = bind m k' self.
Proof.
  intros Hk self. unfold bind.
  destruct (m self) as [[[a | e] s1] t1]; [| reflexivity].
  rewrite Hk. reflexivity.
Qed.

Lemma compare_params_as_list (sd : json) (self : checker) :
  compare_params sd self = compare_list all_params (false, sd) self.
Proof.
  unfold compare_params, all_params. cbn [compare_list].
  apply bind_ext; intros s1 self1.
  apply bind_ext; intros s2 self2.
  apply bind_ext; intros s3 self3.
  symmetry. apply (bind_ret_right (compare_param PARAM_CH_MODE s3)).
Qed.

(** C2.  In the comparison that a reconciliation step runs when session
    and availability are ready (lines 290-333), every parameter is handled
    by its case.  A pending value equal to its field of the "NewValue" copy
    with the last write started before the last read ended ([Resolved]) is
    removed from the pending set and does not mark the data as changed; an
    equal value not yet confirmed by a read ([InFlight]) stays pending and
    marks the data as changed; a different value ([Differs]) is written
    over the field of "NewValue", stays pending and marks the data as
    changed.  The comparison returns, changes nothing of the checker but
    the pending set and sends nothing. *)
Theorem compare_params_by_case (self : checker) (set_data : json)
    (v : param -> verdict) :
  (forall key, judge self set_data key = Return (v key)) ->
  exists set_data' self',
    compare_params set_data self
    = (Return (existsb (fun key => marks_changed (v key)) all_params,
               set_data'),
       self', []) /\
    self' = put_set_param (_set_param self') self /\
    forall key,
      match v key with
      | Absent => _set_param self' !! key = None
      | Resolved =>
          _set_param self' !! key = None /\
          new_value_field key set_data' = new_value_field key set_data
      | InFlight =>
          _set_param self' !! key = _set_param self !! key /\
          new_value_field key set_data' = new_value_field key set_data
      | Differs wanted =>
          _set_param self' !! key = Some wanted /\
          new_value_field key set_data' = Return (JNum wanted)
      end.
Proof.
  intros Hj.
  assert (Hnodup : NoDup all_params).
  { apply (bool_decide_unpack _). vm_compute. reflexivity. }
  destruct (compare_list_spec all_params Hnodup false set_data self v)
    as (sd' & self' & Hrun & _ & Hself & _ & Hown).
  { intros k _. apply Hj. }
  exists sd', self'. rewrite compare_params_as_list, Hrun.
  split; [reflexivity |]. split; [exact Hself |].
  intros key.
  assert (Hin : key ∈ all_params).
  { apply (bool_decide_unpack _). destruct key; vm_compute; reflexivity. }
  specialize (Hown key Hin). unfold settled in Hown.
  destruct (v key); tauto.
Qed.

Lemma compare_params_by_case_witness :
  exists set_data' self',
    compare_params sample_set_data pending_checker
    = (Return (true, set_data'), self', []) /\
    self' = put_set_param (_set_param self') pending_checker /\
    _set_param self' !! PARAM_MODE = None /\
    _set_param self' !! PARAM_DHW_SET_TEMPERATURE = None /\
    _set_param self' !! PARAM_CH_SET_TEMPERATURE = Some (NFloat (43 # 2)) /\
    new_value_field PARAM_CH_SET_TEMPERATURE set_data'
    = Return (JNum (NFloat (43 # 2))).
Proof.
  destruct (compare_params_by_case pending_checker sample_set_data
              (sample_verdicts true))
    as (sd' & self' & Hrun & Hself & Hkeys).
  - intros []; vm_compute; reflexivity.
  - exists sd', self'. split; [exact Hrun |]. split; [exact Hself |].
    pose proof (Hkeys PARAM_MODE) as H1.
    pose proof (Hkeys PARAM_DHW_SET_TEMPERATURE) as H2.
    pose proof (Hkeys PARAM_CH_SET_TEMPERATURE) as H3.
    simpl in H1, H2, H3. tauto.
Defined.

(** The same parameters when no read has ended since the last write: the
    two equal values stay pending and mark the data as changed. *)
Example compare_params_in_flight :
  (forall key, judge (put_get_time_end 0 pending_checker) sample_set_data key
               = Return (sample_verdicts false key)) /\
  result (compare_params sample_set_data (put_get_time_end 0 pending_checker))
  = Return (true,
            match set_path ["NewValue"; "zone"; "comfortTemp"; "value"]
                           (JNum (NFloat (43 # 2))) sample_set_data with
            | Return set_data' => set_data'
            | Raise _ => JNull
            end) /\
  _set_param
    (final (compare_params sample_set_data
              (put_get_time_end 0 pending_checker)))
  = _set_param pending_checker.
Proof.
  split; [intros []; vm_compute; reflexivity |].
  split; vm_compute; reflexivity.
Qed.

(** ** The blocks of a write *)

Lemma take_attempt_run (self : checker) :
  take_attempt self =
  (Return tt,
   if _set_new_data self
   then put_set_retry 0 (put_set_new_data false self)
   else put_set_scheduled false self,
   []).
Proof.
  unfold take_attempt. rewrite run_bind_get.
  destruct (_set_new_data self); cbn [negb]; run_method; reflexivity.
Qed.

Lemma forget_run (key : param) (self : checker) :
  forget key self
  = (Return tt, put_set_param (delete key (_set_param self)) self, []).
Proof.
  unfold forget. rewrite run_bind_get.
  destruct (_set_param self !! key) eqn:Hk; [reflexivity |].
  rewrite (delete_id _ _ Hk), put_set_param_same. reflexivity.
Qed.

Lemma forget_all_empty (p : gmap param num) :
  delete PARAM_CH_MODE
    (delete PARAM_CH_SET_TEMPERATURE
       (delete PARAM_DHW_SET_TEMPERATURE (delete PARAM_MODE p))) = ∅.
Proof.
  apply map_eq. intros k. rewrite lookup_empty.
  destruct k;
    repeat first
      [ rewrite lookup_delete_eq
      | rewrite lookup_delete_ne by discriminate ];
    reflexivity.
Qed.

Lemma retry_or_give_up_run (self : checker) :
  retry_or_give_up self =
  if _set_scheduled self then (Return tt, self, [])
  else if (_set_retry self <? _set_max_retries self)%Z then
    (Return tt,
     put_set_scheduled true (put_set_retry (_set_retry self + 1) self),
     [Event (TrackPointInTime CallActualSetHttpData HTTP_SET_INTERVAL) self])
  else (Return tt, put_set_param ∅ self, []).
Proof.
  unfold retry_or_give_up. rewrite run_bind_get.
  destruct (_set_scheduled self); cbn [negb]; [reflexivity |].
  destruct (_set_retry self <? _set_max_retries self)%Z.
  - run_method. reflexivity.
  - rewrite run_bind, forget_run. cbn [result final trace fst snd].
    rewrite run_bind, forget_run. cbn [result final trace fst snd].
    rewrite run_bind, forget_run. cbn [result final trace fst snd].
    rewrite forget_run. cbn [result final trace fst snd app].
    cbn [_set_param put_set_param]. rewrite forget_all_empty.
    reflexivity.
Qed.

Lemma transmit_trace (w : world) (url : string) (sd : json) (self : checker) :
  trace (transmit w url sd self)
  = [Event (SessionPostSet url sd)
           (put_set_time_start (time_set_start w) self)].
Proof.
  unfold transmit. rewrite run_bind_modify, run_bind_emit.
  cbn [trace snd]. f_equal.
  destruct (post_set w) as [| | code body]; try reflexivity.
  destruct (negb (code =? 200)%Z); [reflexivity |].
  rewrite run_bind_modify. destruct body; reflexivity.
Qed.

Lemma transmit_keeps_pending (w : world) (url : string) (sd : json) :
  keeps (fun s => (_set_param s, retry_state s)) (transmit w url sd).
Proof. unfold transmit. walk_method. Qed.

Lemma compare_param_keeps_but_pending (key : param) (state : bool * json) :
  keeps but_pending (compare_param key state).
Proof. unfold compare_param. walk_method. Qed.

Lemma compare_params_keeps_but_pending (sd : json) :
  keeps but_pending (compare_params sd).
Proof.
  unfold compare_params.
  repeat (apply keeps_bind; [apply compare_param_keeps_but_pending | intros ?]).
  apply compare_param_keeps_but_pending.
Qed.

Lemma compare_param_silent (key : param) (state : bool * json)
    (self : checker) :
  trace (compare_param key state self) = [].
Proof.
  destruct state as [c sd]. unfold compare_param. rewrite run_bind_get.
  destruct (_set_param self !! key); [| reflexivity].
  destruct (get_path ("NewValue" :: field_path key) sd); [| reflexivity].
  cbn [lift]. rewrite run_bind_ret.
  destruct (py_eq_num a n).
  - destruct (Qlt_bool _ _); [rewrite run_bind_modify |]; reflexivity.
  - destruct (set_path _ _ _); [| reflexivity].
    cbn [lift]. rewrite run_bind_ret. reflexivity.
Qed.

Lemma compare_params_silent (sd : json) (self : checker) :
  trace (compare_params sd self) = [].
Proof.
  unfold compare_params.
  repeat (rewrite run_bind; rewrite compare_param_silent;
          destruct (result (compare_param _ _ _)); cbn [trace snd app];
          [| reflexivity]).
  apply compare_param_silent.
Qed.

Lemma retry_or_give_up_returns (self : checker) :
  result (retry_or_give_up self) = Return tt.
Proof.
  rewrite retry_or_give_up_run.
  destruct (_set_scheduled self); [reflexivity |].
  destruct (_set_retry self <? _set_max_retries self)%Z; reflexivity.
Qed.

(** [_actual_set_http_data] block by block. *)
Lemma actual_set_http_data_run (w : world) (self : checker) :
  _actual_set_http_data w self =
  let l := _login_session w self in
  match result l with
  | Raise e => (Raise e, final l, trace l)
  | Return _ =>
      let s2 := final (take_attempt (final l)) in
      if ready s2 then
        match prepare_set_data s2 with
        | Raise e => (Raise e, s2, trace l)
        | Return sd =>
            let c := compare_params sd s2 in
            match result c with
            | Raise e => (Raise e, final c, trace l)
            | Return (true, sd') =>
                let g := retry_or_give_up (final c) in
                let t := transmit w (set_url s2) sd' (final g) in
                (result t, final t, trace l ++ trace g ++ trace t)
            | Return (false, _) => (Return tt, final c, trace l)
            end
        end
      else
        let g := retry_or_give_up s2 in
        (Raise CommError, final g, trace l ++ trace g)
  end.
Proof.
  unfold _actual_set_http_data. rewrite run_bind. cbv zeta.
  destruct (_login_session w self) as [[[[] | e] s1] t1];
    cbn [result final trace fst snd]; [| reflexivity].
  rewrite run_bind, take_attempt_run. cbn [result final trace fst snd app].
  set (s2 := if _set_new_data s1 then _ else _).
  rewrite run_bind_get.
  change (_login s2 && available s2 && negb (String.eqb (_plant_id s2) ""))
    with (ready s2).
  destruct (ready s2).
  - destruct (prepare_set_data s2) as [sd | e]; cbn [lift].
    + rewrite run_bind_ret, run_bind.
      pose proof (compare_params_silent sd s2) as Hsilent.
      destruct (compare_params sd s2) as [[[[c sd'] | e] s3] t3];
        cbn [result final trace fst snd] in *; subst t3.
      * destruct c.
        -- rewrite run_bind.
           pose proof (retry_or_give_up_returns s3) as Hg.
           destruct (retry_or_give_up s3) as [[rg s4] t4].
           cbn [result final trace fst snd] in *. subst rg.
           fold (set_url s2).
           destruct (transmit w (set_url s2) sd' s4) as [[rt s5] t5].
           cbn [result final trace fst snd app].
           reflexivity.
        -- cbn [ret result final trace fst snd app].
           rewrite ?app_nil_r. reflexivity.
      * rewrite ?app_nil_r. reflexivity.
    + rewrite run_bind_raise. cbn [result final trace fst snd app].
      rewrite ?app_nil_r. reflexivity.
  - rewrite run_bind.
    pose proof (retry_or_give_up_returns s2) as Hg.
    destruct (retry_or_give_up s2) as [[rg s4] t4].
    cbn [result final trace fst snd] in *. subst rg.
    cbn [raise result final trace fst snd app].
    rewrite ?app_nil_r. reflexivity.
Qed.

(** ** Requests and retries *)

Lemma store_run (key : param) (value : num) (self : checker) :
  store key value self
  = (Return tt, put_set_param (<[key := value]> (_set_param self)) self, []).
Proof. unfold store. rewrite run_bind_get. reflexivity. Qed.

(** [stores m]: all that [m] does is to replace the pending parameters. *)
Lemma stores_bind (m k : M unit) :
  (forall s, exists p, m s = (Return tt, put_set_param p s, [])) ->
  (forall s, exists p, k s = (Return tt, put_set_param p s, [])) ->
  forall s, exists p, bind m (fun _ => k) s
                      = (Return tt, put_set_param p s, []).
Proof.
  intros Hm Hk s. destruct (Hm s) as [p1 Hm1].
  destruct (Hk (put_set_param p1 s)) as [p2 Hk2].
  exists p2. rewrite run_bind, Hm1. cbn [result final trace fst snd].
  rewrite Hk2. reflexivity.
Qed.

Lemma stores_store (key : param) (value : num) (s : checker) :
  exists p, store key value s = (Return tt, put_set_param p s, []).
Proof. rewrite store_run. eexists. reflexivity. Qed.

Lemma stores_ret (s : checker) :
  exists p, @ret unit tt s = (Return tt, put_set_param p s, []).
Proof.
  exists (_set_param s). rewrite put_set_param_same. reflexivity.
Qed.

(** The checks store some parameters and do nothing else. *)
Lemma check_parameters_run `{Platform} (parameter_list : gmap param string)
    (self : checker) :
  exists pending : gmap param num,
    check_parameters parameter_list self
    = (Return tt, put_set_param pending self, []).
Proof.
  unfold check_parameters. rewrite run_bind_get.
  generalize (_ariston_data self). intros data. revert self.
  repeat (apply stores_bind;
          [repeat match goal with
           | |- context [match ?x with _ => _ end] => destruct x
           end;
           first [apply stores_store | apply stores_ret] |]).
  repeat match goal with
  | |- context [match ?x with _ => _ end] => destruct x
  end;
  first [apply stores_store | apply stores_ret].
Qed.

Lemma login_session_write_side (w : world) (self : checker) :
  _set_param (final (_login_session w self)) = _set_param self /\
  retry_state (final (_login_session w self)) = retry_state self.
Proof.
  pose proof (login_session_keeps_other
                (fun s => (_set_param s, retry_state s)) w
                ltac:(reflexivity) ltac:(reflexivity) ltac:(reflexivity) self)
    as Hk.
  split; [exact (f_equal fst Hk) | exact (f_equal snd Hk)].
Qed.

Lemma login_session_counts (w : world) (self : checker) :
  count_effects is_post_set (trace (_login_session w self)) = 0%nat /\
  count_effects is_set_timer (trace (_login_session w self)) = 0%nat.
Proof.
  split; apply count_effects_none;
    (eapply Forall_impl; [apply login_session_emits_login |]);
    intros ev (url & email & password & ->); reflexivity.
Qed.

Lemma retry_state_but_pending (a b : checker) :
  but_pending a = but_pending b -> retry_state a = retry_state b.
Proof.
  intros Hab.
  change (retry_state (but_pending a) = retry_state (but_pending b)).
  rewrite Hab. reflexivity.
Qed.

Lemma transmit_counts (w : world) (url : string) (sd : json) (self : checker) :
  count_effects is_post_set (trace (transmit w url sd self)) = 1%nat /\
  count_effects is_set_timer (trace (transmit w url sd self)) = 0%nat.
Proof. rewrite transmit_trace. split; reflexivity. Qed.

Lemma count_effects_one (p : effect -> bool) (e : effect) (s : checker) :
  count_effects p [Event e s] = if p e then 1%nat else 0%nat.
Proof.
  unfold count_effects. destruct (p e) eqn:Hp.
  - rewrite filter_cons_True by exact Hp. reflexivity.
  - rewrite filter_cons_False by (simpl; congruence). reflexivity.
Qed.

Lemma count_effects_nil (p : effect -> bool) : count_effects p [] = 0%nat.
Proof. reflexivity. Qed.

Lemma transmit_write_side (w : world) (url : string) (sd : json)
    (self : checker) :
  _set_param (final (transmit w url sd self)) = _set_param self /\
  _set_retry (final (transmit w url sd self)) = _set_retry self /\
  _set_max_retries (final (transmit w url sd self)) = _set_max_retries self /\
  _set_new_data (final (transmit w url sd self)) = _set_new_data self /\
  _set_scheduled (final (transmit w url sd self)) = _set_scheduled self.
Proof.
  pose proof (transmit_keeps_pending w url sd self) as Hk.
  cbv beta in Hk. unfold retry_state in Hk.
  injection Hk as -> -> -> -> ->. repeat split.
Qed.

(** Brings the counts of a composed trace to numbers and closes the
    arithmetic that is left. *)
Ltac count_trace :=
  rewrite ?count_effects_app, ?count_effects_one, ?count_effects_nil;
  repeat match goal with
  | |- context [trace (transmit ?w ?u ?d ?s)] =>
      rewrite ?(proj1 (transmit_counts w u d s)),
              ?(proj2 (transmit_counts w u d s))
  end;
  cbn [is_post_set is_set_timer].

Ltac through_transmit :=
  repeat match goal with
  | |- context [final (transmit ?w ?u ?d ?s)] =>
      let H := fresh in
      destruct (transmit_write_side w u d s) as (? & ? & ? & ? & ?);
      generalize dependent (final (transmit w u d s)); intros
  end.

Lemma initial_run_summary (w : world) (self : checker) :
  _set_new_data self = true ->
  initial_attempt_summary w self (_actual_set_http_data w self).
Proof.
  intros Hnew. unfold initial_attempt_summary.
  rewrite actual_set_http_data_run. cbv zeta.
  destruct (login_session_write_side w self) as [Hlp Hlr].
  destruct (login_session_counts w self) as [Hcp Hct].
  destruct (_login_session w self) as [[[[] | e] s1] tl];
    cbn [result final trace fst snd] in *; [| repeat split; assumption].
  unfold retry_state in Hlr. injection Hlr as Hr1 Hr2 Hr3 Hr4.
  rewrite take_attempt_run. cbn [result final trace fst snd].
  rewrite Hr3, Hnew.
  set (s2 := put_set_retry 0 (put_set_new_data false s1)).
  assert (Hs2 : retry_state s2
                = (0%Z, _set_max_retries self, false, _set_scheduled self)).
  { unfold retry_state, s2. simpl. rewrite Hr2, Hr4. reflexivity. }
  assert (Hgive :
    forall s3 : checker, retry_state s3 = retry_state s2 ->
      let g := retry_or_give_up s3 in
      _set_new_data (final g) = false /\
      _set_max_retries (final g) = _set_max_retries self /\
      count_effects is_post_set (trace g) = 0%nat /\
      (count_effects is_set_timer (trace g) <= 1)%nat /\
      _set_retry (final g) = Z.of_nat (count_effects is_set_timer (trace g)) /\
      (count_effects is_set_timer (trace g) = 1%nat ->
       _set_scheduled self = false /\ (0 < _set_max_retries self)%Z) /\
      (_set_scheduled self = false -> (0 < _set_max_retries self)%Z ->
       count_effects is_set_timer (trace g) = 1%nat)).
  { intros s3 Hs3. rewrite Hs2 in Hs3. unfold retry_state in Hs3.
    injection Hs3 as K1 K2 K3 K4. cbv zeta.
    rewrite retry_or_give_up_run, K4, K1, K2.
    destruct (_set_scheduled self) eqn:Hsch;
      [| destruct (0 <? _set_max_retries self)%Z eqn:Hmax];
      cbn [result final trace fst snd]; count_trace; simpl;
      repeat split; intros; try lia; try congruence.
    all: first [apply Z.ltb_lt in Hmax | apply Z.ltb_ge in Hmax]; lia. }
  destruct (ready s2).
  - destruct (prepare_set_data s2) as [sd | e].
    + pose proof (compare_params_keeps_but_pending sd s2) as Hkeep.
      apply retry_state_but_pending in Hkeep.
      destruct (compare_params sd s2) as [[[[c sd'] | e] s3] t3];
        cbn [result final trace fst snd] in *.
      * destruct c.
        -- destruct (Hgive s3 Hkeep) as (G1 & G2 & G3 & G4 & G5 & G6 & G7).
           cbv zeta in *. cbn [result final trace fst snd].
           count_trace. through_transmit.
           rewrite Hcp, Hct, G3.
           repeat split; intros; try lia; try congruence.
           all: try (destruct G6 as [? ?]; [lia |]; first [assumption | lia]).
           all: try (rewrite G7 by assumption; lia).
        -- rewrite Hs2 in Hkeep. unfold retry_state in Hkeep.
           injection Hkeep as K1 K2 K3 K4.
           cbn [result final trace fst snd]. rewrite Hcp, Hct.
           repeat split; intros; try lia; try congruence.
      * rewrite Hs2 in Hkeep. unfold retry_state in Hkeep.
        injection Hkeep as K1 K2 K3 K4.
        cbn [result final trace fst snd]. rewrite Hcp, Hct.
        repeat split; intros; try lia; try congruence.
    + cbn [result final trace fst snd]. rewrite Hcp, Hct.
      unfold s2. simpl.
      repeat split; intros; try lia; try congruence.
  - destruct (Hgive s2 eq_refl) as (G1 & G2 & G3 & G4 & G5 & G6 & G7).
    cbv zeta in *. cbn [result final trace fst snd].
    count_trace. rewrite Hcp, Hct, G3.
    repeat split; intros; try lia; try congruence.
    all: try (destruct G6 as [? ?]; [lia |]; first [assumption | lia]).
    all: try (rewrite G7 by assumption; lia).
Qed.

(** A scheduled run that finds the retries used up arms no timer, sends at
    most one write request and, when it sends one, has forgotten every
    pending parameter. *)
Lemma exhausted_retry_run (w : world) (self : checker) :
  _set_new_data self = false ->
  (_set_max_retries self <= _set_retry self)%Z ->
  count_effects is_set_timer (trace (_actual_set_http_data w self)) = 0%nat /\
  (count_effects is_post_set (trace (_actual_set_http_data w self)) <= 1)%nat /\
  (count_effects is_post_set (trace (_actual_set_http_data w self)) = 1%nat ->
   _set_param (final (_actual_set_http_data w self)) = ∅).
Proof.
  intros Hnew Hmax.
  rewrite actual_set_http_data_run. cbv zeta.
  destruct (login_session_write_side w self) as [Hlp Hlr].
  destruct (login_session_counts w self) as [Hcp Hct].
  destruct (_login_session w self) as [[[[] | e] s1] tl];
    cbn [result final trace fst snd] in *;
    [| rewrite Hcp, Hct; repeat split; intros; lia].
  unfold retry_state in Hlr. injection Hlr as Hr1 Hr2 Hr3 Hr4.
  rewrite take_attempt_run. cbn [result final trace fst snd].
  rewrite Hr3, Hnew.
  set (s2 := put_set_scheduled false s1).
  assert (Hgive : forall s3 : checker, retry_state s3 = retry_state s2 ->
            retry_or_give_up s3 = (Return tt, put_set_param ∅ s3, [])).
  { intros s3 Hs3. unfold retry_state, s2 in Hs3. simpl in Hs3.
    injection Hs3 as K1 K2 K3 K4.
    rewrite retry_or_give_up_run, K4, K1, K2, Hr1, Hr2.
    destruct (_set_retry self <? _set_max_retries self)%Z eqn:Hlt;
      [apply Z.ltb_lt in Hlt; lia | reflexivity]. }
  destruct (ready s2).
  - destruct (prepare_set_data s2) as [sd | e].
    + pose proof (compare_params_keeps_but_pending sd s2) as Hkeep.
      apply retry_state_but_pending in Hkeep.
      destruct (compare_params sd s2) as [[[[c sd'] | e] s3] t3];
        cbn [result final trace fst snd] in *.
      * destruct c.
        -- rewrite (Hgive s3 Hkeep). cbn [result final trace fst snd].
           count_trace. through_transmit. rewrite Hcp, Hct.
           repeat split; intros; try lia.
           match goal with H : _set_param _ = _ |- _ => rewrite H end.
           reflexivity.
        -- cbn [result final trace fst snd]. rewrite Hcp, Hct.
           repeat split; intros; lia.
      * cbn [result final trace fst snd]. rewrite Hcp, Hct.
        repeat split; intros; lia.
    + cbn [result final trace fst snd]. rewrite Hcp, Hct.
      repeat split; intros; lia.
  - rewrite (Hgive s2 eq_refl). cbn [result final trace fst snd].
    count_trace. rewrite Hcp, Hct. repeat split; intros; lia.
Qed.

Lemma command_keeps_write_side (w : world) : keeps write_side (command w).
Proof.
  unfold command, schedule_next_tick, count_error, mark_online.
  repeat first [apply get_http_data_keeps_write_side | step_method].
Qed.

Lemma command_emits_no_write (w : world) :
  emits (fun e => is_post_set e = false /\ is_set_timer e = false) (command w).
Proof.
  unfold command, schedule_next_tick, count_error, mark_online.
  repeat first
    [ apply (emits_weaken
               (fun e => is_request e = true /\ is_post_set e = false));
      [ intros e [Hr Hp]; split; [exact Hp |];
        destruct e; first [discriminate Hr | reflexivity]
      | apply get_http_data_emits_requests ]
    | step_method ].
Qed.

Lemma ticks_write_side (ws : list world) (self : checker) :
  write_side (fst (ticks ws self)) = write_side self /\
  count_effects is_post_set (snd (ticks ws self)) = 0%nat /\
  count_effects is_set_timer (snd (ticks ws self)) = 0%nat.
Proof.
  revert self. induction ws as [| w ws IH]; intros self.
  - repeat split.
  - cbn [ticks]. specialize (IH (final (command w self))).
    destruct (ticks ws (final (command w self))) as [s t].
    cbn [fst snd] in *. destruct IH as (Hw & Hp & Ht).
    rewrite Hw, command_keeps_write_side, !count_effects_app, Hp, Ht.
    pose proof (command_emits_no_write w self) as He.
    split; [reflexivity |].
    split; rewrite Nat.add_0_r; apply count_effects_none;
      (eapply Forall_impl; [exact He |]); intros ev [H1 H2]; assumption.
Qed.

Lemma fire_timers_unarmed (firings : list (list world * world))
    (self : checker) :
  fire_timers firings false self = (self, []).
Proof. destruct firings as [| [ws w] rest]; reflexivity. Qed.

Lemma set_http_data_run `{Platform} (w : world)
    (parameter_list : gmap param string) (self : checker) :
  _set_http_data w parameter_list self =
  if is_empty_dict (_ariston_data self) then (Raise CommError, self, [])
  else _actual_set_http_data w
         (put_set_new_data true (final (check_parameters parameter_list self))).
Proof.
  unfold _set_http_data. rewrite run_bind_get.
  destruct (is_empty_dict (_ariston_data self)); cbn [negb]; [reflexivity |].
  destruct (check_parameters_run parameter_list self) as [p Hp].
  rewrite run_bind, Hp. cbn [result final trace fst snd app].
  rewrite run_bind_modify.
  destruct (_actual_set_http_data w _) as [[r s] t]. reflexivity.
Qed.

(** Whether the login step raises depends on the login flag, the address
    and the world only. *)
Lemma login_session_result_frame (w : world) (a b : checker) :
  _login a = _login b -> _url a = _url b ->
  result (_login_session w a) = result (_login_session w b).
Proof.
  intros Hl Hu. rewrite !login_session_run, Hl, Hu. cbv zeta.
  destruct (_login b); [reflexivity |].
  destruct (post_login w) as [| | resp_url]; try reflexivity.
  destruct (String.prefix _ resp_url); [| reflexivity].
  destruct (index (split "/" resp_url) 5); reflexivity.
Qed.

(** The initial attempt inside [_set_http_data], seen from the checker
    before the call. *)
Lemma set_http_data_summary `{Platform} (w : world)
    (parameter_list : gmap param string) (self : checker) :
  is_empty_dict (_ariston_data self) = false ->
  initial_attempt_summary w
    (put_set_new_data true (final (check_parameters parameter_list self)))
    (_set_http_data w parameter_list self) /\
  result (_login_session w
            (put_set_new_data true
               (final (check_parameters parameter_list self))))
  = result (_login_session w self) /\
  retry_state (put_set_new_data true
                 (final (check_parameters parameter_list self)))
  = (_set_retry self, _set_max_retries self, true, _set_scheduled self).
Proof.
  intros Hdata. rewrite set_http_data_run, Hdata.
  destruct (check_parameters_run parameter_list self) as [p Hp].
  rewrite Hp. cbn [final fst snd].
  split; [apply initial_run_summary; reflexivity |].
  split; [apply login_session_result_frame; reflexivity | reflexivity].
Qed.

(** C10.  A call of [_set_http_data] while a snapshot exists, whatever the
    parameters (none, or all rejected, included), sets [_set_new_data] and
    runs [_actual_set_http_data].  When the login step of that run returns
    (logged in already, or the login succeeds), the run takes the attempt
    as the initial one and restarts the retry counter from 0: after the
    call the flag is cleared and the counter is the number of retry timers
    that this call armed, none or one, whatever the counter was before; a
    call that sends its request with no retry outstanding and a positive
    maximum arms one.  When the login step raises, the call raises the same
    exception with the flag still set and the counter as it was. *)
Theorem set_http_data_restarts_retries `{Platform} (w : world)
    (parameter_list : gmap param string) (self : checker) :
  is_empty_dict (_ariston_data self) = false ->
  match result (_login_session w self) with
  | Return _ =>
      _set_new_data (final (_set_http_data w parameter_list self)) = false /\
      _set_retry (final (_set_http_data w parameter_list self))
      = Z.of_nat (count_effects is_set_timer
                    (trace (_set_http_data w parameter_list self))) /\
      (count_effects is_set_timer
         (trace (_set_http_data w parameter_list self)) <= 1)%nat /\
      (count_effects is_set_timer
         (trace (_set_http_data w parameter_list self)) = 1%nat ->
       _set_scheduled self = false /\ (0 < _set_max_retries self)%Z) /\
      (count_effects is_post_set
         (trace (_set_http_data w parameter_list self)) = 1%nat ->
       _set_scheduled self = false -> (0 < _set_max_retries self)%Z ->
       count_effects is_set_timer
         (trace (_set_http_data w parameter_list self)) = 1%nat)
  | Raise e =>
      result (_set_http_data w parameter_list self) = Raise e /\
      _set_new_data (final (_set_http_data w parameter_list self)) = true /\
      _set_retry (final (_set_http_data w parameter_list self))
      = _set_retry self /\
      count_effects is_post_set
        (trace (_set_http_data w parameter_list self)) = 0%nat /\
      count_effects is_set_timer
        (trace (_set_http_data w parameter_list self)) = 0%nat
  end.
Proof.
  intros Hdata.
  destruct (set_http_data_summary w parameter_list self Hdata)
    as (Hsum & Hlogin & Hstate).
  unfold initial_attempt_summary in Hsum. rewrite Hlogin in Hsum.
  unfold retry_state in Hstate at 1. injection Hstate as S1 S2 S4.
  destruct (result (_login_session w self)) as [[] | e].
  - destruct Hsum as (H1 & H2 & H3 & H4 & H5 & H6 & H7).
    cbn [_set_scheduled _set_max_retries put_set_new_data] in H6, H7.
    rewrite ?S2, ?S4 in H6, H7. repeat split; try assumption.
    + apply H6. assumption.
    + apply H6. assumption.
  - destruct Hsum as (H1 & H2 & H3 & H4 & H5).
    unfold retry_state in H3. injection H3 as R1 R2 R3 R4.
    cbn [_set_retry _set_new_data put_set_new_data] in R1, R3.
    repeat split; try assumption; congruence.
Qed.

Lemma set_http_data_restarts_retries_witness :
  _set_new_data
    (final (@_set_http_data sample_platform failing_world
              {[ PARAM_MODE := "bogus" ]} (put_set_retry 7 pending_checker)))
  = false /\
  _set_retry
    (final (@_set_http_data sample_platform failing_world
              {[ PARAM_MODE := "bogus" ]} (put_set_retry 7 pending_checker)))
  = 1%Z.
Proof.
  pose proof (@set_http_data_restarts_retries sample_platform failing_world
                {[ PARAM_MODE := "bogus" ]} (put_set_retry 7 pending_checker)
                eq_refl) as Hcall.
  cbn [result fst] in Hcall.
  destruct Hcall as (Hflag & Hcount & _).
  split; [exact Hflag |]. rewrite Hcount. vm_compute. reflexivity.
Defined.

(** The call that the claim C10 misses: the session is not logged in and
    the login times out.  The call raises from the login step; the retry
    counter, 1 before the call, is still 1 after it, and [_set_new_data]
    stays set. *)
Lemma set_http_data_login_timeout_keeps_counter :
  is_empty_dict
    (_ariston_data (put_set_retry 1 (put_login false ready_checker))) = false /\
  result (@_set_http_data sample_platform failing_world ∅
            (put_set_retry 1 (put_login false ready_checker)))
  = Raise CommError /\
  _set_retry
    (final (@_set_http_data sample_platform failing_world ∅
              (put_set_retry 1 (put_login false ready_checker))))
  = 1%Z /\
  _set_new_data
    (final (@_set_http_data sample_platform failing_world ∅
              (put_set_retry 1 (put_login false ready_checker))))
  = true.
Proof. vm_compute. repeat split; reflexivity. Qed.

(** A request whose retry is cut short, run as a whole.  The checker is
    ready, nothing is pending, no retry is scheduled and the maximum retry
    count is 1.  The
    request is accepted (mode 1 against mode 0 of the snapshot), its write
    request is answered with status 500, and a retry is scheduled.  A poll
    tick, 100 seconds later, is answered with status 500, on which the
    checker drops its login.  The scheduled retry starts with logging in,
    which times out: the run ends there.  One write request was sent in
    all, no timer is armed any more, and the mode is still pending. *)
Lemma write_episode_login_timeout_keeps_pending :
  _set_max_retries ready_checker = 1%Z /\
  _set_param ready_checker = ∅ /\
  _set_scheduled ready_checker = false /\
  result (@_set_http_data sample_platform failing_world winter_request
            ready_checker) = Raise CommError /\
  count_effects is_post_set
    (snd (@write_episode sample_platform failing_world winter_request
            retry_after_logout ready_checker)) = 1%nat /\
  count_effects is_set_timer
    (snd (@write_episode sample_platform failing_world winter_request
            retry_after_logout ready_checker)) = 1%nat /\
  _set_param
    (fst (@write_episode sample_platform failing_world winter_request
            retry_after_logout ready_checker))
  !! PARAM_MODE = Some (NInt 1).
Proof. vm_compute. repeat split; reflexivity. Qed.

(** * Further properties of the module *)

(** ** Logging in *)

Lemma prefix_of_append (a b : string) : String.prefix a (a +:+ b) = true.
Proof.
  induction a as [| c a IH].
  - destruct b; reflexivity.
  - change (String c a +:+ b) with (String c (a +:+ b)).
    cbn [String.prefix].
    destruct (ascii_dec c c) as [_ | Hne]; [exact IH | contradiction].
Qed.

Lemma split_first_part (sep : ascii) (a tail : string) :
  has_char sep a = false ->
  tail = "" \/ (exists t, tail = String sep t) ->
  index (split sep (a +:+ tail)) 0 = Return a.
Proof.
  intros Ha [-> | [t ->]].
  - assert (Hnil : a +:+ "" = a).
    { clear Ha. induction a as [| c a IH]; [reflexivity |].
      change (String c a +:+ "") with (String c (a +:+ "")).
      rewrite IH. reflexivity. }
    rewrite Hnil, (split_without_sep _ _ Ha). reflexivity.
  - rewrite (split_at_first_sep _ _ _ Ha). reflexivity.
Qed.

(** The sixth part of the address of a plant dashboard is the plant. *)
Lemma dashboard_url_plant (plant_id tail : string) :
  has_char "/" plant_id = false ->
  tail = "" \/ (exists t, tail = String "/" t) ->
  index (split "/" (dashboard_url plant_id tail)) 5 = Return plant_id.
Proof.
  intros Hp Ht. unfold dashboard_url.
  change (ARISTON_URL +:+ "/PlantDashboard/Index/" +:+ plant_id +:+ tail)
    with ("https:" +:+ String "/"
            ("" +:+ String "/"
               ("www.ariston-net.remotethermo.com" +:+ String "/"
                  ("PlantDashboard" +:+ String "/"
                     ("Index" +:+ String "/" (plant_id +:+ tail)))))).
  rewrite !split_at_first_sep by reflexivity.
  pose proof (split_first_part "/" plant_id tail Hp Ht) as Hfirst.
  unfold index in *. cbn [nth_error].
  destruct (split "/" (plant_id +:+ tail)) as [| h t]; [discriminate |].
  exact Hfirst.
Qed.

(** X1.  A logged-out checker whose login is answered by a redirect to the
    dashboard of a plant logs in: it sends one request, takes the plant
    identifier from the sixth part of the address, whatever follows it, and
    sets the login flag. *)
Theorem login_session_reads_plant_id (w : world) (self : checker)
    (plant_id tail : string) :
  _login self = false ->
  _url self = ARISTON_URL ->
  has_char "/" plant_id = false ->
  tail = "" \/ (exists t, tail = String "/" t) ->
  post_login w = LoginResponse (dashboard_url plant_id tail) ->
  result (_login_session w self) = Return tt /\
  _login (final (_login_session w self)) = true /\
  _plant_id (final (_login_session w self)) = plant_id /\
  _token (final (_login_session w self))
  = Some (_user self, _password self) /\
  count_effects is_login_post (trace (_login_session w self)) = 1%nat /\
  count_effects is_request (trace (_login_session w self)) = 1%nat.
Proof.
  intros Hl Hu Hp Ht Hw.
  rewrite login_session_run, Hl, Hw, Hu. cbv zeta.
  assert (Hpre : String.prefix (ARISTON_URL +:+ "/PlantDashboard/Index/")
                   (dashboard_url plant_id tail) = true).
  { change (dashboard_url plant_id tail)
      with ((ARISTON_URL +:+ "/PlantDashboard/Index/")
            +:+ (plant_id +:+ tail)).
    apply prefix_of_append. }
  rewrite Hpre, (dashboard_url_plant _ _ Hp Ht).
  repeat split; reflexivity.
Qed.

Lemma login_session_reads_plant_id_witness :
  _plant_id
    (final (_login_session (working_world sample_snapshot) fresh_checker))
  = "P1".
Proof.
  apply (login_session_reads_plant_id (working_world sample_snapshot)
           fresh_checker "P1" "").
  - reflexivity.
  - reflexivity.
  - reflexivity.
  - left. reflexivity.
  - reflexivity.
Defined.

(** X2.  How [_login_session] ends.  When it returns the checker is logged
    in.  When it raises, the checker was logged out, has sent the login
    request, and stays logged out with the plant identifier it had; a read
    timeout gives [CommError], an answer from another address than the
    plant dashboard gives [LoginError], any other failure of the request
    comes out as it is. *)
Theorem login_session_outcome (w : world) (self : checker) :
  match result (_login_session w self) with
  | Return _ => _login (final (_login_session w self)) = true
  | Raise e =>
      _login self = false /\
      _login (final (_login_session w self)) = false /\
      _plant_id (final (_login_session w self)) = _plant_id self /\
      count_effects is_login_post (trace (_login_session w self)) = 1%nat /\
      (post_login w = LoginReadTimeout -> e = CommError) /\
      (post_login w = LoginRequestFailed -> e = RequestException) /\
      (forall url,
         post_login w = LoginResponse url ->
         String.prefix (_url self +:+ "/PlantDashboard/Index/") url = false ->
         e = LoginError)
  end.
Proof.
  rewrite login_session_run. cbv zeta.
  destruct (_login self) eqn:Hl; [exact Hl |].
  destruct (post_login w) as [| | resp_url] eqn:Hw;
    cbn [result final trace fst snd].
  - repeat split; try reflexivity; try discriminate. exact Hl.
  - repeat split; try reflexivity; try discriminate. exact Hl.
  - destruct (String.prefix _ resp_url) eqn:Hpre.
    + destruct (index (split "/" resp_url) 5) as [plant_id | e];
        cbn [result final trace fst snd]; [reflexivity |].
      repeat split; try reflexivity; try discriminate; try exact Hl.
      intros url [= <-] Hno. congruence.
    + cbn [result final trace fst snd].
      repeat split; try reflexivity; try discriminate. exact Hl.
Qed.

(** ** More of the deroga time *)

(** X3.  A deroga time "T AM" is sent as T, except "12:00 AM", which is
    sent as "00:00". *)
Theorem set_deroga_time_am (self : checker) (t : string) :
  get_path ["zone"; "derogaUntil"] (_ariston_data self)
  = Return (JStr (t +:+ " AM")) ->
  has_char " " t = false ->
  _set_deroga_time self = if String.eqb t "12:00" then "00:00" else t.
Proof.
  intros Hs Ht. rewrite (set_deroga_time_of_string _ _ Hs).
  unfold convert_24h.
  change (t +:+ " AM") with (t +:+ String " " "AM").
  rewrite (split_at_first_sep _ _ _ Ht).
  change (split " " "AM") with ["AM"].
  cbn [index nth_error obind String.eqb Ascii.eqb Bool.eqb].
  destruct (String.eqb t "12:00"); reflexivity.
Qed.

Lemma set_deroga_time_am_witness :
  _set_deroga_time (checker_with_deroga "7:45 AM") = "7:45".
Proof.
  apply (set_deroga_time_am (checker_with_deroga "7:45 AM") "7:45");
    reflexivity.
Defined.



(** ** Reading the snapshot *)

(** [_get_http_data] path by path. *)
Lemma get_http_data_run (w : world) (self : checker) :
  _get_http_data w self =
  let l := _login_session w self in
  match result l with
  | Raise e => (Raise e, final l, trace l)
  | Return _ =>
      let s1 := final l in
      if _login s1 && negb (String.eqb (_plant_id s1) "") then
        if outside_set_lock (time_get_check w) s1 then
          let s2 := put_get_time_start (time_get_start w) s1 in
          let t := trace l ++ [Event (SessionGet (get_url s1)) s2] in
          match get_data w with
          | ReadTimeout | RequestFailed => (Raise CommError, s2, t)
          | Response status_code body =>
              if (status_code =? 599)%Z then (Raise CommError, s2, t)
              else if (status_code =? 500)%Z
              then (Raise CommError, put_login false s2, t)
              else if negb (status_code =? 200)%Z
              then (Raise CommError, s2, t)
              else
                match body with
                | Some data =>
                    (Return tt,
                     put_ariston_data data
                       (put_get_time_end (time_get_end w) s2), t)
                | None =>
                    (Raise CommError,
                     put_login false
                       (put_get_time_end (time_get_end w) s2), t)
                end
          end
        else (Return tt, s1, trace l)
      else (Raise LoginError, s1, trace l)
  end.
Proof.
  unfold _get_http_data. rewrite run_bind. cbv zeta.
  destruct (_login_session w self) as [[[[] | e] s1] tl];
    cbn [result final trace fst snd]; [| reflexivity].
  rewrite run_bind_get.
  destruct (_login s1 && negb (String.eqb (_plant_id s1) ""));
    [| cbn [raise result final trace fst snd]; rewrite app_nil_r;
       reflexivity].
  fold (outside_set_lock (time_get_check w) s1).
  destruct (outside_set_lock (time_get_check w) s1);
    [| cbn [ret result final trace fst snd]; rewrite app_nil_r;
       reflexivity].
  rewrite run_bind_modify, run_bind_emit. fold (get_url s1).
  destruct (get_data w) as [| | status_code body];
    cbn [raise result final trace fst snd]; try reflexivity.
  destruct (status_code =? 599)%Z;
    [cbn [raise result final trace fst snd]; reflexivity |].
  destruct (status_code =? 500)%Z;
    [rewrite run_bind_modify; reflexivity |].
  destruct (negb (status_code =? 200)%Z);
    [cbn [raise result final trace fst snd]; reflexivity |].
  rewrite run_bind_modify.
  destruct body; [reflexivity | rewrite run_bind_modify; reflexivity].
Qed.

Lemma login_session_no_get (w : world) (self : checker) :
  count_effects is_get (trace (_login_session w self)) = 0%nat.
Proof.
  apply count_effects_none.
  eapply Forall_impl; [apply login_session_emits_login |].
  intros ev (url & email & password & ->). reflexivity.
Qed.

Lemma login_session_read_side (w : world) (self : checker) :
  read_side (final (_login_session w self)) = read_side self /\
  _set_time_start (final (_login_session w self)) = _set_time_start self.
Proof.
  pose proof (login_session_keeps_other
                (fun s => (read_side s, _set_time_start s)) w
                ltac:(reflexivity) ltac:(reflexivity) ltac:(reflexivity) self)
    as Hk.
  split; [exact (f_equal fst Hk) | exact (f_equal snd Hk)].
Qed.

(** X5.  What a fetch does to the snapshot.  [_get_http_data] sends at most
    one read request.  The snapshot is replaced only by the JSON body of an
    answer with status 200, and then the fetch returns; a fetch that raises
    leaves the snapshot as it was.  Without a read request nothing of the
    snapshot and of the read times changes.  When the read request is sent,
    the start time of the read is set, and the end time is recorded exactly
    when the answer has status 200, also when its body is not JSON and the
    snapshot stays; on every other answer the end time is as it was. *)
Theorem get_http_data_snapshot (w : world) (self : checker) :
  (count_effects is_get (trace (_get_http_data w self)) <= 1)%nat /\
  (_ariston_data (final (_get_http_data w self)) = _ariston_data self \/
   result (_get_http_data w self) = Return tt /\
   get_data w
   = Response 200 (Some (_ariston_data (final (_get_http_data w self))))) /\
  (_get_time_end (final (_get_http_data w self)) = _get_time_end self \/
   _get_time_end (final (_get_http_data w self)) = time_get_end w /\
   exists body, get_data w = Response 200 body) /\
  (count_effects is_get (trace (_get_http_data w self)) = 0%nat ->
   read_side (final (_get_http_data w self)) = read_side self) /\
  (count_effects is_get (trace (_get_http_data w self)) = 1%nat ->
   _get_time_start (final (_get_http_data w self)) = time_get_start w /\
   (forall body, get_data w = Response 200 body ->
      _get_time_end (final (_get_http_data w self)) = time_get_end w) /\
   ((forall body, get_data w <> Response 200 body) ->
      _get_time_end (final (_get_http_data w self)) = _get_time_end self)).
Proof.
  rewrite get_http_data_run. cbv zeta.
  destruct (login_session_read_side w self) as [Hread _].
  pose proof (login_session_no_get w self) as Hget.
  destruct (_login_session w self) as [[[[] | e] s1] tl];
    cbn [result final trace fst snd] in *.
  2: { rewrite Hget. unfold read_side in Hread.
       injection Hread as H1 H2 H3.
       repeat split; auto; try discriminate; unfold read_side; congruence. }
  unfold read_side in *. injection Hread as H1 H2 H3.
  destruct (_login s1 && negb (String.eqb (_plant_id s1) ""));
    [| cbn [result final trace fst snd]; rewrite Hget;
       repeat split; auto; try discriminate; congruence].
  destruct (outside_set_lock (time_get_check w) s1);
    [| cbn [result final trace fst snd]; rewrite Hget;
       repeat split; auto; try discriminate; congruence].
  assert (Hone : count_effects is_get
                   (tl ++ [Event (SessionGet (get_url s1))
                             (put_get_time_start (time_get_start w) s1)])
                 = 1%nat).
  { rewrite count_effects_app, Hget, count_effects_one. reflexivity. }
  set (s2 := put_get_time_start (time_get_start w) s1) in *.
  assert (Hkept : forall (r : outcome unit) (s3 : checker),
            _ariston_data s3 = _ariston_data s1 ->
            _get_time_start s3 = time_get_start w ->
            _get_time_end s3 = _get_time_end s1 ->
            (forall body, get_data w <> Response 200 body) ->
            (1 <= 1)%nat /\
            (_ariston_data s3 = _ariston_data self \/
             r = Return tt /\ get_data w = Response 200 (Some (_ariston_data s3)))
            /\
            (_get_time_end s3 = _get_time_end self \/
             _get_time_end s3 = time_get_end w /\
             exists body, get_data w = Response 200 body) /\
            (1%nat = 0%nat ->
             (_ariston_data s3, _get_time_start s3, _get_time_end s3)
             = (_ariston_data self, _get_time_start self, _get_time_end self))
            /\
            (1%nat = 1%nat ->
             _get_time_start s3 = time_get_start w /\
             (forall body, get_data w = Response 200 body ->
                _get_time_end s3 = time_get_end w) /\
             ((forall body, get_data w <> Response 200 body) ->
                _get_time_end s3 = _get_time_end self))).
  { intros r s3 Hd Hs He Hno.
    split; [lia |]. split; [left; congruence |]. split; [left; congruence |].
    split; [discriminate |]. intros _.
    split; [exact Hs |]. split; [| intros _; congruence].
    intros body Hb. destruct (Hno body Hb). }
  destruct (get_data w) as [| | status_code body] eqn:Hw;
    cbn [result final trace fst snd]; rewrite ?Hone.
  1, 2: apply Hkept; try reflexivity; intros b; discriminate.
  destruct (Z.eqb_spec status_code 599) as [-> | H599];
    [cbn [result final trace fst snd]; rewrite ?Hone;
     apply Hkept; try reflexivity; intros b; discriminate |].
  destruct (Z.eqb_spec status_code 500) as [-> | H500];
    [cbn [result final trace fst snd]; rewrite ?Hone;
     apply Hkept; try reflexivity; intros b; discriminate |].
  destruct (Z.eqb_spec status_code 200) as [-> | H200]; cbn [negb];
    [| cbn [result final trace fst snd]; rewrite ?Hone;
       apply Hkept; try reflexivity; intros b [= Hs _]; contradiction].
  destruct body as [data |]; cbn [result final trace fst snd]; rewrite ?Hone.
  - split; [lia |]. split; [right; split; reflexivity |].
    split; [right; split; [reflexivity | eauto] |].
    split; [discriminate |]. intros _.
    split; [reflexivity |]. split; [intros; reflexivity |].
    intros Hno. destruct (Hno (Some data) eq_refl).
  - split; [lia |]. split; [left; simpl; assumption |].
    split; [right; split; [reflexivity | eauto] |].
    split; [discriminate |]. intros _.
    split; [reflexivity |]. split; [intros; reflexivity |].
    intros Hno. destruct (Hno None eq_refl).
Qed.

(** The difference of two time stamps on small inputs: the floats 25.1 and
    0.1 are more than 25 apart, and their difference as floats is 25; a tie
    goes to the even significand; a difference beyond the range compares as
    the infinity. *)
Example float_sub_samples :
  is_binary64 float_25_1 = true /\ is_binary64 float_0_1 = true /\
  is_binary64 (1 # 10) = false /\
  Qlt_bool 25 (float_25_1 - float_0_1) = true /\
  Qeq_bool (float_sub float_25_1 float_0_1) 25 = true /\
  Qeq_bool (float_sub 2000 0) 2000 = true /\
  Qeq_bool (float_sub (inject_Z (2 ^ 53)) (-1)) (inject_Z (2 ^ 53)) = true /\
  Qeq_bool (float_sub (inject_Z (2 ^ 53 + 2)) (-1)) (inject_Z (2 ^ 53 + 4))
  = true /\
  Qlt_bool 25 (float_sub (inject_Z (2 ^ 1023)) (- inject_Z (2 ^ 1023)))
  = true.
Proof. vm_compute. repeat split; reflexivity. Qed.

(** The write lock at its edge.  The last write started when the clock read
    0.1 and the tick comes when it reads 25.1: the difference of the two
    floats is 25.0, which is not more than [TIMER_SET_LOCK], and the read
    is held back. *)
Example set_lock_at_the_edge :
  outside_set_lock (time_get_check edge_world) edge_checker = false /\
  _get_http_data edge_world edge_checker = (Return tt, edge_checker, []) /\
  _login (final (command edge_world edge_checker)) = true.
Proof. vm_compute. repeat split; reflexivity. Qed.

(** X6.  While the last write started [TIMER_SET_LOCK] seconds ago or less,
    a fetch sends no read request and changes neither the snapshot nor the
    read times; a checker that is logged in with a plant identifier does
    nothing at all and returns. *)
Theorem get_http_data_in_set_lock (w : world) (self : checker) :
  outside_set_lock (time_get_check w) self = false ->
  count_effects is_get (trace (_get_http_data w self)) = 0%nat /\
  read_side (final (_get_http_data w self)) = read_side self /\
  (_login self = true -> _plant_id self <> "" ->
   _get_http_data w self = (Return tt, self, [])).
Proof.
  intros Hlock.
  assert (Hrun : count_effects is_get (trace (_get_http_data w self))
                 = 0%nat /\
                 read_side (final (_get_http_data w self)) = read_side self).
  { rewrite get_http_data_run. cbv zeta.
    destruct (login_session_read_side w self) as [Hread Hstart].
    pose proof (login_session_no_get w self) as Hget.
    destruct (_login_session w self) as [[[[] | e] s1] tl];
      cbn [result final trace fst snd] in *; [| split; assumption].
    destruct (_login s1 && negb (String.eqb (_plant_id s1) ""));
      [| split; assumption].
    unfold outside_set_lock in *. rewrite Hstart, Hlock.
    split; assumption. }
  destruct Hrun as [Hcount Hread].
  split; [exact Hcount |]. split; [exact Hread |].
  intros Hl Hp. rewrite get_http_data_run, login_session_run, Hl.
  cbn [result final trace fst snd]. cbv zeta. rewrite Hl, Hlock.
  apply String.eqb_neq in Hp. rewrite Hp. reflexivity.
Qed.

Lemma get_http_data_in_set_lock_witness :
  _get_http_data (at_time 10 failing_world) ready_checker
  = (Return tt, ready_checker, []).
Proof.
  apply (get_http_data_in_set_lock (at_time 10 failing_world) ready_checker);
    [reflexivity | reflexivity | discriminate].
Defined.

(** X7.  When a fetch drops the login.  A logged-in checker is logged out
    by [_get_http_data] exactly when the read request is sent (there is a
    plant identifier and the write lock has passed) and is answered with
    status 500, or with status 200 and a body that is not JSON.  A timeout,
    a failed request and any other status leave the login in place. *)
Theorem get_http_data_drops_login (w : world) (self : checker) :
  _login self = true ->
  (_login (final (_get_http_data w self)) = false <->
   _plant_id self <> "" /\
   outside_set_lock (time_get_check w) self = true /\
   ((exists body, get_data w = Response 500 body) \/
    get_data w = Response 200 None)).
Proof.
  intros Hl. rewrite get_http_data_run, login_session_run, Hl.
  cbn [result final trace fst snd]. cbv zeta. rewrite Hl. cbn [andb].
  destruct (String.eqb_spec (_plant_id self) "") as [Hp | Hp]; cbn [negb].
  { cbn [final fst snd]. split; [congruence | tauto]. }
  destruct (outside_set_lock (time_get_check w) self);
    [| cbn [final fst snd]; split; [congruence | intros (_ & ? & _);
       discriminate]].
  destruct (get_data w) as [| | status_code body]; cbn [final fst snd].
  1, 2: simpl; split; [congruence |
          intros (_ & _ & [[b Hb] | Hb]); discriminate].
  destruct (Z.eqb_spec status_code 599) as [-> | H599].
  { cbn [final fst snd]. simpl.
    split; [congruence | intros (_ & _ & [[b Hb] | Hb]); discriminate]. }
  destruct (Z.eqb_spec status_code 500) as [-> | H500].
  { cbn [final fst snd]. simpl. split; [eauto 6 | reflexivity]. }
  destruct (Z.eqb_spec status_code 200) as [-> | H200]; cbn [negb].
  2: { cbn [final fst snd]. simpl.
       split; [congruence | intros (_ & _ & [[b Hb] | Hb]); congruence]. }
  destruct body as [data |]; cbn [final fst snd]; simpl.
  - split; [congruence | intros (_ & _ & [[b Hb] | Hb]); discriminate].
  - split; [auto | reflexivity].
Qed.

Lemma get_http_data_drops_login_witness :
  _login (final (_get_http_data server_error_world ready_checker)) = false.
Proof.
  apply (get_http_data_drops_login server_error_world ready_checker);
    [reflexivity |].
  split; [discriminate |]. split; [reflexivity |].
  left. exists None. reflexivity.
Defined.

(** ** More of the poll ticks *)

Lemma get_http_data_keeps_retry_timeout (w : world) :
  keeps _retry_timeout (_get_http_data w).
Proof.
  unfold _get_http_data.
  apply keeps_bind; [apply login_session_keeps_other; reflexivity |].
  intros ?. walk_method.
Qed.

Lemma get_http_data_no_poll_timer (w : world) (self : checker) :
  count_effects is_poll_timer (trace (_get_http_data w self)) = 0%nat.
Proof.
  apply count_effects_none.
  eapply Forall_impl; [apply get_http_data_emits_requests |].
  intros [[] ?]; simpl; intros [Hr _]; first [reflexivity | discriminate Hr].
Qed.

(** X8.  Every tick arms the next one, first of all.  Whatever the fetch
    does afterwards, also when it raises, the trace of [command] starts
    with the timer of the next tick and holds no other poll timer; the
    interval is [HTTP_RETRY_INTERVAL] (45 s), and
    [HTTP_RETRY_INTERVAL_DOWN] (80 s) once the error counter has reached
    [MAX_ERRORS_TIMER_EXTEND]; it is what [_retry_timeout] holds after the
    tick. *)
Theorem command_arms_next_tick (w : world) (self : checker) :
  exists t,
    trace (command w self)
    = Event (TrackPointInTime CallCommand (poll_interval self))
            (put_retry_timeout (poll_interval self) self) :: t /\
    count_effects is_poll_timer t = 0%nat /\
    _retry_timeout (final (command w self)) = poll_interval self.
Proof.
  rewrite command_run. cbv zeta.
  pose proof (get_http_data_keeps_retry_timeout w
                (final (schedule_next_tick self))) as Hk.
  pose proof (get_http_data_no_poll_timer w
                (final (schedule_next_tick self))) as Hn.
  rewrite schedule_next_tick_run in *. cbv zeta in *.
  cbn [final trace fst snd] in *. fold (poll_interval self) in *.
  set (s1 := put_retry_timeout (poll_interval self) self) in *.
  change (_retry_timeout s1) with (poll_interval self) in *.
  destruct (_get_http_data w s1) as [[[[] | e] s2] t];
    cbn [result final trace fst snd] in *.
  - rewrite mark_online_run. cbn [final trace fst snd].
    eexists. split; [reflexivity |]. rewrite count_effects_app, Hn.
    split; [| exact Hk].
    destruct (available s2); reflexivity.
  - destruct (is_AristonError e).
    + rewrite count_error_run. cbv zeta.
      destruct (negb _ && _); cbn [final trace fst snd];
        (eexists; split; [reflexivity |]); rewrite count_effects_app, Hn;
        (split; [reflexivity | exact Hk]).
    + cbn [final trace fst snd].
      eexists; split; [reflexivity |]. split; [exact Hn | exact Hk].
Qed.

Lemma prefix_is_append (a s : string) :
  String.prefix a s = true -> exists rest, s = a +:+ rest.
Proof.
  revert s. induction a as [| c a IH]; intros s.
  - intros _. exists s. reflexivity.
  - destruct s as [| c' s]; cbn [String.prefix]; [discriminate |].
    destruct (ascii_dec c c') as [<- | Hne]; [| discriminate].
    intros Hp. destruct (IH s Hp) as [rest ->]. exists rest. reflexivity.
Qed.

(** An address under the plant dashboard has a sixth part. *)
Lemma dashboard_prefix_has_plant (resp_url : string) :
  String.prefix (ARISTON_URL +:+ "/PlantDashboard/Index/") resp_url = true ->
  exists plant_id, index (split "/" resp_url) 5 = Return plant_id.
Proof.
  intros Hp. destruct (prefix_is_append _ _ Hp) as [rest ->].
  change ((ARISTON_URL +:+ "/PlantDashboard/Index/") +:+ rest)
    with ("https:" +:+ String "/"
            ("" +:+ String "/"
               ("www.ariston-net.remotethermo.com" +:+ String "/"
                  ("PlantDashboard" +:+ String "/"
                     ("Index" +:+ String "/" rest))))).
  rewrite !split_at_first_sep by reflexivity.
  unfold index. cbn [nth_error].
  destruct rest as [| c r]; [eexists; reflexivity |].
  simpl. destruct (Ascii.eqb c "/"); [eexists; reflexivity |].
  destruct (split "/" r); eexists; reflexivity.
Qed.

(** With the address of the module, a login raises one of three
    exceptions, each for its own answer. *)
Lemma login_session_raises (w : world) (self : checker) (e : exn) :
  _url self = ARISTON_URL ->
  result (_login_session w self) = Raise e ->
  _login self = false /\
  (e = CommError /\ post_login w = LoginReadTimeout \/
   e = RequestException /\ post_login w = LoginRequestFailed \/
   e = LoginError /\ exists url, post_login w = LoginResponse url).
Proof.
  intros Hu. rewrite login_session_run. cbv zeta. rewrite Hu.
  destruct (_login self); [discriminate |].
  destruct (post_login w) as [| | resp_url];
    cbn [result fst]; try (intros [= <-]; auto).
  destruct (String.prefix _ resp_url) eqn:Hp.
  - destruct (dashboard_prefix_has_plant _ Hp) as [plant_id ->].
    discriminate.
  - cbn [result fst]. intros [= <-]. eauto 6.
Qed.

Lemma get_http_data_raises (w : world) (self : checker) (e : exn) :
  result (_get_http_data w self) = Raise e ->
  is_AristonError e = false ->
  result (_login_session w self) = Raise e /\
  _get_http_data w self = _login_session w self.
Proof.
  rewrite get_http_data_run. cbv zeta.
  destruct (_login_session w self) as [[[[] | e'] s1] tl];
    cbn [result final trace fst snd].
  2: { intros [= ->] _. split; reflexivity. }
  intros Hr He. exfalso.
  destruct (_login s1 && negb _); [| injection Hr as <-; discriminate].
  destruct (outside_set_lock _ s1); [| discriminate].
  destruct (get_data w) as [| | status_code body];
    try (injection Hr as <-; discriminate).
  destruct (status_code =? 599)%Z; [injection Hr as <-; discriminate |].
  destruct (status_code =? 500)%Z; [injection Hr as <-; discriminate |].
  destruct (negb _); [injection Hr as <-; discriminate |].
  destruct body; [discriminate | injection Hr as <-; discriminate].
Qed.

(** X9.  The failures that a tick does not count.  A tick raises an
    exception other than [AristonError] only when the checker was logged
    out and its login request failed otherwise than by a read timeout.
    Such a tick has armed the next one but leaves the error counter, the
    latch and so the availability as they were, sends no signal and no read
    request, and keeps the snapshot. *)
Theorem command_uncounted_failure (w : world) (self : checker) (e : exn) :
  _url self = ARISTON_URL ->
  result (command w self) = Raise e ->
  is_AristonError e = false ->
  e = RequestException /\ post_login w = LoginRequestFailed /\
  _login self = false /\
  health (final (command w self)) = health self /\
  available (final (command w self)) = available self /\
  read_side (final (command w self)) = read_side self /\
  count_effects is_dispatch (trace (command w self)) = 0%nat /\
  count_effects is_get (trace (command w self)) = 0%nat /\
  count_effects is_poll_timer (trace (command w self)) = 1%nat.
Proof.
  intros Hu Hr He. rewrite command_run in *. cbv zeta in *.
  pose proof (tick_fetch_health w self) as Hh.
  pose proof (get_http_data_no_dispatch w (final (schedule_next_tick self)))
    as Hnd.
  pose proof (get_http_data_no_poll_timer w (final (schedule_next_tick self)))
    as Hnp.
  pose proof (get_http_data_raises w (final (schedule_next_tick self)) e)
    as Hg.
  pose proof (login_session_raises w (final (schedule_next_tick self)) e)
    as Hlr.
  pose proof (login_session_read_side w (final (schedule_next_tick self)))
    as [Hread _].
  pose proof (login_session_no_get w (final (schedule_next_tick self)))
    as Hng.
  rewrite schedule_next_tick_run in *. cbv zeta in *.
  cbn [final trace fst snd] in *.
  set (s1 := put_retry_timeout _ self) in *.
  destruct (_get_http_data w s1) as [[[[] | e'] s2] t] eqn:Hrun;
    cbn [result final trace fst snd] in *; [discriminate |].
  destruct (is_AristonError e') eqn:He'.
  { cbn [result fst] in Hr. congruence. }
  cbn [result final trace fst snd] in *. injection Hr as ->.
  destruct (Hg eq_refl He) as [Hlogin Hsame].
  destruct (Hlr Hu Hlogin) as [Hl Hcase].
  rewrite <- Hsame in Hread, Hng. cbn [final trace fst snd] in *.
  assert (Hexn : e = RequestException /\ post_login w = LoginRequestFailed).
  { destruct Hcase as [[-> _] | [[-> Hw] | [-> _]]];
      [discriminate | auto | discriminate]. }
  destruct Hexn as [-> Hw].
  split; [reflexivity |]. split; [exact Hw |]. split; [exact Hl |].
  split; [exact Hh |]. split; [apply available_of_health; exact Hh |].
  split; [exact Hread |].
  rewrite !count_effects_app, Hnd, Hng, Hnp. repeat split.
Qed.

Lemma command_uncounted_failure_witness :
  available (final (command unreachable_world logged_out_checker)) = true.
Proof.
  refine (eq_trans
            (proj1 (proj2 (proj2 (proj2 (proj2
               (command_uncounted_failure unreachable_world
                  logged_out_checker RequestException _ _ _)))))) _);
    reflexivity.
Defined.

Lemma command_poll_timer_count (w : world) (self : checker) :
  count_effects is_poll_timer (trace (command w self)) = 1%nat.
Proof.
  rewrite command_run. cbv zeta.
  pose proof (get_http_data_no_poll_timer w
                (final (schedule_next_tick self))) as Hn.
  rewrite schedule_next_tick_run in *. cbv zeta in *.
  cbn [final trace fst snd] in *.
  set (s1 := put_retry_timeout _ self) in *.
  destruct (_get_http_data w s1) as [[[[] | e] s2] t];
    cbn [result final trace fst snd] in *.
  - rewrite mark_online_run. cbn [final trace fst snd].
    rewrite !count_effects_app, Hn.
    destruct (available s2); reflexivity.
  - destruct (is_AristonError e).
    + rewrite count_error_run. cbv zeta.
      destruct (negb _ && _); cbn [final trace fst snd];
        rewrite !count_effects_app, Hn; reflexivity.
    + cbn [final trace fst snd]. rewrite !count_effects_app, Hn.
      reflexivity.
Qed.

(** X10.  A run of failed ticks.  When each of the ticks [ws] ends with a
    communication or login error, the error counter has grown by their
    number, the latch is as it was, each tick has armed the next, and the
    update signal was sent once if the device was available before and the
    counter has passed [MAX_ERRORS], and not at all otherwise. *)
Theorem failing_ticks_count (ws : list world) (self : checker) :
  all_ticks_fail ws self = true ->
  _errors (fst (ticks ws self)) = (_errors self + Z.of_nat (length ws))%Z /\
  _init_available (fst (ticks ws self)) = _init_available self /\
  count_effects is_poll_timer (snd (ticks ws self)) = length ws /\
  count_effects is_dispatch (snd (ticks ws self))
  = if available self
       && negb (_errors self + Z.of_nat (length ws) <=? MAX_ERRORS)%Z
    then 1%nat else 0%nat.
Proof.
  revert self. induction ws as [| w ws IH]; intros self Hfail.
  - cbn [ticks fst snd length Z.of_nat]. rewrite Z.add_0_r.
    split; [reflexivity |]. split; [reflexivity |]. split; [reflexivity |].
    unfold available.
    destruct (_errors self <=? MAX_ERRORS)%Z, (_init_available self);
      reflexivity.
  - cbn [all_ticks_fail] in Hfail. cbn [ticks].
    pose proof (command_summary w self) as Hsum.
    pose proof (command_poll_timer_count w self) as Hpoll.
    unfold tick_summary in Hsum.
    destruct (result (command w self)) as [[] | e]; [discriminate |].
    apply andb_true_iff in Hfail as [He Hrest]. rewrite He in Hsum.
    destruct Hsum as (Herr & Hlatch & Hsig).
    destruct (IH _ Hrest) as (IHerr & IHlatch & IHpoll & IHsig).
    destruct (ticks ws (final (command w self))) as [s t].
    cbn [fst snd] in *.
    rewrite !count_effects_app, Hpoll, IHpoll, Hsig, IHsig, IHerr, IHlatch.
    rewrite Herr, Hlatch. cbn [length].
    split; [lia |]. split; [reflexivity |]. split; [reflexivity |].
    unfold available. rewrite Herr, Hlatch.
    replace (_errors self + 1 + Z.of_nat (length ws))%Z
      with (_errors self + Z.of_nat (S (length ws)))%Z by lia.
    unfold MAX_ERRORS.
    destruct (Z.leb_spec (_errors self) 4),
      (Z.leb_spec (_errors self + 1) 4),
      (Z.leb_spec (_errors self + Z.of_nat (S (length ws))) 4),
      (_init_available self); cbn [andb negb]; try reflexivity; lia.
Qed.

Lemma failing_ticks_count_witness :
  count_effects is_dispatch
    (snd (ticks [failing_world; failing_world; failing_world;
                 failing_world; failing_world; failing_world]
            ready_checker))
  = 1%nat.
Proof.
  refine (eq_trans
            (proj2 (proj2 (proj2
               (failing_ticks_count
                  [failing_world; failing_world; failing_world;
                   failing_world; failing_world; failing_world]
                  ready_checker _)))) _);
    reflexivity.
Defined.

(** X11.  A tick inside the write lock.  While the last write started
    [TIMER_SET_LOCK] seconds ago or less, a tick of a checker that is
    logged in with a plant identifier sends no request at all and keeps the
    snapshot, and yet it ends as a success: the error counter is reset, the
    latch is set, and a device that was unavailable is signalled as back. *)
Theorem command_in_set_lock (w : world) (self : checker) :
  _login self = true ->
  _plant_id self <> "" ->
  outside_set_lock (time_get_check w) self = false ->
  result (command w self) = Return tt /\
  _errors (final (command w self)) = 0%Z /\
  available (final (command w self)) = true /\
  read_side (final (command w self)) = read_side self /\
  count_effects is_request (trace (command w self)) = 0%nat /\
  count_effects is_dispatch (trace (command w self))
  = if available self then 0%nat else 1%nat.
Proof.
  intros Hl Hp Hlock. apply String.eqb_neq in Hp.
  rewrite command_run, schedule_next_tick_run. cbv zeta.
  cbn [final trace fst snd].
  set (s1 := put_retry_timeout _ self).
  assert (Hfetch : _get_http_data w s1 = (Return tt, s1, [])).
  { rewrite get_http_data_run, login_session_run.
    change (_login s1) with (_login self). rewrite Hl.
    cbn [result final trace fst snd]. cbv zeta.
    change (_login s1) with (_login self).
    change (_plant_id s1) with (_plant_id self).
    change (outside_set_lock (time_get_check w) s1)
      with (outside_set_lock (time_get_check w) self).
    rewrite Hl, Hp, Hlock. reflexivity. }
  rewrite Hfetch. cbn [result final trace fst snd].
  rewrite mark_online_run. cbv zeta. cbn [final trace fst snd].
  change (available s1) with (available self).
  repeat split.
  destruct (available self); reflexivity.
  destruct (available self); reflexivity.
Qed.

Lemma command_in_set_lock_witness :
  result (command (at_time 10 failing_world) ready_checker) = Return tt.
Proof.
  apply (command_in_set_lock (at_time 10 failing_world) ready_checker);
    [reflexivity | discriminate | reflexivity].
Defined.

(** ** Setting up *)

Lemma login_session_dashboard_run (w : world) (self : checker)
    (plant_id tail : string) :
  _login self = false ->
  _url self = ARISTON_URL ->
  has_char "/" plant_id = false ->
  tail = "" \/ (exists t, tail = String "/" t) ->
  post_login w = LoginResponse (dashboard_url plant_id tail) ->
  _login_session w self
  = let s1 := put_token (Some (_user self, _password self)) self in
    (Return tt, put_login true (put_plant_id plant_id s1),
     [Event (SessionPostLogin (ARISTON_URL +:+ "/Account/Login")
               (_user self) (_password self)) s1]).
Proof.
  intros Hl Hu Hp Ht Hw.
  rewrite login_session_run, Hl, Hw, Hu. cbv zeta.
  assert (Hpre : String.prefix (ARISTON_URL +:+ "/PlantDashboard/Index/")
                   (dashboard_url plant_id tail) = true).
  { change (dashboard_url plant_id tail)
      with ((ARISTON_URL +:+ "/PlantDashboard/Index/")
            +:+ (plant_id +:+ tail)).
    apply prefix_of_append. }
  rewrite Hpre, (dashboard_url_plant _ _ Hp Ht). reflexivity.
Qed.

(** The difference of a time stamp and 0 is the time stamp. *)
Lemma float_sub_zero (now : Q) : (float_sub now 0 == now)%Q.
Proof.
  unfold float_sub.
  destruct (is_binary64 now) eqn:Hd; cbn [andb]; [| ring].
  change (is_binary64 0) with true. cbv iota.
  apply andb_true_iff in Hd as [Hd _]. apply Qeq_bool_iff in Hd.
  rewrite <- Hd at 2. unfold round_binary64.
  rewrite (Qred_complete (now - 0) now) by ring. reflexivity.
Qed.

Lemma outside_set_lock_unset (now : Q) (self : checker) :
  _set_time_start self = 0%Q ->
  (inject_Z TIMER_SET_LOCK < now)%Q ->
  outside_set_lock now self = true.
Proof.
  intros Hs Hnow. unfold outside_set_lock, Qlt_bool. rewrite Hs.
  apply negb_true_iff. apply not_true_is_false. intros Hle.
  apply Qle_bool_iff in Hle.
  apply (Qlt_not_le _ _ Hnow).
  rewrite (float_sub_zero now) in Hle. exact Hle.
Qed.

(** X12.  The first poll of a device.  [setup] makes the checker of a
    device and polls it once.  When the login is redirected to the
    dashboard of a plant and the read is answered with status 200 and a
    JSON body, the device is available from then on with that body as its
    snapshot: the checker is logged in for the plant, has no error and no
    pending parameter, and has sent one login request, one read request
    and one update signal, and armed the next tick after
    [HTTP_RETRY_INTERVAL] seconds. *)
Theorem setup_device_first_poll (w : world) (device : device_config)
    (plant_id tail : string) (data : json) :
  has_char "/" plant_id = false ->
  plant_id <> "" ->
  tail = "" \/ (exists t, tail = String "/" t) ->
  post_login w = LoginResponse (dashboard_url plant_id tail) ->
  get_data w = Response 200 (Some data) ->
  (inject_Z TIMER_SET_LOCK < time_get_check w)%Q ->
  result (setup_device w device) = Return tt /\
  available (final (setup_device w device)) = true /\
  _errors (final (setup_device w device)) = 0%Z /\
  _ariston_data (final (setup_device w device)) = data /\
  _login (final (setup_device w device)) = true /\
  _plant_id (final (setup_device w device)) = plant_id /\
  _name (final (setup_device w device)) = conf_name device /\
  _set_param (final (setup_device w device)) = ∅ /\
  _get_time_end (final (setup_device w device)) = time_get_end w /\
  map what (trace (setup_device w device))
  = [TrackPointInTime CallCommand HTTP_RETRY_INTERVAL;
     SessionPostLogin (ARISTON_URL +:+ "/Account/Login")
       (conf_username device) (conf_password device);
     SessionGet (ARISTON_URL +:+ "/PlantDashboard/GetPlantData/"
                 +:+ plant_id);
     DispatcherSend (conf_name device)].
Proof.
  intros Hp Hne Ht Hw Hd Hnow. apply String.eqb_neq in Hne.
  unfold setup_device, try_except.
  rewrite command_run, schedule_next_tick_run. cbv zeta.
  cbn [final trace fst snd].
  set (api := __init__ _ _ _ _).
  change (MAX_ERRORS_TIMER_EXTEND <=? _errors api)%Z with false.
  cbv iota.
  set (s1 := put_retry_timeout HTTP_RETRY_INTERVAL api).
  rewrite get_http_data_run.
  rewrite (login_session_dashboard_run w s1 plant_id tail
             eq_refl eq_refl Hp Ht Hw).
  cbv zeta. cbn [result final trace fst snd].
  set (s2 := put_login true _).
  change (_login s2) with true. change (_plant_id s2) with plant_id.
  rewrite Hne. cbn [andb negb].
  rewrite (outside_set_lock_unset _ s2 eq_refl Hnow), Hd.
  cbn [Z.eqb Pos.eqb negb result final trace fst snd].
  rewrite mark_online_run. cbv zeta. cbn [result final trace fst snd].
  repeat split.
Qed.

Lemma setup_device_first_poll_witness :
  available
    (final (setup_device (working_world sample_snapshot)
              (DeviceConfig "Ariston" "user" "secret" 1)))
  = true.
Proof.
  apply (setup_device_first_poll (working_world sample_snapshot)
           (DeviceConfig "Ariston" "user" "secret" 1) "P1" ""
           sample_snapshot);
    [reflexivity | discriminate | left; reflexivity | reflexivity
    | reflexivity | reflexivity].
Defined.

Lemma get_http_data_keeps_identity (w : world) :
  keeps identity (_get_http_data w).
Proof.
  unfold _get_http_data.
  apply keeps_bind; [apply login_session_keeps_other; reflexivity |].
  intros ?. walk_method.
Qed.

Lemma command_keeps_identity (w : world) : keeps identity (command w).
Proof.
  unfold command, schedule_next_tick, count_error, mark_online.
  repeat first [apply get_http_data_keeps_identity | step_method].
Qed.

Lemma actual_set_http_data_keeps_identity (w : world) :
  keeps identity (_actual_set_http_data w).
Proof.
  unfold _actual_set_http_data, take_attempt, compare_params, compare_param,
    retry_or_give_up, forget, transmit.
  apply keeps_bind; [apply login_session_keeps_other; reflexivity |].
  intros ?. walk_method.
Qed.

Lemma set_http_data_keeps_identity `{Platform} (w : world)
    (parameter_list : gmap param string) :
  keeps identity (_set_http_data w parameter_list).
Proof.
  unfold _set_http_data, check_parameters, store.
  repeat first [apply actual_set_http_data_keeps_identity | step_method].
Qed.

Lemma ticks_keep_identity (ws : list world) (self : checker) :
  identity (fst (ticks ws self)) = identity self.
Proof.
  revert self. induction ws as [| w ws IH]; intros self; [reflexivity |].
  cbn [ticks]. specialize (IH (final (command w self))).
  destruct (ticks ws (final (command w self))) as [s t].
  cbn [fst] in *. rewrite IH. apply command_keeps_identity.
Qed.

(** X13.  What no method touches.  The name of the device, the account,
    the address of the server and the allowed number of retries are as
    [__init__] set them after any poll tick, any request to change
    parameters with all the scheduled retries and ticks that follow it,
    however each of them ends. *)
Theorem identity_is_kept `{Platform} (w : world)
    (parameter_list : gmap param string)
    (firings : list (list world * world)) (ws : list world)
    (self : checker) :
  identity (final (command w self)) = identity self /\
  identity (fst (ticks ws self)) = identity self /\
  identity (final (_set_http_data w parameter_list self)) = identity self /\
  identity (fst (write_episode w parameter_list firings self))
  = identity self.
Proof.
  split; [apply command_keeps_identity |].
  split; [apply ticks_keep_identity |].
  split; [apply set_http_data_keeps_identity |].
  unfold write_episode.
  pose proof (set_http_data_keeps_identity w parameter_list self) as Hset.
  destruct (_set_http_data w parameter_list self) as [[r s1] t1].
  cbn [final trace fst snd] in *. rewrite <- Hset.
  generalize (arms_retry t1). clear Hset. revert s1.
  induction firings as [| [ws' w'] rest IH]; intros s1 armed;
    [reflexivity |].
  cbn [fire_timers]. destruct armed; [| reflexivity].
  pose proof (ticks_keep_identity ws' s1) as Hticks.
  destruct (ticks ws' s1) as [s2 t2]. cbn [fst] in Hticks.
  pose proof (actual_set_http_data_keeps_identity w' s2) as Hrun.
  specialize (IH (final (_actual_set_http_data w' s2))
                 (arms_retry (trace (_actual_set_http_data w' s2)))).
  destruct (fire_timers rest _ _) as [s3 t3]. cbn [fst] in *.
  rewrite IH, Hrun. exact Hticks.
Qed.

(** A fresh checker's tick raises something else than an [AristonError]
    exactly when its login request fails. *)
Lemma command_uncounted_exn (w : world) (self : checker) :
  _login self = false -> _url self = ARISTON_URL ->
  (forall e, result (command w self) = Raise e ->
             is_AristonError e = false ->
             e = RequestException /\ login_request_fails w = true) /\
  (login_request_fails w = true ->
   result (command w self) = Raise RequestException).
Proof.
  intros Hl Hu. rewrite command_run. cbv zeta.
  pose proof (get_http_data_raises w (final (schedule_next_tick self)))
    as Hg.
  pose proof (login_session_raises w (final (schedule_next_tick self)))
    as Hlr.
  pose proof (get_http_data_run w (final (schedule_next_tick self))) as Hrun.
  pose proof (login_session_run w (final (schedule_next_tick self))) as Hlog.
  rewrite schedule_next_tick_run in *. cbv zeta in *.
  cbn [final trace fst snd] in *.
  set (s1 := put_retry_timeout _ self) in *.
  change (_login s1) with (_login self) in Hlog. rewrite Hl in Hlog.
  unfold login_request_fails. split.
  - intros e Hr He.
    destruct (_get_http_data w s1) as [[[[] | e'] s2] t];
      cbn [result final trace fst snd] in *; [discriminate |].
    destruct (is_AristonError e') eqn:He';
      cbn [result fst] in Hr; injection Hr as ->; [congruence |].
    destruct (Hg e eq_refl He) as [Hraise _].
    destruct (Hlr e Hu Hraise) as [_ [[-> _] | [[-> Hw] | [-> _]]]];
      [discriminate | | discriminate].
    rewrite Hw. split; reflexivity.
  - destruct (post_login w); try discriminate. intros _.
    rewrite Hrun, Hlog. reflexivity.
Qed.

(** How the first poll of a device ends for [setup]. *)
Lemma setup_device_result (w : world) (device : device_config) :
  result (setup_device w device)
  = (if login_request_fails w then Raise RequestException else Return tt) /\
  _name (final (setup_device w device)) = conf_name device /\
  count_effects is_poll_timer (trace (setup_device w device)) = 1%nat.
Proof.
  unfold setup_device, try_except.
  set (api := __init__ _ _ _ _).
  pose proof (command_keeps_identity w api) as Hid.
  pose proof (command_poll_timer_count w api) as Hpoll.
  pose proof (command_uncounted_exn w api eq_refl eq_refl) as Hexn.
  destruct (command w api) as [[[[] | e] s] t] eqn:Hrun;
    cbn [result final trace fst snd] in *.
  - split; [| split; [exact (f_equal (fun i => fst (fst (fst (fst i)))) Hid)
                     | exact Hpoll]].
    destruct (login_request_fails w) eqn:Hw; [| reflexivity].
    discriminate (proj2 Hexn eq_refl).
  - destruct (is_AristonError e) eqn:He; cbn [ret raise result final trace
                                               fst snd].
    + rewrite app_nil_r.
      split; [| split; [exact (f_equal (fun i => fst (fst (fst (fst i)))) Hid)
                       | exact Hpoll]].
      destruct (login_request_fails w) eqn:Hw; [| reflexivity].
      pose proof (proj2 Hexn eq_refl) as [= ->]. discriminate.
    + rewrite app_nil_r.
      split; [| split; [exact (f_equal (fun i => fst (fst (fst (fst i)))) Hid)
                       | exact Hpoll]].
      destruct (proj1 Hexn e eq_refl He) as [-> ->]. reflexivity.
Qed.

(** X14.  How [setup] ends.  [setup] goes through the configured devices
    and polls each once.  A login that times out or is refused, and any
    communication error of the first read, are logged and passed over; the
    one thing that stops [setup] is a login request that fails otherwise,
    which comes out as the exception of the request.  When no device has
    such a failure, [setup] gives one checker for each device, in the order
    and with the names of the configuration, and each has armed its next
    tick; when one has, the devices before it are polling already. *)
Theorem setup_devices_outcome (devices : list (world * device_config)) :
  match setup_devices devices with
  | (Return api_list, t) =>
      existsb (fun d => login_request_fails (fst d)) devices = false /\
      map _name api_list = map (fun d => conf_name (snd d)) devices /\
      count_effects is_poll_timer t = length devices
  | (Raise e, t) =>
      e = RequestException /\
      existsb (fun d => login_request_fails (fst d)) devices = true /\
      (1 <= count_effects is_poll_timer t <= length devices)%nat
  end.
Proof.
  induction devices as [| [w device] rest IH]; [repeat split |].
  cbn [setup_devices existsb map length fst snd].
  destruct (setup_device_result w device) as (Hres & Hname & Hpoll).
  rewrite Hres.
  destruct (login_request_fails w); cbn [orb].
  - rewrite Hpoll. repeat split; lia.
  - destruct (setup_devices rest) as [[api_list | e] t].
    + destruct IH as (Hnone & Hnames & Hpolls).
      rewrite count_effects_app, Hpoll, Hpolls. cbn [map].
      rewrite Hname, Hnames. repeat split. exact Hnone.
    + destruct IH as (-> & Hsome & Hpolls).
      rewrite count_effects_app, Hpoll. repeat split; [exact Hsome | lia ..].
Qed.

(** ** The checks of a request *)

Lemma store_or_skip_run (key : param) (o : option num) (self : checker) :
  (match o with Some v => store key v | None => ret tt end) self
  = (Return tt,
     put_set_param (match o with
                    | Some v => <[key := v]> (_set_param self)
                    | None => _set_param self
                    end) self, []).
Proof.
  destruct o; [apply store_run |].
  rewrite put_set_param_same. reflexivity.
Qed.

(** The four checks as one update of the pending parameters. *)
Lemma check_parameters_pending `{Platform}
    (parameter_list : gmap param string) (self : checker) (key : param) :
  _set_param (final (check_parameters parameter_list self)) !! key
  = match accepted parameter_list (_ariston_data self) key with
    | Some value => Some value
    | None => _set_param self !! key
    end.
Proof.
  unfold check_parameters. rewrite run_bind_get.
  set (data := _ariston_data self).
  set (a := fun k => accepted parameter_list data k).
  assert (Hrun : forall (k : param) (s : checker),
            (match a k with Some v => store k v | None => ret tt end) s
            = (Return tt,
               put_set_param (match a k with
                              | Some v => <[k := v]> (_set_param s)
                              | None => _set_param s
                              end) s, [])).
  { intros k s. apply store_or_skip_run. }
  assert (Hmode : (match parameter_list !! PARAM_MODE with
                   | Some v =>
                       let wanted_mode := py_lower v in
                       match MODE_TO_VALUE !! wanted_mode with
                       | Some code => store PARAM_MODE (NInt code)
                       | None => ret tt
                       end
                   | None => ret tt
                   end)
                  = match a PARAM_MODE with
                    | Some v => store PARAM_MODE v
                    | None => ret tt
                    end).
  { unfold a, accepted. destruct (parameter_list !! PARAM_MODE) as [v |];
      [| reflexivity].
    cbv zeta. destruct (MODE_TO_VALUE !! py_lower v); reflexivity. }
  assert (Hdhw : (match parameter_list !! PARAM_DHW_SET_TEMPERATURE with
                  | Some v =>
                      let wanted_dhw_temperature := py_lower v in
                      match check_dhw_temperature wanted_dhw_temperature
                              data with
                      | Return (Some temperature) =>
                          store PARAM_DHW_SET_TEMPERATURE temperature
                      | _ => ret tt
                      end
                  | None => ret tt
                  end)
                 = match a PARAM_DHW_SET_TEMPERATURE with
                   | Some v => store PARAM_DHW_SET_TEMPERATURE v
                   | None => ret tt
                   end).
  { unfold a, accepted.
    destruct (parameter_list !! PARAM_DHW_SET_TEMPERATURE) as [v |];
      [| reflexivity].
    cbv zeta. destruct (check_dhw_temperature (py_lower v) data) as [[] |];
      reflexivity. }
  assert (Hch : (match parameter_list !! PARAM_CH_SET_TEMPERATURE with
                 | Some v =>
                     let wanted_ch_temperature := py_lower v in
                     match check_ch_temperature wanted_ch_temperature
                             data with
                     | Return (Some temperature) =>
                         store PARAM_CH_SET_TEMPERATURE temperature
                     | _ => ret tt
                     end
                 | None => ret tt
                 end)
                = match a PARAM_CH_SET_TEMPERATURE with
                  | Some v => store PARAM_CH_SET_TEMPERATURE v
                  | None => ret tt
                  end).
  { unfold a, accepted.
    destruct (parameter_list !! PARAM_CH_SET_TEMPERATURE) as [v |];
      [| reflexivity].
    cbv zeta. destruct (check_ch_temperature (py_lower v) data) as [[] |];
      reflexivity. }
  assert (Hchm : (match parameter_list !! PARAM_CH_MODE with
                  | Some v =>
                      let wanted_ch_mode := py_lower v in
                      match CH_MODE_TO_VALUE !! wanted_ch_mode with
                      | Some code => store PARAM_CH_MODE (NInt code)
                      | None => ret tt
                      end
                  | None => ret tt
                  end)
                 = match a PARAM_CH_MODE with
                   | Some v => store PARAM_CH_MODE v
                   | None => ret tt
                   end).
  { unfold a, accepted. destruct (parameter_list !! PARAM_CH_MODE) as [v |];
      [| reflexivity].
    cbv zeta. destruct (CH_MODE_TO_VALUE !! py_lower v); reflexivity. }
  cbv zeta in Hmode, Hdhw, Hch, Hchm. rewrite Hmode, Hdhw, Hch, Hchm.
  change (accepted parameter_list data key) with (a key).
  rewrite run_bind, Hrun. cbn [result final trace fst snd].
  rewrite run_bind, Hrun. cbn [result final trace fst snd].
  rewrite run_bind, Hrun. cbn [result final trace fst snd].
  rewrite Hrun. cbn [result final trace fst snd].
  simpl _set_param.
  destruct key, (a PARAM_MODE), (a PARAM_DHW_SET_TEMPERATURE),
    (a PARAM_CH_SET_TEMPERATURE), (a PARAM_CH_MODE);
    repeat first [rewrite lookup_insert_eq | rewrite lookup_insert_ne
                    by discriminate]; reflexivity.
Qed.

(** [round] gives an integer that is no further than a half away. *)
Lemma py_round_near (q : Q) :
  (q - (1 # 2) <= inject_Z (py_round q) <= q + (1 # 2))%Q.
Proof.
  unfold py_round. cbv zeta.
  pose proof (Qfloor_le q) as Hlo. pose proof (Qlt_floor q) as Hhi.
  rewrite inject_Z_plus in Hhi. change (inject_Z 1) with 1%Q in Hhi.
  unfold Qlt_bool.
  destruct (Qle_bool (1 # 2) (q - inject_Z (Qfloor q))) eqn:H1; cbn [negb].
  - apply Qle_bool_iff in H1.
    destruct (Qle_bool (q - inject_Z (Qfloor q)) (1 # 2)) eqn:H2; cbn [negb].
    + apply Qle_bool_iff in H2.
      destruct (Z.even (Qfloor q)); rewrite ?inject_Z_plus;
        change (inject_Z 1) with 1%Q; lra.
    + rewrite inject_Z_plus. change (inject_Z 1) with 1%Q.
      assert (H : ~ (q - inject_Z (Qfloor q) <= 1 # 2)%Q).
      { intros Hle. apply Qle_bool_iff in Hle. congruence. }
      lra.
  - assert (H : ~ (1 # 2 <= q - inject_Z (Qfloor q))%Q).
    { intros Hle. apply Qle_bool_iff in Hle. congruence. }
    lra.
Qed.

Lemma check_dhw_temperature_bounds `{Platform} (wanted : string)
    (data : json) (x lo hi : Q) :
  py_float wanted = Some x ->
  bound_at ["dhwTemp"; "min"] data = Return lo ->
  bound_at ["dhwTemp"; "max"] data = Return hi ->
  check_dhw_temperature wanted data
  = Return (if Qle_bool lo (inject_Z (py_round x))
               && Qle_bool (inject_Z (py_round x)) hi
            then Some (NInt (py_round x)) else None).
Proof.
  unfold check_dhw_temperature, parse_float, bound_at, py_ge_num, py_le_num.
  intros -> Hlo Hhi. cbn [obind].
  destruct (get_path ["dhwTemp"; "min"] data) as [jlo |];
    [| discriminate]. cbn [obind] in *. rewrite Hlo. cbn [obind num_Q].
  destruct (Qle_bool lo (inject_Z (py_round x))); [| reflexivity].
  destruct (get_path ["dhwTemp"; "max"] data) as [jhi |];
    [| discriminate]. cbn [obind] in *. rewrite Hhi. cbn [obind num_Q].
  destruct (Qle_bool (inject_Z (py_round x)) hi); reflexivity.
Qed.

Lemma check_ch_temperature_bounds `{Platform} (wanted : string)
    (data : json) (x lo hi : Q) :
  py_float wanted = Some x ->
  bound_at ["zone"; "comfortTemp"; "min"] data = Return lo ->
  bound_at ["zone"; "comfortTemp"; "max"] data = Return hi ->
  check_ch_temperature wanted data
  = if Qle_bool (2 ^ 1024) (Qabs (x * 2)) then Raise OverflowError
    else Return (let t := (inject_Z (py_round (x * 2)) / 2)%Q in
                 if Qle_bool lo t && Qle_bool t hi
                 then Some (NFloat t) else None).
Proof.
  unfold check_ch_temperature, parse_float, round_doubled, bound_at,
    py_ge_num, py_le_num.
  intros -> Hlo Hhi. cbn [obind]. cbv zeta.
  destruct (Qle_bool (2 ^ 1024) (Qabs (x * 2))); [reflexivity |].
  cbn [obind].
  destruct (get_path ["zone"; "comfortTemp"; "min"] data) as [jlo |];
    [| discriminate]. cbn [obind] in *. rewrite Hlo. cbn [obind num_Q].
  destruct (Qle_bool lo _); [| reflexivity].
  destruct (get_path ["zone"; "comfortTemp"; "max"] data) as [jhi |];
    [| discriminate]. cbn [obind] in *. rewrite Hhi. cbn [obind num_Q].
  destruct (Qle_bool _ hi); reflexivity.
Qed.

(** X15.  The checks of a request, key by key.  The checks of
    [_set_http_data] return without any effect and change nothing of the
    checker but the pending parameters.  Each of the four parameters is on
    its own: an accepted value becomes the pending value, and otherwise the
    pending value is as it was.  So a parameter that the request does not
    name keeps its pending value, and no check removes one: a value that is
    rejected leaves the one of an earlier request waiting. *)
Theorem check_parameters_by_key `{Platform}
    (parameter_list : gmap param string) (self : checker) (key : param) :
  result (check_parameters parameter_list self) = Return tt /\
  trace (check_parameters parameter_list self) = [] /\
  but_pending (final (check_parameters parameter_list self))
  = but_pending self /\
  _set_param (final (check_parameters parameter_list self)) !! key
  = match accepted parameter_list (_ariston_data self) key with
    | Some value => Some value
    | None => _set_param self !! key
    end /\
  (parameter_list !! key = None ->
   _set_param (final (check_parameters parameter_list self)) !! key
   = _set_param self !! key) /\
  (is_Some (_set_param self !! key) ->
   is_Some (_set_param (final (check_parameters parameter_list self))
            !! key)).
Proof.
  pose proof (check_parameters_pending parameter_list self key) as Hkey.
  destruct (check_parameters_run parameter_list self) as [p Hp].
  rewrite Hp in *. cbn [result final trace fst snd] in *.
  split; [reflexivity |]. split; [reflexivity |]. split; [reflexivity |].
  split; [exact Hkey |].
  rewrite Hkey. split.
  - intros Hno. unfold accepted. rewrite Hno. reflexivity.
  - intros Hsome. destruct (accepted _ _ key); [eauto | exact Hsome].
Qed.

(** X16.  The check of the water temperature.  When the request gives a
    water temperature that [float] reads, and the snapshot has numbers as
    the bounds of "dhwTemp", the value is rounded to the nearest integer,
    which is at most a half away; the integer becomes the pending value
    when it lies within the bounds, both included, and otherwise the
    pending value stays as it was. *)
Theorem check_parameters_dhw `{Platform}
    (parameter_list : gmap param string) (self : checker)
    (v : string) (x lo hi : Q) :
  parameter_list !! PARAM_DHW_SET_TEMPERATURE = Some v ->
  py_float (py_lower v) = Some x ->
  bound_at ["dhwTemp"; "min"] (_ariston_data self) = Return lo ->
  bound_at ["dhwTemp"; "max"] (_ariston_data self) = Return hi ->
  _set_param (final (check_parameters parameter_list self))
  !! PARAM_DHW_SET_TEMPERATURE
  = (if Qle_bool lo (inject_Z (py_round x))
        && Qle_bool (inject_Z (py_round x)) hi
     then Some (NInt (py_round x))
     else _set_param self !! PARAM_DHW_SET_TEMPERATURE) /\
  (x - (1 # 2) <= inject_Z (py_round x) <= x + (1 # 2))%Q.
Proof.
  intros Hv Hx Hlo Hhi. split; [| apply py_round_near].
  rewrite check_parameters_pending. unfold accepted. rewrite Hv.
  rewrite (check_dhw_temperature_bounds _ _ x lo hi Hx Hlo Hhi).
  destruct (_ && _); reflexivity.
Qed.

Lemma check_parameters_dhw_witness :
  _set_param
    (final (@check_parameters sample_platform
              {[ PARAM_DHW_SET_TEMPERATURE := "55" ]} ready_checker))
  !! PARAM_DHW_SET_TEMPERATURE
  = Some (NInt 55).
Proof.
  apply (@check_parameters_dhw sample_platform
           {[ PARAM_DHW_SET_TEMPERATURE := "55" ]} ready_checker
           "55" 55 40 80);
    reflexivity.
Defined.

(** X17.  The check of the heating temperature.  When the request gives a
    heating temperature [x] that [float] reads, and the snapshot has numbers
    as the bounds of the comfort temperature of the zone, the value is
    doubled, rounded and halved.  When the doubled value leaves the range of
    the floats (from [2 ^ 1023] on in size), [round] raises, nothing is
    stored and the pending value stays as it was.  Otherwise the result is
    the nearest half degree, at most a quarter away from [x]; it becomes
    the pending value when it lies within the bounds, both included, and
    otherwise the pending value stays as it was. *)
Theorem check_parameters_ch `{Platform}
    (parameter_list : gmap param string) (self : checker)
    (v : string) (x lo hi : Q) :
  parameter_list !! PARAM_CH_SET_TEMPERATURE = Some v ->
  py_float (py_lower v) = Some x ->
  bound_at ["zone"; "comfortTemp"; "min"] (_ariston_data self) = Return lo ->
  bound_at ["zone"; "comfortTemp"; "max"] (_ariston_data self) = Return hi ->
  let t := (inject_Z (py_round (x * 2)) / 2)%Q in
  _set_param (final (check_parameters parameter_list self))
  !! PARAM_CH_SET_TEMPERATURE
  = (if Qle_bool (2 ^ 1024) (Qabs (x * 2))
     then _set_param self !! PARAM_CH_SET_TEMPERATURE
     else if Qle_bool lo t && Qle_bool t hi then Some (NFloat t)
     else _set_param self !! PARAM_CH_SET_TEMPERATURE) /\
  (Qle_bool (2 ^ 1024) (Qabs (x * 2)) = true <-> (2 ^ 1023 <= Qabs x)%Q) /\
  (x - (1 # 4) <= t <= x + (1 # 4))%Q.
Proof.
  intros Hv Hx Hlo Hhi t. split; [| split].
  - rewrite check_parameters_pending. unfold accepted. rewrite Hv.
    rewrite (check_ch_temperature_bounds _ _ x lo hi Hx Hlo Hhi).
    destruct (Qle_bool (2 ^ 1024) (Qabs (x * 2))); [reflexivity |].
    cbv zeta. fold t. destruct (_ && _); reflexivity.
  - rewrite Qle_bool_iff, Qabs_Qmult.
    change (Qabs 2) with 2%Q.
    assert (Hpow : (2 ^ 1024 == 2 ^ 1023 * 2)%Q)
      by (apply Qeq_bool_iff; vm_compute; reflexivity).
    rewrite Hpow. split; intros Hle; lra.
  - pose proof (py_round_near (x * 2)) as Hnear. unfold t.
    set (z := inject_Z (py_round (x * 2))) in *.
    assert (Hhalf : (z / 2 == z * (1 # 2))%Q) by (unfold Qdiv; reflexivity).
    rewrite Hhalf. lra.
Qed.

Lemma check_parameters_ch_witness :
  _set_param
    (final (@check_parameters sample_platform
              {[ PARAM_CH_SET_TEMPERATURE := "21" ]} ready_checker))
  !! PARAM_CH_SET_TEMPERATURE
  = Some (NFloat (inject_Z 42 / 2)).
Proof.
  refine (eq_trans
            (proj1 (@check_parameters_ch sample_platform
                      {[ PARAM_CH_SET_TEMPERATURE := "21" ]} ready_checker
                      "21" 21 10 30 _ _ _ _)) _);
    reflexivity.
Defined.

(** X18.  Temperatures that cannot be checked.  When [float] does not read
    the temperature of a request, or the snapshot has no number as the
    lower bound, the check stores nothing and raises nothing: the pending
    value stays as it was. *)
Theorem check_parameters_unreadable `{Platform}
    (parameter_list : gmap param string) (self : checker) (key : param)
    (v : string) :
  parameter_list !! key = Some v ->
  key = PARAM_DHW_SET_TEMPERATURE /\
  (py_float (py_lower v) = None \/
   exists e, bound_at ["dhwTemp"; "min"] (_ariston_data self) = Raise e) \/
  key = PARAM_CH_SET_TEMPERATURE /\
  (py_float (py_lower v) = None \/
   exists e, bound_at ["zone"; "comfortTemp"; "min"] (_ariston_data self)
             = Raise e) ->
  result (check_parameters parameter_list self) = Return tt /\
  _set_param (final (check_parameters parameter_list self)) !! key
  = _set_param self !! key.
Proof.
  intros Hv Hbad.
  split; [destruct (check_parameters_run parameter_list self) as [p ->];
          reflexivity |].
  rewrite check_parameters_pending. unfold accepted. rewrite Hv.
  destruct Hbad as [[-> Hbad] | [-> Hbad]].
  - unfold check_dhw_temperature, parse_float, bound_at, py_ge_num in *.
    destruct (py_float (py_lower v)) as [x |]; [| reflexivity].
    destruct Hbad as [Hbad | [e Hbad]]; [discriminate |].
    cbn [obind].
    destruct (get_path ["dhwTemp"; "min"] (_ariston_data self)) as [j |];
      cbn [obind] in *; [| reflexivity].
    rewrite Hbad. reflexivity.
  - unfold check_ch_temperature, parse_float, bound_at, py_ge_num in *.
    destruct (py_float (py_lower v)) as [x |]; [| reflexivity].
    destruct Hbad as [Hbad | [e Hbad]]; [discriminate |].
    cbn [obind].
    destruct (round_doubled x) as [doubled |]; [| reflexivity].
    cbn [obind].
    destruct (get_path ["zone"; "comfortTemp"; "min"] (_ariston_data self))
      as [j |]; cbn [obind] in *; [| reflexivity].
    rewrite Hbad. reflexivity.
Qed.

Lemma check_parameters_unreadable_witness :
  _set_param
    (final (@check_parameters sample_platform
              {[ PARAM_DHW_SET_TEMPERATURE := "warm" ]} ready_checker))
  !! PARAM_DHW_SET_TEMPERATURE
  = None.
Proof.
  apply (@check_parameters_unreadable sample_platform
           {[ PARAM_DHW_SET_TEMPERATURE := "warm" ]} ready_checker
           PARAM_DHW_SET_TEMPERATURE "warm");
    [reflexivity | left; split; [reflexivity | left; reflexivity]].
Defined.

(** ** Writing *)

Lemma transmit_run (w : world) (url : string) (sd : json) (self : checker) :
  transmit w url sd self =
  let s1 := put_set_time_start (time_set_start w) self in
  let t := [Event (SessionPostSet url sd) s1] in
  match post_set w with
  | ReadTimeout => (Raise CommError, s1, t)
  | RequestFailed => (Raise RequestException, s1, t)
  | Response status_code body =>
      if negb (status_code =? 200)%Z then (Raise CommError, s1, t)
      else
        match body with
        | Some data =>
            (Return tt,
             put_ariston_data data (put_set_time_end (time_set_end w) s1), t)
        | None => (Raise ValueError, put_set_time_end (time_set_end w) s1, t)
        end
  end.
Proof.
  unfold transmit. rewrite run_bind_modify, run_bind_emit. cbv zeta.
  destruct (post_set w) as [| | status_code body]; try reflexivity.
  destruct (negb (status_code =? 200)%Z); [reflexivity |].
  rewrite run_bind_modify. destruct body; reflexivity.
Qed.

Lemma retry_or_give_up_frame (self : checker) :
  write_snapshot (final (retry_or_give_up self)) = write_snapshot self /\
  (count_effects is_set_timer (trace (retry_or_give_up self)) <= 1)%nat /\
  count_effects is_post_set (trace (retry_or_give_up self)) = 0%nat.
Proof.
  rewrite retry_or_give_up_run.
  destruct (_set_scheduled self);
    [| destruct (_set_retry self <? _set_max_retries self)%Z];
    cbn [final trace fst snd];
    rewrite ?count_effects_nil, ?count_effects_one;
    cbn [is_set_timer is_post_set];
    (split; [reflexivity |]); split; (reflexivity || lia).
Qed.

Lemma before_compare_frame (w : world) (self : checker) :
  write_snapshot (final (take_attempt (final (_login_session w self))))
  = write_snapshot self.
Proof.
  pose proof (login_session_keeps_other write_snapshot w
                ltac:(reflexivity) ltac:(reflexivity) ltac:(reflexivity) self)
    as Hk.
  rewrite take_attempt_run. cbn [final fst snd].
  destruct (_set_new_data _); exact Hk.
Qed.

Lemma compare_params_frame (sd : json) (self : checker) :
  write_snapshot (final (compare_params sd self)) = write_snapshot self.
Proof.
  exact (f_equal write_snapshot (compare_params_keeps_but_pending sd self)).
Qed.

(** X19.  What a write run does to the snapshot.  [_actual_set_http_data]
    sends at most one write request and arms at most one retry timer.  The
    snapshot is replaced only by the JSON body of an answer with status
    200, and then the run returns; a run that raises leaves the snapshot.
    A run that sends no write request leaves the snapshot and the write
    times alone; a run that sends one, whatever the answer, sets the start
    time of the write, from which the reads are held back. *)
Theorem actual_set_http_data_snapshot (w : world) (self : checker) :
  (count_effects is_post_set (trace (_actual_set_http_data w self)) <= 1)%nat
  /\
  (count_effects is_set_timer (trace (_actual_set_http_data w self)) <= 1)%nat
  /\
  (_ariston_data (final (_actual_set_http_data w self)) = _ariston_data self
   \/
   result (_actual_set_http_data w self) = Return tt /\
   post_set w
   = Response 200
       (Some (_ariston_data (final (_actual_set_http_data w self))))) /\
  (count_effects is_post_set (trace (_actual_set_http_data w self)) = 0%nat ->
   write_snapshot (final (_actual_set_http_data w self))
   = write_snapshot self) /\
  (count_effects is_post_set (trace (_actual_set_http_data w self)) = 1%nat ->
   _set_time_start (final (_actual_set_http_data w self))
   = time_set_start w).
Proof.
  rewrite actual_set_http_data_run. cbv zeta.
  pose proof (before_compare_frame w self) as Hbefore.
  pose proof (login_session_keeps_other write_snapshot w
                ltac:(reflexivity) ltac:(reflexivity) ltac:(reflexivity) self)
    as Hlog.
  destruct (login_session_counts w self) as [Hcp Hct].
  destruct (_login_session w self) as [[[[] | e] s1] tl];
    cbn [result final trace fst snd] in *.
  2: { rewrite Hcp, Hct. unfold write_snapshot in Hlog.
       injection Hlog as H1 H2 H3.
       repeat split; auto; try lia; try discriminate.
       unfold write_snapshot; congruence. }
  set (s2 := final (take_attempt s1)) in *.
  assert (Hdata : _ariston_data s2 = _ariston_data self)
    by exact (f_equal (fun x => fst (fst x)) Hbefore).
  destruct (ready s2).
  - destruct (prepare_set_data s2) as [sd | e];
      cbn [result final trace fst snd].
    2: { rewrite Hcp, Hct.
         repeat split; auto; try lia; try discriminate. }
    pose proof (compare_params_frame sd s2) as Hcmp.
    destruct (compare_params sd s2) as [[[[[] sd'] | e] s3] t3];
      cbn [result final trace fst snd] in *.
    + pose proof (retry_or_give_up_frame s3) as (Hg & Hgt & Hgp).
      rewrite transmit_run. cbv zeta.
      destruct (retry_or_give_up s3) as [[rg s4] t4].
      cbn [result final trace fst snd] in *.
      assert (Hs4 : _ariston_data s4 = _ariston_data self).
      { rewrite <- Hdata.
        exact (f_equal (fun x => fst (fst x)) (eq_trans Hg Hcmp)). }
      assert (Hcount : forall s5 : checker,
                count_effects is_post_set
                  (tl ++ t4 ++ [Event (SessionPostSet (set_url s2) sd') s5])
                = 1%nat /\
                (count_effects is_set_timer
                   (tl ++ t4 ++ [Event (SessionPostSet (set_url s2) sd') s5])
                 <= 1)%nat).
      { intros s5.
        rewrite !count_effects_app, Hcp, Hct, Hgp, !count_effects_one.
        cbn [is_post_set is_set_timer]. lia. }
      destruct (Hcount (put_set_time_start (time_set_start w) s4))
        as [Hone Htimer].
      assert (Hfail : forall e : exn,
                let r := (Raise e : outcome unit,
                          put_set_time_start (time_set_start w) s4,
                          tl ++ t4 ++
                          [Event (SessionPostSet (set_url s2) sd')
                             (put_set_time_start (time_set_start w) s4)]) in
                (count_effects is_post_set (trace r) <= 1)%nat /\
                (count_effects is_set_timer (trace r) <= 1)%nat /\
                (_ariston_data (final r) = _ariston_data self \/
                 result r = Return tt /\
                 post_set w = Response 200 (Some (_ariston_data (final r))))
                /\
                (count_effects is_post_set (trace r) = 0%nat ->
                 write_snapshot (final r) = write_snapshot self) /\
                (count_effects is_post_set (trace r) = 1%nat ->
                 _set_time_start (final r) = time_set_start w)).
      { intros e r. subst r. cbn [result final trace fst snd].
        rewrite Hone. split; [lia |]. split; [exact Htimer |].
        split; [left; exact Hs4 |].
        split; [discriminate | reflexivity]. }
      destruct (post_set w) as [| | status_code body] eqn:Hw;
        [apply Hfail | apply Hfail |].
      destruct (Z.eqb_spec status_code 200) as [-> | Hno]; cbn [negb];
        [| apply Hfail].
      destruct body as [data |]; cbn [result final trace fst snd];
        rewrite Hone; (split; [lia |]); (split; [exact Htimer |]);
        (split; [| split; [discriminate | reflexivity]]).
      * right. split; reflexivity.
      * left. exact Hs4.
    + rewrite Hcp, Hct.
      split; [lia |]. split; [lia |].
      split; [left; rewrite <- Hdata;
              exact (f_equal (fun x => fst (fst x)) Hcmp) |].
      split; [intros _; exact (eq_trans Hcmp Hbefore) | discriminate].
    + rewrite Hcp, Hct.
      split; [lia |]. split; [lia |].
      split; [left; rewrite <- Hdata;
              exact (f_equal (fun x => fst (fst x)) Hcmp) |].
      split; [intros _; exact (eq_trans Hcmp Hbefore) | discriminate].
  - pose proof (retry_or_give_up_frame s2) as (Hg & Hgt & Hgp).
    destruct (retry_or_give_up s2) as [[rg s4] t4].
    cbn [result final trace fst snd] in *.
    rewrite ?count_effects_app, ?Hcp, ?Hct, ?Hgp.
    split; [lia |]. split; [lia |].
    split; [left; rewrite <- Hdata;
            exact (f_equal (fun x => fst (fst x)) Hg) |].
    split; [intros _; exact (eq_trans Hg Hbefore) | discriminate].
Qed.

Lemma all_params_nodup : NoDup all_params.
Proof. apply (bool_decide_unpack _). vm_compute. reflexivity. Qed.

Lemma all_params_complete (key : param) : key ∈ all_params.
Proof. apply (bool_decide_unpack _). destruct key; vm_compute; reflexivity. Qed.

(** The document of a write: two copies of the snapshot with the deroga
    time converted. *)
Lemma prepare_set_data_run (self : checker) :
  prepare_set_data self
  = match set_path ["zone"; "derogaUntil"] (JStr (_set_deroga_time self))
            (_ariston_data self) with
    | Return converted =>
        Return (JObj [("NewValue", converted); ("OldValue", converted)])
    | Raise e => Raise e
    end.
Proof.
  unfold prepare_set_data.
  set (v := JStr (_set_deroga_time self)).
  set (data := _ariston_data self).
  change (setitem "NewValue" data (JObj []))
    with (Return (JObj [("NewValue", data)])).
  cbn [obind].
  change (setitem "OldValue" data (JObj [("NewValue", data)]))
    with (Return (JObj [("NewValue", data); ("OldValue", data)])).
  cbn [obind].
  change (set_path ["NewValue"; "zone"; "derogaUntil"] v
            (JObj [("NewValue", data); ("OldValue", data)]))
    with (obind (set_path ["zone"; "derogaUntil"] v data)
            (fun x' => Return (JObj [("NewValue", x'); ("OldValue", data)]))).
  destruct (set_path ["zone"; "derogaUntil"] v data) as [converted | e] eqn:Hc;
    [| reflexivity].
  cbn [obind].
  change (set_path ["OldValue"; "zone"; "derogaUntil"] v
            (JObj [("NewValue", converted); ("OldValue", data)]))
    with (obind (set_path ["zone"; "derogaUntil"] v data)
            (fun x' => Return (JObj [("NewValue", converted);
                                     ("OldValue", x')]))).
  rewrite Hc. reflexivity.
Qed.

Lemma compare_param_old_value (key : param) (state : bool * json)
    (self : checker) (c' : bool) (sd' : json) :
  result (compare_param key state self) = Return (c', sd') ->
  get_path ["OldValue"] sd' = get_path ["OldValue"] (snd state).
Proof.
  destruct state as [c sd]. unfold compare_param. rewrite run_bind_get.
  cbn [snd].
  destruct (_set_param self !! key) as [wanted |];
    [| intros [= _ <-]; reflexivity].
  destruct (get_path ("NewValue" :: field_path key) sd) as [field | e];
    [| discriminate].
  cbn [lift]. rewrite run_bind_ret.
  destruct (py_eq_num field wanted).
  - destruct (Qlt_bool _ _); [rewrite run_bind_modify |];
      intros [= _ <-]; reflexivity.
  - destruct (set_path ("NewValue" :: field_path key) (JNum wanted) sd)
      as [sd1 | e] eqn:Hset; [| discriminate].
    cbn [lift]. rewrite run_bind_ret. intros [= _ <-].
    apply (get_path_set_other ("NewValue" :: field_path key) ["OldValue"]
             (JNum wanted) sd sd1 eq_refl Hset).
Qed.

Lemma compare_list_old_value (keys : list param) (state : bool * json)
    (self : checker) (c' : bool) (sd' : json) :
  result (compare_list keys state self) = Return (c', sd') ->
  get_path ["OldValue"] sd' = get_path ["OldValue"] (snd state).
Proof.
  revert state self. induction keys as [| key keys IH]; intros state self.
  - cbn [compare_list]. intros [= ->]. reflexivity.
  - cbn [compare_list]. rewrite run_bind.
    pose proof (compare_param_old_value key state self) as Hstep.
    destruct (compare_param key state self) as [[[[c1 sd1] | e] s1] t1];
      cbn [result final trace fst snd] in *; [| discriminate].
    intros Hrest. rewrite <- (Hstep c1 sd1 eq_refl).
    destruct (compare_list keys (c1, sd1) s1) as [[r2 s2] t2] eqn:Hrun.
    cbn [fst] in Hrest.
    apply (IH (c1, sd1) s1). rewrite Hrun. exact Hrest.
Qed.

(** The comparison, given the case of each parameter. *)
Lemma compare_params_outcome (self : checker) (sd : json)
    (v : param -> verdict) :
  (forall key, judge self sd key = Return (v key)) ->
  exists sd' self',
    compare_params sd self
    = (Return (existsb (fun key => marks_changed (v key)) all_params, sd'),
       self', []) /\
    self' = put_set_param (_set_param self') self /\
    get_path ["OldValue"] sd' = get_path ["OldValue"] sd /\
    forall key,
      settled (v key) (_set_param self !! key) (new_value_field key sd)
              (_set_param self' !! key) (new_value_field key sd').
Proof.
  intros Hj.
  destruct (compare_list_spec all_params all_params_nodup false sd self v)
    as (sd' & self' & Hrun & _ & Hself & _ & Hown).
  { intros k _. apply Hj. }
  exists sd', self'. rewrite compare_params_as_list, Hrun.
  split; [reflexivity |]. split; [exact Hself |].
  split.
  - apply (compare_list_old_value all_params (false, sd) self
             (false || existsb (fun k => marks_changed (v k)) all_params)).
    rewrite Hrun. reflexivity.
  - intros key. apply Hown, all_params_complete.
Qed.

(** A comparison that marks nothing has resolved all that was pending. *)
Lemma unmarked_is_empty (v : param -> verdict) (pending pending' : gmap param num)
    (f f' : param -> outcome json) :
  existsb (fun key => marks_changed (v key)) all_params = false ->
  (forall key, settled (v key) (pending !! key) (f key)
                               (pending' !! key) (f' key)) ->
  pending' = ∅.
Proof.
  intros Hnone Hs. apply map_eq. intros key. rewrite lookup_empty.
  specialize (Hs key).
  assert (Hm : marks_changed (v key) = false).
  { cbn [existsb all_params] in Hnone.
    destruct key;
      repeat (apply orb_false_iff in Hnone as [? Hnone]); assumption. }
  destruct (v key); try discriminate; exact (proj1 Hs).
Qed.

(** A run of a logged-in checker starts from the checker itself. *)
Lemma take_attempt_frame (self : checker) (sd : json) (key : param) :
  ready (final (take_attempt self)) = ready self /\
  prepare_set_data (final (take_attempt self)) = prepare_set_data self /\
  judge (final (take_attempt self)) sd key = judge self sd key /\
  _set_param (final (take_attempt self)) = _set_param self /\
  set_url (final (take_attempt self)) = set_url self.
Proof.
  rewrite take_attempt_run. cbn [final fst snd].
  destruct (_set_new_data self); repeat split.
Qed.

(** X20.  A run with nothing pending.  When no parameter is pending,
    [_actual_set_http_data] sends no write request, however it ends, and
    nothing is pending afterwards. *)
Theorem actual_set_http_data_nothing_pending (w : world) (self : checker) :
  _set_param self = ∅ ->
  count_effects is_post_set (trace (_actual_set_http_data w self)) = 0%nat /\
  _set_param (final (_actual_set_http_data w self)) = ∅.
Proof.
  intros Hnone. rewrite actual_set_http_data_run. cbv zeta.
  destruct (login_session_write_side w self) as [Hlp _].
  destruct (login_session_counts w self) as [Hcp _].
  destruct (_login_session w self) as [[[[] | e] s1] tl];
    cbn [result final trace fst snd] in *;
    [| split; [exact Hcp | congruence]].
  destruct (take_attempt_frame s1 JNull PARAM_MODE) as (_ & _ & _ & Hp2 & _).
  set (s2 := final (take_attempt s1)) in *.
  assert (Hempty : _set_param s2 = ∅) by congruence.
  destruct (ready s2).
  - destruct (prepare_set_data s2) as [sd | e];
      cbn [result final trace fst snd]; [| split; assumption].
    destruct (compare_params_outcome s2 sd (fun _ => Absent))
      as (sd' & s3 & Hrun & _ & _ & Hsettled).
    { intros key. unfold judge. rewrite Hempty, lookup_empty. reflexivity. }
    rewrite Hrun. cbn [existsb all_params marks_changed orb
                         result final trace fst snd].
    split; [exact Hcp |].
    eapply (unmarked_is_empty (fun _ => Absent)); [reflexivity | exact Hsettled].
  - rewrite retry_or_give_up_run.
    destruct (_set_scheduled s2);
      [| destruct (_set_retry s2 <? _set_max_retries s2)%Z];
      cbn [result final trace fst snd];
      rewrite ?count_effects_app, ?Hcp, ?count_effects_nil,
        ?count_effects_one; cbn [is_post_set];
      (split; [reflexivity | first [exact Hempty | reflexivity]]).
Qed.

Lemma actual_set_http_data_nothing_pending_witness :
  count_effects is_post_set
    (trace (_actual_set_http_data (working_world sample_snapshot)
              ready_checker))
  = 0%nat.
Proof.
  apply (actual_set_http_data_nothing_pending
           (working_world sample_snapshot) ready_checker).
  reflexivity.
Defined.



(** Assigning under "NewValue" assigns in that copy and leaves the other. *)
Lemma set_path_new_value (p : list string) (x new_value old_value : json) :
  p <> [] ->
  set_path ("NewValue" :: p) x (write_doc new_value old_value)
  = match set_path p x new_value with
    | Return new_value' => Return (write_doc new_value' old_value)
    | Raise e => Raise e
    end.
Proof.
  destruct p as [| k p]; [contradiction |]. intros _.
  change (set_path ("NewValue" :: k :: p) x (write_doc new_value old_value))
    with (obind (set_path (k :: p) x new_value)
            (fun x' => Return (write_doc x' old_value))).
  destruct (set_path (k :: p) x new_value); reflexivity.
Qed.

Lemma field_path_not_nil (key : param) : field_path key <> [].
Proof. destruct key; discriminate. Qed.

(** One block on the document of a write. *)
Lemma compare_param_doc (key : param) (c : bool)
    (new_value old_value : json) (self : checker) (v : verdict) :
  judge self (write_doc new_value old_value) key = Return v ->
  exists new_value',
    result (compare_param key (c, write_doc new_value old_value) self)
    = Return (c || marks_changed v, write_doc new_value' old_value) /\
    match v with
    | Differs wanted =>
        set_path (field_path key) (JNum wanted) new_value = Return new_value'
    | _ => new_value' = new_value
    end.
Proof.
  unfold judge, compare_param. rewrite run_bind_get.
  destruct (_set_param self !! key) as [wanted |] eqn:Hp.
  - unfold new_value_field.
    destruct (get_path ("NewValue" :: field_path key)
                (write_doc new_value old_value)) as [field | e] eqn:Hf;
      [| discriminate].
    cbn [obind lift]. rewrite run_bind_ret.
    destruct (py_eq_num field wanted).
    + fold (confirmed self). destruct (confirmed self); intros [= <-].
      * rewrite run_bind_modify. exists new_value.
        rewrite orb_false_r. split; reflexivity.
      * exists new_value. rewrite orb_true_r. split; reflexivity.
    + intros [= <-].
      rewrite (set_path_new_value _ _ _ _ (field_path_not_nil key)).
      destruct (set_path_after_get ("NewValue" :: field_path key)
                  (JNum wanted) field (write_doc new_value old_value)
                  ltac:(discriminate) Hf) as [sd' Hsd'].
      rewrite (set_path_new_value _ _ _ _ (field_path_not_nil key)) in Hsd'.
      destruct (set_path (field_path key) (JNum wanted) new_value)
        as [new_value' | e]; [| discriminate].
      cbn [lift]. rewrite run_bind_ret. exists new_value'.
      rewrite orb_true_r. split; reflexivity.
  - intros [= <-]. exists new_value. rewrite orb_false_r.
    split; reflexivity.
Qed.

(** The blocks on the document of a write: "NewValue" ends as [overwrite]
    gives it, "OldValue" as it was. *)
Lemma compare_list_doc (old_value : json) (keys : list param) :
  NoDup keys ->
  forall (c : bool) (new_value : json) (self : checker)
         (v : param -> verdict),
    (forall k, k ∈ keys ->
       judge self (write_doc new_value old_value) k = Return (v k)) ->
    exists new_value',
      result (compare_list keys (c, write_doc new_value old_value) self)
      = Return (c || existsb (fun k => marks_changed (v k)) keys,
                write_doc new_value' old_value) /\
      overwrite v keys new_value = Return new_value'.
Proof.
  induction 1 as [| key keys Hnotin Hnodup IH]; intros c nv self v Hj.
  - exists nv. cbn [compare_list existsb overwrite]. rewrite orb_false_r.
    split; reflexivity.
  - destruct (compare_param_doc key c nv old_value self (v key)
                (Hj key ltac:(left))) as (nv1 & Hres1 & Hdoc1).
    destruct (compare_param_step key c (write_doc nv old_value) self (v key)
                (Hj key ltac:(left)))
      as (sd1 & self1 & Hrun1 & Hc1 & _ & Hother1 & _).
    rewrite Hrun1 in Hres1. cbn [result fst] in Hres1.
    injection Hres1 as ->.
    destruct (IH (c || marks_changed (v key)) nv1 self1 v)
      as (nv2 & Hres2 & Hdoc2).
    { intros k Hk.
      assert (Hne : k <> key) by (intros ->; contradiction).
      destruct (Hother1 k Hne) as [Hp Hf].
      rewrite (judge_frame _ _ _ _ _ Hc1 Hp Hf). apply Hj. right. exact Hk. }
    exists nv2. cbn [compare_list existsb overwrite].
    rewrite run_bind, Hrun1. cbn [result final trace fst snd].
    destruct (compare_list keys _ self1) as [[r2 s2] t2].
    cbn [result fst] in *. rewrite Hres2, orb_assoc.
    split; [reflexivity |].
    destruct (v key);
      [subst nv1; exact Hdoc2 | subst nv1; exact Hdoc2
      | subst nv1; exact Hdoc2 |].
    rewrite Hdoc1. exact Hdoc2.
Qed.

(** X22.  What a write request carries.  When the checker is logged in and
    ready, and the comparison marks a change, the run sends one write
    request to the address of the plant, after the retry timer if it arms
    one.  The document it sends has two entries and no other: "OldValue" is
    the snapshot with the deroga time converted, and "NewValue" is that
    document with the field of every parameter whose pending value differs
    from the snapshot replaced by that value, and nothing else changed.
    The statement is made for a deroga time of ASCII characters, at most
    4300 of them, where the conversion is the one of the code. *)
Theorem actual_set_http_data_request (w : world) (self : checker)
    (converted : json) (v : param -> verdict) :
  _login self = true ->
  ready self = true ->
  (forall s : string,
     get_path ["zone"; "derogaUntil"] (_ariston_data self) = Return (JStr s)
     -> plain_time s = true) ->
  set_path ["zone"; "derogaUntil"] (JStr (_set_deroga_time self))
           (_ariston_data self) = Return converted ->
  (forall key, judge self (write_doc converted converted) key
               = Return (v key)) ->
  existsb (fun key => marks_changed (v key)) all_params = true ->
  exists (new_value : json) (timers : list effect),
    map what (trace (_actual_set_http_data w self))
    = timers ++ [SessionPostSet (set_url self)
                   (write_doc new_value converted)] /\
    (timers = [] \/
     timers = [TrackPointInTime CallActualSetHttpData HTTP_SET_INTERVAL]) /\
    overwrite v all_params converted = Return new_value /\
    forall key,
      get_path (field_path key) new_value
      = match v key with
        | Differs wanted => Return (JNum wanted)
        | _ => get_path (field_path key) converted
        end.
Proof.
  intros Hl Hready _ Hconv Hj Hmarks.
  rewrite actual_set_http_data_run, login_session_run, Hl. cbv zeta.
  cbn [result final trace fst snd].
  set (sd := write_doc converted converted) in *.
  destruct (take_attempt_frame self sd PARAM_MODE)
    as (Hready2 & Hprep2 & _ & _ & Hurl).
  assert (Hj2 : forall key,
            judge (final (take_attempt self)) sd key = Return (v key)).
  { intros key.
    destruct (take_attempt_frame self sd key) as (_ & _ & -> & _).
    apply Hj. }
  set (s2 := final (take_attempt self)) in *.
  rewrite Hready2, Hready, Hprep2, prepare_set_data_run, Hconv.
  fold (write_doc converted converted). fold sd.
  destruct (compare_params_outcome s2 sd v Hj2)
    as (sd' & s3 & Hrun & _ & _ & Hsettled).
  destruct (compare_list_doc converted all_params all_params_nodup false
              converted s2 v) as (new_value & Hres & Hdoc).
  { intros k _. apply Hj2. }
  rewrite <- compare_params_as_list in Hres. fold sd in Hres.
  rewrite Hrun in Hres. cbn [result fst orb] in Hres.
  injection Hres as ->.
  rewrite Hrun, Hmarks. cbn [result final trace fst snd app].
  rewrite transmit_trace, Hurl.
  exists new_value, (map what (trace (retry_or_give_up s3))).
  split; [rewrite map_app; reflexivity |].
  split.
  { rewrite retry_or_give_up_run.
    destruct (_set_scheduled s3); [left; reflexivity |].
    destruct (_set_retry s3 <? _set_max_retries s3)%Z;
      [right | left]; reflexivity. }
  split; [exact Hdoc |].
  intros key. specialize (Hsettled key). unfold settled in Hsettled.
  change (get_path (field_path key) new_value)
    with (new_value_field key (write_doc new_value converted)).
  change (get_path (field_path key) converted)
    with (new_value_field key sd).
  destruct (v key); tauto.
Qed.

Lemma actual_set_http_data_request_witness :
  exists new_value : json,
    In (SessionPostSet (set_url pending_checker)
          (write_doc new_value
             (JObj [("mode", JNum (NInt 0));
                    ("dhwTemp", JObj [("value", JNum (NInt 50));
                                      ("min", JNum (NInt 40));
                                      ("max", JNum (NInt 80))]);
                    ("zone",
                     JObj [("derogaUntil", JStr "2430");
                           ("comfortTemp",
                            JObj [("value", JNum (NFloat 20));
                                  ("min", JNum (NInt 10));
                                  ("max", JNum (NInt 30))]);
                           ("mode", JObj [("value", JNum (NInt 2))])])])))
       (map what (trace (_actual_set_http_data failing_world
                           pending_checker))) /\
    get_path ["zone"; "comfortTemp"; "value"] new_value
    = Return (JNum (NFloat (43 # 2))).
Proof.
  destruct (actual_set_http_data_request failing_world pending_checker
              _ (sample_verdicts true) eq_refl eq_refl
              ltac:(intros s [= <-]; reflexivity) eq_refl
              ltac:(intros []; reflexivity) eq_refl)
    as (new_value & timers & Htrace & _ & _ & Hfield).
  exists new_value. split.
  - rewrite Htrace. apply in_or_app. right. left. reflexivity.
  - apply (Hfield PARAM_CH_SET_TEMPERATURE).
Defined.

(** What a scheduled run does to the retry counter. *)
Lemma scheduled_run_summary (w : world) (self : checker) :
  _set_new_data self = false ->
  (count_effects is_post_set (trace (_actual_set_http_data w self)) <= 1)%nat
  /\
  (count_effects is_set_timer (trace (_actual_set_http_data w self)) <= 1)%nat
  /\
  _set_new_data (final (_actual_set_http_data w self)) = false /\
  _set_max_retries (final (_actual_set_http_data w self))
  = _set_max_retries self /\
  _set_retry (final (_actual_set_http_data w self))
  = (_set_retry self
     + Z.of_nat (count_effects is_set_timer
                   (trace (_actual_set_http_data w self))))%Z /\
  (count_effects is_set_timer (trace (_actual_set_http_data w self)) = 1%nat ->
   (_set_retry self < _set_max_retries self)%Z).
Proof.
  intros Hnew.
  rewrite actual_set_http_data_run. cbv zeta.
  destruct (login_session_write_side w self) as [Hlp Hlr].
  destruct (login_session_counts w self) as [Hcp Hct].
  unfold retry_state in Hlr. injection Hlr as Hr1 Hr2 Hr3 Hr4.
  destruct (_login_session w self) as [[[[] | e] s1] tl];
    cbn [result final trace fst snd] in *;
    [| rewrite Hcp, Hct; repeat split; intros; try lia; congruence].
  rewrite take_attempt_run. cbn [result final trace fst snd].
  rewrite Hr3, Hnew.
  set (s2 := put_set_scheduled false s1).
  assert (Hs2 : retry_state s2
                = (_set_retry self, _set_max_retries self, false, false)).
  { unfold retry_state, s2. simpl. rewrite Hr1, Hr2, Hr3, Hnew.
    reflexivity. }
  assert (Hgive :
    forall s3 : checker, retry_state s3 = retry_state s2 ->
      let g := retry_or_give_up s3 in
      _set_new_data (final g) = false /\
      _set_max_retries (final g) = _set_max_retries self /\
      count_effects is_post_set (trace g) = 0%nat /\
      (count_effects is_set_timer (trace g) <= 1)%nat /\
      _set_retry (final g)
      = (_set_retry self
         + Z.of_nat (count_effects is_set_timer (trace g)))%Z /\
      (count_effects is_set_timer (trace g) = 1%nat ->
       (_set_retry self < _set_max_retries self)%Z)).
  { intros s3 Hs3. rewrite Hs2 in Hs3. unfold retry_state in Hs3.
    injection Hs3 as K1 K2 K3 K4. cbv zeta.
    rewrite retry_or_give_up_run, K4, K1, K2.
    destruct (_set_retry self <? _set_max_retries self)%Z eqn:Hlt;
      cbn [result final trace fst snd]; count_trace; simpl;
      repeat split; intros; try lia; try congruence.
    all: try (apply Z.ltb_lt in Hlt; exact Hlt). }
  destruct (ready s2).
  - destruct (prepare_set_data s2) as [sd | e].
    + pose proof (compare_params_keeps_but_pending sd s2) as Hkeep.
      apply retry_state_but_pending in Hkeep.
      destruct (compare_params sd s2) as [[[[c sd'] | e] s3] t3];
        cbn [result final trace fst snd] in *.
      * destruct c.
        -- destruct (Hgive s3 Hkeep) as (G1 & G2 & G3 & G4 & G5 & G6).
           cbv zeta in *. cbn [result final trace fst snd].
           count_trace. through_transmit.
           rewrite Hcp, Hct, G3.
           repeat split; intros; try lia; try congruence.
           all: try (apply G6; lia).
        -- rewrite Hs2 in Hkeep. unfold retry_state in Hkeep.
           injection Hkeep as K1 K2 K3 K4.
           cbn [result final trace fst snd]. rewrite Hcp, Hct.
           repeat split; intros; try lia; try congruence.
      * rewrite Hs2 in Hkeep. unfold retry_state in Hkeep.
        injection Hkeep as K1 K2 K3 K4.
        cbn [result final trace fst snd]. rewrite Hcp, Hct.
        repeat split; intros; try lia; try congruence.
    + cbn [result final trace fst snd]. rewrite Hcp, Hct.
      unfold retry_state in Hs2. injection Hs2 as K1 K2 K3.
      unfold s2. simpl.
      repeat split; intros; try lia; try congruence.
  - destruct (Hgive s2 eq_refl) as (G1 & G2 & G3 & G4 & G5 & G6).
    cbv zeta in *. cbn [result final trace fst snd].
    count_trace. rewrite Hcp, Hct, G3.
    repeat split; intros; try lia; try congruence.
    all: try (apply G6; lia).
Qed.

(** The scheduled retries of a request: each firing uses up one of the
    retries that are left. *)
Lemma fire_timers_bound (firings : list (list world * world)) :
  forall (armed : bool) (self : checker),
    _set_new_data self = false ->
    (_set_retry self <= _set_max_retries self)%Z ->
    (Z.of_nat (count_effects is_post_set
                 (snd (fire_timers firings armed self)))
     <= if armed then _set_max_retries self - _set_retry self + 1 else 0)%Z /\
    (Z.of_nat (count_effects is_set_timer
                 (snd (fire_timers firings armed self)))
     <= _set_max_retries self - _set_retry self)%Z.
Proof.
  induction firings as [| [ws w] rest IH]; intros armed self Hnew Hle.
  - cbn [fire_timers snd]. rewrite !count_effects_nil.
    destruct armed; lia.
  - cbn [fire_timers]. destruct armed;
      [| cbn [snd]; rewrite !count_effects_nil; lia].
    destruct (ticks_write_side ws self) as (Tw & Tp & Tt).
    destruct (ticks ws self) as [s1 t1]. cbn [fst snd] in *.
    unfold write_side in Tw. injection Tw as W1 W2 W3 W4 W5 W6 W7.
    destruct (scheduled_run_summary w s1) as (P & T & N & M & R & L);
      [congruence |].
    set (r := _actual_set_http_data w s1) in *.
    unfold arms_retry.
    destruct (count_effects is_set_timer (trace r)) as [| [| n]] eqn:Htimers;
      [| | lia].
    + cbn [Nat.ltb Nat.leb]. rewrite fire_timers_unarmed. cbn [snd].
      rewrite !count_effects_app, !count_effects_nil, Tp, Tt, Htimers.
      lia.
    + cbn [Nat.ltb Nat.leb]. specialize (L eq_refl).
      destruct (IH true (final r) N ltac:(lia)) as [IHp IHt].
      destruct (fire_timers rest true (final r)) as [s2 t2].
      cbn [snd] in *.
      rewrite !count_effects_app, Tp, Tt, Htimers.
      rewrite M, R in IHp, IHt. lia.
Qed.

(** X23.  The bound on the retries of a request.  One request to change
    parameters, with all the retries that its timers bring and the poll
    ticks in between, sends at most [retries + 1] write requests and arms
    at most [retries] retry timers, where [retries] is the number that the
    checker was made with, whatever the server answers. *)
Theorem write_episode_retry_bound `{Platform} (w : world)
    (parameter_list : gmap param string)
    (firings : list (list world * world)) (self : checker) :
  (0 <= _set_max_retries self)%Z ->
  (Z.of_nat (count_effects is_post_set
               (snd (write_episode w parameter_list firings self)))
   <= _set_max_retries self + 1)%Z /\
  (Z.of_nat (count_effects is_set_timer
               (snd (write_episode w parameter_list firings self)))
   <= _set_max_retries self)%Z.
Proof.
  intros Hmax. unfold write_episode.
  destruct (is_empty_dict (_ariston_data self)) eqn:Hdata.
  { rewrite set_http_data_run, Hdata. cbn [trace final fst snd].
    change (arms_retry []) with false. rewrite fire_timers_unarmed.
    cbn [fst snd app]. rewrite !count_effects_nil. lia. }
  destruct (set_http_data_summary w parameter_list self Hdata)
    as (Hsum & _ & Hstate).
  unfold initial_attempt_summary in Hsum.
  unfold retry_state in Hstate at 1. injection Hstate as S1 S2 S4.
  set (r := _set_http_data w parameter_list self) in *.
  destruct (result (_login_session w _)) as [[] | e].
  - destruct Hsum as (N1 & N2 & N3 & N4 & N5 & N6 & N7).
    cbn [_set_max_retries put_set_new_data] in N2, N6.
    rewrite S2 in N2, N6.
    assert (Hle : (_set_retry (final r) <= _set_max_retries (final r))%Z).
    { rewrite N5, N2.
      destruct (count_effects is_set_timer (trace r)) as [| [| n]];
        [lia | | lia].
      destruct (N6 eq_refl) as [_ Hpos]. lia. }
    destruct (fire_timers_bound firings (arms_retry (trace r)) (final r)
                N1 Hle) as [Bp Bt].
    destruct (fire_timers firings (arms_retry (trace r)) (final r))
      as [s t]. cbn [fst snd] in *.
    rewrite !count_effects_app. rewrite N5, N2 in Bp, Bt.
    unfold arms_retry in Bp.
    destruct (count_effects is_set_timer (trace r)) as [| [| n]];
      cbn [Nat.ltb Nat.leb] in Bp; lia.
  - destruct Hsum as (_ & _ & _ & N4 & N5).
    unfold arms_retry. rewrite N5. cbn [Nat.ltb Nat.leb].
    rewrite fire_timers_unarmed. cbn [fst snd].
    rewrite !count_effects_app, !count_effects_nil, N4, N5. lia.
Qed.

Lemma write_episode_retry_bound_witness :
  (Z.of_nat (count_effects is_post_set
               (snd (@write_episode sample_platform failing_world
                       winter_request retry_after_failed_tick
                       ready_checker)))
   <= 2)%Z.
Proof.
  apply (@write_episode_retry_bound sample_platform failing_world
           winter_request retry_after_failed_tick ready_checker).
  discriminate.
Defined.

(** ** The service *)

Lemma call_parameter_list_lookup (data : gmap param string) (key : param) :
  call_parameter_list data !! key
  = match data !! key with
    | Some v => if String.eqb v "" then None else Some v
    | None => None
    end.
Proof.
  unfold call_parameter_list, take_parameter.
  destruct key;
    repeat match goal with
    | |- context [match data !! ?k with _ => _ end] =>
        let v := fresh "v" in
        destruct (data !! k) as [v |]; [destruct (String.eqb v "") |]
    end;
    repeat first [rewrite lookup_insert_eq
                 | rewrite lookup_insert_ne by discriminate
                 | rewrite lookup_empty];
    reflexivity.
Qed.

Lemma find_api_first `{Platform} (device : string) (api_list : list checker) :
  forall (k i : nat) (api : checker),
    find_api device api_list k = Some (i, api) ->
    exists j : nat,
      i = (k + j)%nat /\
      api_list !! j = Some api /\
      py_lower (_name api) = py_lower device /\
      forall (m : nat) (a : checker),
        (m < j)%nat -> api_list !! m = Some a ->
        py_lower (_name a) <> py_lower device.
Proof.
  induction api_list as [| a0 rest IH]; intros k i api; [discriminate |].
  cbn [find_api].
  destruct (String.eqb_spec (py_lower (_name a0)) (py_lower device))
    as [Heq | Hne].
  - intros [= <- <-]. exists 0%nat.
    split; [lia |]. split; [reflexivity |]. split; [exact Heq |].
    intros m a Hm. lia.
  - intros Hfind. destruct (IH _ _ _ Hfind) as (j & -> & Hj & Hname & Hfirst).
    exists (S j). split; [lia |]. split; [exact Hj |].
    split; [exact Hname |].
    intros [| m] a Hm; cbn; [intros [= <-]; exact Hne |].
    apply Hfirst. lia.
Qed.

(** The two ways of the handler: the call is refused, or it goes to the
    first checker with the name of the device. *)
Lemma set_ariston_data_route `{Platform} (w : world) (call : service_call)
    (api_list : list checker) :
  set_ariston_data w call api_list = (Failed AristonError, api_list, []) \/
  exists (domain device : string) (rest : list string) (j : nat)
         (api : checker),
    split "." (call_entity_id call) = domain :: device :: rest /\
    py_lower domain = "climate" /\
    api_list !! j = Some api /\
    py_lower (_name api) = py_lower device /\
    (forall (m : nat) (a : checker),
       (m < j)%nat -> api_list !! m = Some a ->
       py_lower (_name a) <> py_lower device) /\
    set_ariston_data w call api_list
    = let r := _set_http_data w (call_parameter_list (call_data call)) api in
      (match result r with
       | Return _ => Done
       | Raise e => Failed (Raised e)
       end, <[j := final r]> api_list, trace r).
Proof.
  unfold set_ariston_data.
  destruct (split "." (call_entity_id call)) as [| domain parts] eqn:Hsplit;
    [left; reflexivity |].
  unfold index. cbn [nth_error].
  destruct (String.eqb (py_lower domain) "climate") eqn:Hdom;
    cbn [negb]; [| left; reflexivity].
  apply String.eqb_eq in Hdom.
  destruct parts as [| device rest]; [left; reflexivity |].
  cbn [nth_error].
  destruct (find_api device api_list 0) as [[i api0] |] eqn:Hfind;
    [| left; reflexivity].
  destruct (find_api_first device api_list 0 i api0 Hfind)
    as (j0 & -> & Hj0 & Hname & Hfirst).
  right. exists domain, device, rest, j0, api0.
  split; [reflexivity |]. split; [exact Hdom |]. split; [exact Hj0 |].
  split; [exact Hname |]. split; [exact Hfirst | reflexivity].
Qed.

(** X24.  What a service call touches.  The handler of the service keeps
    the list of checkers as long as it was, and each checker its name and
    account.  When it ends with the [AristonError] of its own (the entity
    is not of the domain "climate", has no device part, or names no
    device), no checker is changed and nothing is sent.  A checker that
    the call changes is the first one whose name is the device part of the
    entity up to case, the domain being "climate" up to case; it is left as
    [_set_http_data] leaves it on the parameters of the call that are not
    the empty string, and what [_set_http_data] raises comes out. *)
Theorem set_ariston_data_touches_one `{Platform} (w : world)
    (call : service_call) (api_list : list checker) :
  let r := set_ariston_data w call api_list in
  length (snd (fst r)) = length api_list /\
  map identity (snd (fst r)) = map identity api_list /\
  (fst (fst r) = Failed AristonError ->
   snd (fst r) = api_list /\ snd r = []) /\
  forall (j : nat) (api : checker),
    api_list !! j = Some api ->
    snd (fst r) !! j <> Some api ->
    exists (domain device : string) (rest : list string)
           (parameter_list : gmap param string),
      split "." (call_entity_id call) = domain :: device :: rest /\
      py_lower domain = "climate" /\
      py_lower (_name api) = py_lower device /\
      (forall (m : nat) (a : checker),
         (m < j)%nat -> api_list !! m = Some a ->
         py_lower (_name a) <> py_lower device) /\
      (forall key,
         parameter_list !! key
         = match call_data call !! key with
           | Some v => if String.eqb v "" then None else Some v
           | None => None
           end) /\
      snd (fst r) !! j = Some (final (_set_http_data w parameter_list api)) /\
      snd r = trace (_set_http_data w parameter_list api) /\
      fst (fst r)
      = match result (_set_http_data w parameter_list api) with
        | Return _ => Done
        | Raise e => Failed (Raised e)
        end.
Proof.
  cbv zeta.
  destruct (set_ariston_data_route w call api_list)
    as [-> | (domain & device & rest & j0 & api0 & Hsplit & Hdom & Hj0
              & Hname & Hfirst & ->)].
  { cbn [fst snd]. repeat split. intros j api Hj Hno. contradiction. }
  cbv zeta. cbn [fst snd].
  set (pl := call_parameter_list (call_data call)).
  pose proof (set_http_data_keeps_identity w pl api0) as Hid.
  split; [apply length_insert |].
  split.
  { rewrite list_fmap_insert, Hid. apply list_insert_id.
    rewrite list_lookup_fmap, Hj0. reflexivity. }
  split.
  { destruct (result (_set_http_data w pl api0)); discriminate. }
  intros j api Hj Hchanged.
  destruct (decide (j = j0)) as [-> | Hne].
  - assert (api = api0) as -> by congruence.
    exists domain, device, rest, pl.
    split; [exact Hsplit |]. split; [exact Hdom |]. split; [exact Hname |].
    split; [exact Hfirst |].
    split; [intros key; apply call_parameter_list_lookup |].
    split; [apply list_lookup_insert_eq; eapply lookup_lt_Some; exact Hj0 |].
    split; reflexivity.
  - exfalso. apply Hchanged.
    rewrite list_lookup_insert_ne by congruence. exact Hj.
Qed.

(** ** When a write and a tick succeed *)

(** X25.  A write that a read has confirmed.  When the checker is logged in
    and ready, the last write was started before the last read ended, and
    the snapshot shows every pending value in its field, a run of
    [_actual_set_http_data] drops all pending values and returns: it sends
    no request and arms no timer. *)
Theorem actual_set_http_data_confirmed (w : world) (self : checker)
    (converted : json) :
  _login self = true ->
  ready self = true ->
  set_path ["zone"; "derogaUntil"] (JStr (_set_deroga_time self))
           (_ariston_data self) = Return converted ->
  confirmed self = true ->
  (forall key wanted,
     _set_param self !! key = Some wanted ->
     exists field,
       get_path (field_path key) converted = Return field /\
       py_eq_num field wanted = true) ->
  _actual_set_http_data w self
  = (Return tt, put_set_param ∅ (final (take_attempt self)), []).
Proof.
  intros Hl Hready Hconv Hconf Hshown.
  rewrite actual_set_http_data_run, login_session_run, Hl. cbv zeta.
  cbn [result final trace fst snd].
  set (sd := JObj [("NewValue", converted); ("OldValue", converted)]).
  set (v := fun key => match _set_param self !! key with
                       | Some _ => Resolved
                       | None => Absent
                       end).
  assert (Hj : forall key, judge self sd key = Return (v key)).
  { intros key. unfold judge, v.
    destruct (_set_param self !! key) as [wanted |] eqn:Hp; [| reflexivity].
    destruct (Hshown key wanted Hp) as (field & Hfield & Heq).
    change (new_value_field key sd) with (get_path (field_path key) converted).
    rewrite Hfield. cbn [obind]. rewrite Heq, Hconf. reflexivity. }
  destruct (take_attempt_frame self sd PARAM_MODE)
    as (Hready2 & Hprep2 & _ & _ & _).
  assert (Hj2 : forall key,
            judge (final (take_attempt self)) sd key = Return (v key)).
  { intros key.
    destruct (take_attempt_frame self sd key) as (_ & _ & -> & _).
    apply Hj. }
  set (s2 := final (take_attempt self)) in *.
  rewrite Hready2, Hready, Hprep2, prepare_set_data_run, Hconv.
  fold sd.
  destruct (compare_params_outcome s2 sd v Hj2)
    as (sd' & s3 & Hrun & Hs3 & _ & Hsettled).
  assert (Hnone : existsb (fun key => marks_changed (v key)) all_params
                  = false).
  { unfold v. cbn [existsb all_params].
    destruct (_set_param self !! PARAM_MODE),
      (_set_param self !! PARAM_DHW_SET_TEMPERATURE),
      (_set_param self !! PARAM_CH_SET_TEMPERATURE),
      (_set_param self !! PARAM_CH_MODE); reflexivity. }
  rewrite Hrun, Hnone. cbn [result final trace fst snd].
  rewrite Hs3.
  rewrite (unmarked_is_empty v _ _ _ _ Hnone Hsettled). reflexivity.
Qed.

Lemma actual_set_http_data_confirmed_witness :
  _actual_set_http_data failing_world
    (put_set_param {[ PARAM_DHW_SET_TEMPERATURE := NInt 50 ]} ready_checker)
  = (Return tt, put_set_scheduled false ready_checker, []).
Proof.
  refine (eq_trans
            (actual_set_http_data_confirmed failing_world
               (put_set_param {[ PARAM_DHW_SET_TEMPERATURE := NInt 50 ]}
                  ready_checker)
               _ eq_refl eq_refl eq_refl eq_refl _) _).
  - intros key wanted Hw.
    destruct key; vm_compute in Hw; try discriminate.
    injection Hw as <-. eexists. split; reflexivity.
  - reflexivity.
Defined.

(** X26.  What a successful tick stands on.  When [command] returns, the
    checker is logged in with a plant identifier, and either the read was
    answered with status 200 and the JSON body that is now the snapshot,
    or the tick fell within [TIMER_SET_LOCK] seconds of the last write and
    the snapshot and the read times are as they were. *)
Theorem command_success_means (w : world) (self : checker) :
  result (command w self) = Return tt ->
  _login (final (command w self)) = true /\
  _plant_id (final (command w self)) <> "" /\
  (outside_set_lock (time_get_check w) self = true /\
   get_data w = Response 200 (Some (_ariston_data (final (command w self))))
   /\ count_effects is_get (trace (command w self)) = 1%nat
   \/
   outside_set_lock (time_get_check w) self = false /\
   read_side (final (command w self)) = read_side self /\
   count_effects is_get (trace (command w self)) = 0%nat).
Proof.
  rewrite command_run, schedule_next_tick_run. cbv zeta.
  cbn [final trace fst snd].
  set (s1 := put_retry_timeout _ self).
  rewrite get_http_data_run. cbv zeta.
  destruct (login_session_read_side w s1) as [Hread Hstart].
  pose proof (login_session_no_get w s1) as Hget.
  destruct (_login_session w s1) as [[[[] | e] s2] tl];
    cbn [result final trace fst snd] in *.
  2: { destruct (is_AristonError e); [rewrite count_error_run; cbv zeta;
         destruct (negb _ && _) |]; discriminate. }
  destruct (_login s2) eqn:Hl2; cbn [andb].
  2: { cbn [result final trace fst snd is_AristonError].
       rewrite count_error_run. cbv zeta.
       destruct (negb _ && _); discriminate. }
  destruct (String.eqb_spec (_plant_id s2) "") as [Hp | Hp]; cbn [negb].
  { cbn [result final trace fst snd is_AristonError].
    rewrite count_error_run. cbv zeta.
    destruct (negb _ && _); discriminate. }
  assert (Hlock : outside_set_lock (time_get_check w) s2
                  = outside_set_lock (time_get_check w) self).
  { unfold outside_set_lock. rewrite Hstart. reflexivity. }
  rewrite Hlock.
  assert (Hfail : forall (s3 : checker) (t : list event),
            result
              (if is_AristonError CommError
               then (Raise CommError, final (count_error CommError s3),
                     [Event (TrackPointInTime CallCommand (_retry_timeout s1))
                        s1] ++ t ++ trace (count_error CommError s3))
               else (Raise CommError, s3,
                     [Event (TrackPointInTime CallCommand (_retry_timeout s1))
                        s1] ++ t))
            = Return tt -> False).
  { intros s3 t. cbn [is_AristonError result fst]. discriminate. }
  destruct (outside_set_lock (time_get_check w) self).
  - destruct (get_data w) as [| | status_code body];
      cbn [result final trace fst snd]; intros Hr;
      try (exfalso; exact (Hfail _ _ Hr)).
    destruct (Z.eqb_spec status_code 599) as [-> | H599];
      [exfalso; exact (Hfail _ _ Hr) |].
    destruct (Z.eqb_spec status_code 500) as [-> | H500];
      [exfalso; exact (Hfail _ _ Hr) |].
    destruct (Z.eqb_spec status_code 200) as [-> | H200]; cbn [negb] in *;
      [| exfalso; exact (Hfail _ _ Hr)].
    destruct body as [data |]; [| exfalso; exact (Hfail _ _ Hr)].
    cbn [result final trace fst snd] in *.
    rewrite mark_online_run. cbn [final trace fst snd].
    split; [exact Hl2 |]. split; [exact Hp |].
    left. split; [reflexivity |]. split; [reflexivity |].
    rewrite !count_effects_app, Hget, count_effects_one.
    cbn [is_get].
    destruct (available _); reflexivity.
  - cbn [result final trace fst snd]. intros _.
    rewrite mark_online_run. cbn [final trace fst snd].
    split; [exact Hl2 |]. split; [exact Hp |].
    right. split; [reflexivity |]. split; [exact Hread |].
    rewrite !count_effects_app, Hget.
    destruct (available s2); reflexivity.
Qed.

Lemma command_success_means_witness :
  _login (final (command (working_world sample_snapshot) fresh_checker))
  = true.
Proof.
  apply (command_success_means (working_world sample_snapshot)
           fresh_checker).
  reflexivity.
Defined.

(** ** A retry that is cut short *)

Lemma getitem_raises (k : string) (j : json) (e : exn) :
  getitem k j = Raise e -> e = KeyError \/ e = TypeError.
Proof.
  destruct j; simpl; try (intros [= <-]; auto).
  destruct (assoc_get k m); [discriminate | intros [= <-]; auto].
Qed.

Lemma setitem_raises (k : string) (v j : json) (e : exn) :
  setitem k v j = Raise e -> e = TypeError.
Proof. destruct j; simpl; try discriminate; intros [= <-]; reflexivity. Qed.

Lemma get_path_raises (p : list string) (j : json) (e : exn) :
  get_path p j = Raise e -> e = KeyError \/ e = TypeError.
Proof.
  revert j. induction p as [| k p IH]; intros j; [discriminate |].
  cbn [get_path].
  destruct (getitem k j) as [x |] eqn:Hk; cbn [obind].
  - apply IH.
  - intros [= <-]. exact (getitem_raises _ _ _ Hk).
Qed.

Lemma set_path_raises (p : list string) (v j : json) (e : exn) :
  set_path p v j = Raise e -> e = KeyError \/ e = TypeError.
Proof.
  revert j. induction p as [| k p IH]; intros j; [discriminate |].
  destruct p as [| k2 p'].
  - cbn [set_path]. intros Hs. right. exact (setitem_raises _ _ _ _ Hs).
  - change (set_path (k :: k2 :: p') v j)
      with (obind (getitem k j) (fun x =>
              obind (set_path (k2 :: p') v x) (fun x' => setitem k x' j))).
    destruct (getitem k j) as [x |] eqn:Hk; cbn [obind].
    + destruct (set_path (k2 :: p') v x) as [x' |] eqn:Hs; cbn [obind].
      * intros Hset. right. exact (setitem_raises _ _ _ _ Hset).
      * intros [= <-]. exact (IH _ Hs).
    + intros [= <-]. exact (getitem_raises _ _ _ Hk).
Qed.

Lemma prepare_set_data_raises (self : checker) (e : exn) :
  prepare_set_data self = Raise e -> e = KeyError \/ e = TypeError.
Proof.
  rewrite prepare_set_data_run.
  destruct (set_path _ _ _) as [converted |] eqn:Hs; [discriminate |].
  intros [= <-]. exact (set_path_raises _ _ _ _ Hs).
Qed.

(** One block: what it raises, and what it leaves when the data is not
    marked as changed after it. *)
Lemma compare_param_ends (key : param) (c : bool) (sd : json)
    (self : checker) :
  match result (compare_param key (c, sd) self) with
  | Raise e => e = KeyError \/ e = TypeError
  | Return (c', sd') =>
      c' = false ->
      c = false /\
      _set_param (final (compare_param key (c, sd) self)) !! key = None /\
      forall k, k <> key ->
        _set_param (final (compare_param key (c, sd) self)) !! k
        = _set_param self !! k
  end.
Proof.
  unfold compare_param. rewrite run_bind_get.
  destruct (_set_param self !! key) as [wanted |] eqn:Hp.
  - destruct (get_path ("NewValue" :: field_path key) sd) as [field |] eqn:Hf;
      cbn [lift].
    + rewrite run_bind_ret.
      destruct (py_eq_num field wanted).
      * destruct (Qlt_bool _ _); [| cbn [ret result fst]; discriminate].
        rewrite run_bind_modify. cbn [ret result final fst snd].
        intros ->. split; [reflexivity |].
        cbn [_set_param put_set_param].
        split; [apply lookup_delete_eq |].
        intros k Hk. apply lookup_delete_ne. congruence.
      * destruct (set_path _ _ sd) as [sd1 |] eqn:Hs; cbn [lift].
        -- rewrite run_bind_ret. cbn [ret result fst]. discriminate.
        -- rewrite run_bind_raise. cbn [result fst].
           exact (set_path_raises _ _ _ _ Hs).
    + rewrite run_bind_raise. cbn [result fst].
      exact (get_path_raises _ _ _ Hf).
  - cbn [ret result final fst snd]. intros ->.
    split; [reflexivity |]. split; [exact Hp | reflexivity].
Qed.

Lemma compare_list_ends (keys : list param) :
  forall (c : bool) (sd : json) (self : checker),
    match result (compare_list keys (c, sd) self) with
    | Raise e => e = KeyError \/ e = TypeError
    | Return (c', sd') =>
        c' = false ->
        c = false /\
        forall k, k ∈ keys \/ _set_param self !! k = None ->
          _set_param (final (compare_list keys (c, sd) self)) !! k = None
    end.
Proof.
  induction keys as [| key keys IH]; intros c sd self.
  - cbn [compare_list ret result final fst snd]. intros ->.
    split; [reflexivity |]. intros k [Hk | Hk]; [inversion Hk | exact Hk].
  - cbn [compare_list]. rewrite run_bind.
    pose proof (compare_param_ends key c sd self) as Hstep.
    destruct (compare_param key (c, sd) self) as [[[[c1 sd1] | e] s1] t1];
      cbn [result final trace fst snd] in *; [| exact Hstep].
    specialize (IH c1 sd1 s1).
    destruct (compare_list keys (c1, sd1) s1) as [[[[c2 sd2] | e] s2] t2];
      cbn [result final trace fst snd] in *; [| exact IH].
    intros ->. destruct (IH eq_refl) as [-> Hrest].
    destruct (Hstep eq_refl) as (-> & Hkey & Hother).
    split; [reflexivity |].
    intros k Hk. apply Hrest.
    destruct (decide (k = key)) as [-> | Hne]; [right; exact Hkey |].
    destruct Hk as [Hk | Hk].
    + apply elem_of_cons in Hk as [-> | Hk]; [contradiction | left; exact Hk].
    + right. rewrite (Hother k Hne). exact Hk.
Qed.

Lemma compare_params_ends (sd : json) (self : checker) :
  match result (compare_params sd self) with
  | Raise e => e = KeyError \/ e = TypeError
  | Return (c', sd') =>
      c' = false -> _set_param (final (compare_params sd self)) = ∅
  end.
Proof.
  rewrite compare_params_as_list.
  pose proof (compare_list_ends all_params false sd self) as Hends.
  destruct (result (compare_list all_params (false, sd) self))
    as [[c' sd'] | e]; [| exact Hends].
  intros Hc. destruct (Hends Hc) as [_ Hnone].
  apply map_eq. intros k. rewrite lookup_empty.
  apply Hnone. left. apply all_params_complete.
Qed.

(** A scheduled run that finds the retries used up, by the way its login
    step ends. *)
Lemma exhausted_run_ends (w : world) (self : checker) :
  _set_new_data self = false ->
  (_set_max_retries self <= _set_retry self)%Z ->
  match result (_login_session w self) with
  | Return _ =>
      result (_actual_set_http_data w self) <> Raise KeyError ->
      result (_actual_set_http_data w self) <> Raise TypeError ->
      _set_param (final (_actual_set_http_data w self)) = ∅ /\
      _set_scheduled (final (_actual_set_http_data w self)) = false
  | Raise e =>
      result (_actual_set_http_data w self) = Raise e /\
      count_effects is_post_set (trace (_actual_set_http_data w self)) = 0%nat
      /\
      _set_param (final (_actual_set_http_data w self)) = _set_param self /\
      _set_scheduled (final (_actual_set_http_data w self))
      = _set_scheduled self
  end.
Proof.
  intros Hnew Hmax.
  rewrite actual_set_http_data_run. cbv zeta.
  destruct (login_session_write_side w self) as [Hlp Hlr].
  destruct (login_session_counts w self) as [Hcp Hct].
  unfold retry_state in Hlr. injection Hlr as Hr1 Hr2 Hr3 Hr4.
  destruct (_login_session w self) as [[[[] | e] s1] tl];
    cbn [result final trace fst snd] in *;
    [| repeat split; assumption].
  rewrite take_attempt_run. cbn [result final trace fst snd].
  rewrite Hr3, Hnew.
  set (s2 := put_set_scheduled false s1).
  assert (Hgive : forall s3 : checker, retry_state s3 = retry_state s2 ->
            retry_or_give_up s3 = (Return tt, put_set_param ∅ s3, [])).
  { intros s3 Hs3. unfold retry_state, s2 in Hs3. simpl in Hs3.
    injection Hs3 as K1 K2 K3 K4.
    rewrite retry_or_give_up_run, K4, K1, K2, Hr1, Hr2.
    destruct (_set_retry self <? _set_max_retries self)%Z eqn:Hlt;
      [apply Z.ltb_lt in Hlt; lia | reflexivity]. }
  destruct (ready s2).
  - destruct (prepare_set_data s2) as [sd | e] eqn:Hprep;
      cbn [result final trace fst snd].
    2: { intros Hk Ht. exfalso.
         destruct (prepare_set_data_raises _ _ Hprep) as [-> | ->];
           [apply Hk | apply Ht]; reflexivity. }
    pose proof (compare_params_keeps_but_pending sd s2) as Hkeep.
    pose proof (compare_params_ends sd s2) as Hends.
    destruct (compare_params sd s2) as [[[[c sd'] | e] s3] t3];
      cbn [result final trace fst snd] in *.
    + destruct c.
      * rewrite (Hgive s3 (retry_state_but_pending _ _ Hkeep)).
        cbn [result final trace fst snd]. intros _ _.
        destruct (transmit_write_side w (set_url s2) sd' (put_set_param ∅ s3))
          as (Hp & _ & _ & _ & Hsch).
        rewrite Hp, Hsch. split; [reflexivity |].
        change (_set_scheduled (put_set_param ∅ s3))
          with (_set_scheduled (but_pending s3)).
        rewrite Hkeep. reflexivity.
      * cbn [result final trace fst snd]. intros _ _.
        split; [apply Hends; reflexivity |].
        change (_set_scheduled s3) with (_set_scheduled (but_pending s3)).
        rewrite Hkeep. reflexivity.
    + intros Hk Ht. exfalso.
      destruct Hends as [-> | ->]; [apply Hk | apply Ht]; reflexivity.
  - rewrite (Hgive s2 eq_refl). cbn [result final trace fst snd].
    intros _ _. split; reflexivity.
Qed.

(** A run that arms the retry timer leaves the flag set. *)
Lemma armed_run_sets_flag (w : world) (self : checker) :
  count_effects is_set_timer (trace (_actual_set_http_data w self)) = 1%nat ->
  _set_scheduled (final (_actual_set_http_data w self)) = true.
Proof.
  rewrite actual_set_http_data_run. cbv zeta.
  destruct (login_session_counts w self) as [_ Hct].
  destruct (_login_session w self) as [[[[] | e] s1] tl];
    cbn [result final trace fst snd] in *;
    [| rewrite Hct; discriminate].
  set (s2 := final (take_attempt s1)).
  assert (Hgive : forall s3 : checker,
            count_effects is_set_timer (trace (retry_or_give_up s3)) = 1%nat
            -> _set_scheduled (final (retry_or_give_up s3)) = true).
  { intros s3. rewrite retry_or_give_up_run.
    destruct (_set_scheduled s3); [discriminate |].
    destruct (_set_retry s3 <? _set_max_retries s3)%Z;
      [reflexivity | discriminate]. }
  destruct (ready s2).
  - destruct (prepare_set_data s2) as [sd | e];
      cbn [result final trace fst snd]; [| rewrite Hct; discriminate].
    destruct (compare_params sd s2) as [[[[[] sd'] | e] s3] t3];
      cbn [result final trace fst snd]; try (rewrite Hct; discriminate).
    rewrite !count_effects_app, Hct, (proj2 (transmit_counts _ _ _ _)).
    rewrite Nat.add_0_l, Nat.add_0_r. intros Harmed.
    destruct (transmit_write_side w (set_url s2) sd'
                (final (retry_or_give_up s3)))
      as (_ & _ & _ & _ & Hsch).
    rewrite Hsch. apply Hgive. exact Harmed.
  - cbn [result final trace fst snd].
    rewrite count_effects_app, Hct, Nat.add_0_l. apply Hgive.
Qed.

(** A request that finds the flag set arms no retry and leaves the flag. *)
Lemma flagged_request_arms_none `{Platform} (w : world)
    (parameter_list : gmap param string) (self : checker) :
  _set_scheduled self = true ->
  count_effects is_set_timer
    (trace (_set_http_data w parameter_list self)) = 0%nat /\
  _set_scheduled (final (_set_http_data w parameter_list self)) = true.
Proof.
  intros Hflag. rewrite set_http_data_run.
  destruct (is_empty_dict (_ariston_data self));
    [split; [reflexivity | exact Hflag] |].
  destruct (check_parameters_run parameter_list self) as [p Hp].
  rewrite Hp. cbn [final fst snd].
  set (s0 := put_set_new_data true (put_set_param p self)).
  rewrite actual_set_http_data_run. cbv zeta.
  destruct (login_session_write_side w s0) as [_ Hlr].
  destruct (login_session_counts w s0) as [_ Hct].
  unfold retry_state in Hlr. injection Hlr as Hr1 Hr2 Hr3 Hr4.
  destruct (_login_session w s0) as [[[[] | e] s1] tl];
    cbn [result final trace fst snd] in *;
    [| split; [exact Hct | rewrite Hr4; exact Hflag]].
  rewrite take_attempt_run. cbn [result final trace fst snd].
  rewrite Hr3. cbn [s0 _set_new_data put_set_new_data].
  set (s2 := put_set_retry 0 (put_set_new_data false s1)).
  assert (Hs2 : _set_scheduled s2 = true).
  { unfold s2. simpl. rewrite Hr4. exact Hflag. }
  assert (Hgive : forall s3 : checker, _set_scheduled s3 = true ->
            retry_or_give_up s3 = (Return tt, s3, [])).
  { intros s3 Hs3. rewrite retry_or_give_up_run, Hs3. reflexivity. }
  destruct (ready s2).
  - destruct (prepare_set_data s2) as [sd | e];
      cbn [result final trace fst snd]; [| split; [exact Hct | exact Hs2]].
    pose proof (compare_params_keeps_but_pending sd s2) as Hkeep.
    assert (Hs3 : _set_scheduled (final (compare_params sd s2)) = true).
    { change (_set_scheduled (but_pending (final (compare_params sd s2)))
              = true).
      rewrite Hkeep. exact Hs2. }
    destruct (compare_params sd s2) as [[[[[] sd'] | e] s3] t3];
      cbn [result final trace fst snd] in *;
      try (split; [exact Hct | exact Hs3]).
    rewrite (Hgive s3 Hs3). cbn [result final trace fst snd app].
    destruct (transmit_write_side w (set_url s2) sd' s3)
      as (_ & _ & _ & _ & Hsch).
    rewrite Hsch, count_effects_app, Hct, (proj2 (transmit_counts _ _ _ _)).
    split; [reflexivity | exact Hs3].
  - rewrite (Hgive s2 Hs2). cbn [result final trace fst snd].
    rewrite app_nil_r. split; [exact Hct | exact Hs2].
Qed.

(** C3.  What the code does with the one retry of a request.  The maximum
    retry count is 1, no retry is scheduled, and the call of
    [_set_http_data] has armed the retry timer.  Whatever poll ticks run
    before the timer fires, the request ends with the run of that timer: at
    most one write request in the call and one in the retry, and no further
    timer.  When the login step of the retry returns, the retry leaves
    nothing pending and no retry scheduled, whether it sends its request or
    finds the device down, unless the snapshot lacks a field that the run
    reads.  When the login step of the retry raises, the retry ends there:
    it sends no write request, the values of the request stay pending, no
    timer is armed and [_set_scheduled] stays set, so that every later
    request finds the flag set, arms no retry and leaves the flag as it
    is. *)
Theorem write_episode_retry_cut_short `{Platform} (w : world)
    (parameter_list : gmap param string) (ws : list world) (w2 : world)
    (rest : list (list world * world)) (self : checker) :
  _set_max_retries self = 1%Z ->
  _set_scheduled self = false ->
  arms_retry (trace (_set_http_data w parameter_list self)) = true ->
  let r1 := _set_http_data w parameter_list self in
  let r2 := retry_run w parameter_list ws w2 self in
  write_episode w parameter_list ((ws, w2) :: rest) self
  = (final r2, trace r1 ++ snd (ticks ws (final r1)) ++ trace r2) /\
  (count_effects is_post_set (trace r1) <= 1)%nat /\
  count_effects is_set_timer (trace r1) = 1%nat /\
  count_effects is_post_set (snd (ticks ws (final r1))) = 0%nat /\
  count_effects is_set_timer (snd (ticks ws (final r1))) = 0%nat /\
  (count_effects is_post_set (trace r2) <= 1)%nat /\
  count_effects is_set_timer (trace r2) = 0%nat /\
  match result (_login_session w2 (before_retry w parameter_list ws self))
  with
  | Return _ =>
      result r2 <> Raise KeyError ->
      result r2 <> Raise TypeError ->
      _set_param (final r2) = ∅ /\ _set_scheduled (final r2) = false
  | Raise e =>
      result r2 = Raise e /\
      count_effects is_post_set (trace r2) = 0%nat /\
      _set_param (final r2) = _set_param (final r1) /\
      _set_scheduled (final r2) = true /\
      forall (w3 : world) (later : gmap param string),
        count_effects is_set_timer
          (trace (_set_http_data w3 later (final r2))) = 0%nat /\
        _set_scheduled (final (_set_http_data w3 later (final r2))) = true
  end.
Proof.
  intros Hmax Hsch Harmed. cbv zeta.
  destruct (is_empty_dict (_ariston_data self)) eqn:Hdata.
  { rewrite set_http_data_run, Hdata in Harmed. discriminate Harmed. }
  destruct (set_http_data_summary w parameter_list self Hdata)
    as (Hsum & _ & Hstate).
  pose proof (set_http_data_run w parameter_list self) as Hrun1.
  rewrite Hdata in Hrun1.
  pose proof (armed_run_sets_flag w
                (put_set_new_data true
                   (final (check_parameters parameter_list self))))
    as Hflag.
  rewrite <- Hrun1 in Hflag.
  unfold initial_attempt_summary in Hsum.
  unfold retry_state in Hstate at 1. injection Hstate as S1 S2 S4.
  unfold retry_run, before_retry, write_episode.
  set (r1 := _set_http_data w parameter_list self) in *.
  unfold arms_retry in Harmed. apply Nat.ltb_lt in Harmed.
  destruct (result (_login_session w _)) as [[] | e];
    [| destruct Hsum as (_ & _ & _ & _ & N5); lia].
  destruct Hsum as (N1 & N2 & N3 & N4 & N5 & _ & _).
  cbn [_set_max_retries put_set_new_data] in N2. rewrite S2, Hmax in N2.
  assert (Hone : count_effects is_set_timer (trace r1) = 1%nat) by lia.
  rewrite Hone in N5. specialize (Hflag Hone).
  destruct (ticks_write_side ws (final r1)) as (Tw & Tp & Tt).
  unfold arms_retry. rewrite Hone. cbn [Nat.ltb Nat.leb fire_timers].
  destruct (ticks ws (final r1)) as [s1 t1]. cbn [fst snd] in *.
  unfold write_side in Tw. injection Tw as W1 W2 W3 W4 W5 W6 W7.
  assert (Hnew : _set_new_data s1 = false) by congruence.
  assert (Hused : (_set_max_retries s1 <= _set_retry s1)%Z)
    by (rewrite W3, W2, N2, N5; reflexivity).
  destruct (exhausted_retry_run w2 s1 Hnew Hused) as (E1 & E2 & _).
  pose proof (exhausted_run_ends w2 s1 Hnew Hused) as Hends.
  set (r2 := _actual_set_http_data w2 s1) in *.
  unfold arms_retry. rewrite E1. cbn [Nat.ltb Nat.leb].
  rewrite fire_timers_unarmed. cbn [fst snd]. rewrite app_nil_r.
  split; [reflexivity |]. split; [exact N3 |]. split; [reflexivity |].
  split; [exact Tp |]. split; [exact Tt |]. split; [exact E2 |].
  split; [reflexivity |].
  destruct (result (_login_session w2 s1)) as [[] | e]; [exact Hends |].
  destruct Hends as (Hres & Hposts & Hpending & Hkept).
  assert (Hstuck : _set_scheduled (final r2) = true) by congruence.
  split; [exact Hres |]. split; [exact Hposts |].
  split; [congruence |]. split; [exact Hstuck |].
  intros w3 later. apply flagged_request_arms_none. exact Hstuck.
Qed.

Lemma write_episode_retry_cut_short_witness :
  result (@retry_run sample_platform failing_world winter_request
            [at_time 2100 server_error_world] (at_time 2200 failing_world)
            ready_checker)
  = Raise CommError /\
  _set_param
    (fst (@write_episode sample_platform failing_world winter_request
            retry_after_logout ready_checker))
  = {[ PARAM_MODE := NInt 1 ]} /\
  _set_scheduled
    (fst (@write_episode sample_platform failing_world winter_request
            retry_after_logout ready_checker))
  = true /\
  count_effects is_set_timer
    (trace (@_set_http_data sample_platform (at_time 2300 failing_world)
              winter_request
              (fst (@write_episode sample_platform failing_world
                      winter_request retry_after_logout ready_checker))))
  = 0%nat.
Proof.
  pose proof (@write_episode_retry_cut_short sample_platform failing_world
                winter_request [at_time 2100 server_error_world]
                (at_time 2200 failing_world) [] ready_checker
                eq_refl eq_refl eq_refl) as Hcut.
  cbv zeta in Hcut.
  destruct Hcut as (Hepisode & _ & _ & _ & _ & _ & _ & Hends).
  change (result
            (_login_session (at_time 2200 failing_world)
               (@before_retry sample_platform failing_world winter_request
                  [at_time 2100 server_error_world] ready_checker)))
    with (@Raise unit CommError) in Hends.
  destruct Hends as (Hres & _ & Hpending & Hflag & Hlater).
  change retry_after_logout
    with [([at_time 2100 server_error_world], at_time 2200 failing_world)].
  rewrite Hepisode. cbn [fst].
  split; [exact Hres |].
  split; [rewrite Hpending; vm_compute; reflexivity |].
  split; [exact Hflag |].
  apply (Hlater (at_time 2300 failing_world) winter_request).
Defined.
